(** * Auto Master battery dashboard firmware: telemetry core

    A shallow embedding of [firmware/src/esp8266webbatterycell.ino]:
    the telemetry snapshot, the per-slave decode cursors, the CAN frame
    decoder, the simulator, the set-current command encoder and the
    EEPROM preferences, followed by the properties of the specification.

    Conventions of the embedding.
    - [int] values are [Z]; no operation of the modelled code reaches the
      limits of a 32-bit [int] (the cursor never exceeds the cell count,
      the cell count is clamped to 32), so no wrap-around is written.
    - [float] is IEEE-754 binary32, computed with the Standard Library's
      [SpecFloat] operations at precision 24 and maximal exponent 128
      (round to nearest, ties to even).  The target has no FPU and
      evaluates [float] expressions in binary32.
    - [uint8_t] values are [Byte.byte]; arrays are lists, read and written
      by index. *)

From Stdlib Require Import ZArith Bool Lia List.
From Stdlib Require Import Floats.SpecFloat Strings.Byte.
From stdpp Require Import list.
Import ListNotations.
Local Open Scope Z_scope.

(** ** binary32 arithmetic *)

Module F32.

Definition prec : Z := 24.
Definition emax : Z := 128.

Definition float32 : Type := spec_float.

Definition add : float32 -> float32 -> float32 := SFadd prec emax.
Definition sub : float32 -> float32 -> float32 := SFsub prec emax.
Definition mul : float32 -> float32 -> float32 := SFmul prec emax.
Definition div : float32 -> float32 -> float32 := SFdiv prec emax.

(** [a < b], [a <= b]; [a > b] in the source is [ltb b a]. *)
Definition ltb : float32 -> float32 -> bool := SFltb.
Definition leb : float32 -> float32 -> bool := SFleb.

Definition isnan (x : float32) : bool :=
  match x with S754_nan => true | _ => false end.

Definition is_finite (x : float32) : bool :=
  match x with S754_zero _ | S754_finite _ _ _ => true | _ => false end.

(** Conversion of an integer to [float]. *)
Definition of_Z (z : Z) : float32 := binary_normalize prec emax z 0 false.

(** The [float] literal written [n/d] in decimal: the binary32 number
    nearest to the quotient of two exactly representable integers. *)
Definition lit (n d : Z) : float32 := div (of_Z n) (of_Z d).

Definition zero : float32 := S754_zero false.

(** The values a [float] variable can hold: the canonical finite numbers
of the format, the zeros, the infinities and NaN. *)
Definition valid (x : float32) : bool := valid_binary prec emax x.

(** The 32-bit pattern of a [float], as [memcpy] sees it. A NaN has no
    payload in [spec_float]; it is written as the quiet NaN 0x7FC00000. *)
Definition sign_bit (s : bool) : Z := if s then 2147483648 else 0.

Definition to_bits (x : float32) : Z :=
  match x with
  | S754_zero s => sign_bit s
  | S754_infinity s => sign_bit s + 2139095040
  | S754_nan => 2143289344
  | S754_finite s m e =>
      if Zpos m <? 8388608 then sign_bit s + Zpos m
      else sign_bit s + Z.shiftl (e + 150) 23 + (Zpos m - 8388608)
  end.

Definition of_bits (b : Z) : float32 :=
  let s := Z.testbit b 31 in
  let ex := Z.land (Z.shiftr b 23) 255 in
  let mant := Z.land b 8388607 in
  if ex =? 0 then
    match mant with Zpos p => S754_finite s p (-149) | _ => S754_zero s end
  else if ex =? 255 then
    (if mant =? 0 then S754_infinity s else S754_nan)
  else
    match mant + 8388608 with
    | Zpos p => S754_finite s p (ex - 150)
    | _ => S754_nan
    end.

(** [std::round] on [float]: the nearest integer, halfway cases away
    from zero; zeros, infinities and NaN are returned unchanged. *)
Definition round (x : float32) : float32 :=
  match x with
  | S754_finite s m e =>
      if 0 <=? e then x
      else
        match (Zpos m + 2 ^ (- e - 1)) / 2 ^ (- e) with
        | Zpos q => of_Z (if s then Zneg q else Zpos q)
        | _ => S754_zero s
        end
  | _ => x
  end.

(** The conversion [(uint32_t) x] of C++: the value truncated toward
    zero when that fits in 32 bits; the language leaves every other case
    (NaN, infinities, values of -1 or less, values from 2^32 on)
    undefined, which is [None] here. *)
Definition to_u32 (x : float32) : option Z :=
  match x with
  | S754_zero _ => Some 0
  | S754_finite s m e =>
      let t := if 0 <=? e then Zpos m * 2 ^ e else Zpos m / 2 ^ (- e) in
      if s then (if t =? 0 then Some 0 else None)
      else if t <? 4294967296 then Some t else None
  | _ => None
  end.

End F32.

Abbreviation float32 := F32.float32.

(** ** Bytes and arrays *)

Definition byte_val (b : byte) : Z := Z.of_N (Byte.to_N b).

(** The cast [(uint8_t) z]. *)
Definition byte_of_Z (z : Z) : byte :=
  match Byte.of_N (Z.to_N (z mod 256)) with
  | Some b => b
  | None => x00
  end.

(** [a[i]] and [a[i] = v] on an array held as a list. The source only
    indexes inside the array; outside it the read yields [d] and the write
    does nothing (which is also what the EEPROM library does with an
    address outside its buffer). *)
Definition zget {A : Type} (d : A) (a : list A) (i : Z) : A :=
  if i <? 0 then d else default d (a !! Z.to_nat i).

Definition zset {A : Type} (a : list A) (i : Z) (v : A) : list A :=
  if i <? 0 then a else <[Z.to_nat i := v]> a.

(** [for (int i = lo; i < hi; i++) body(i)]. *)
Definition for_range {S : Type} (lo hi : Z) (body : Z -> S -> S) (s : S) : S :=
  fold_left (fun acc k => body (lo + Z.of_nat k) acc)
            (seq 0 (Z.to_nat (hi - lo))) s.

(** ** Configuration constants *)

Definition MAX_CELLS : Z := 32.
Definition DEFAULT_CELLS : Z := 8.
Definition EEPROM_SIZE : Z := 64.
Definition CAN_SET_ID : Z := 1.
Definition CAN_SET_FRAME_TYPE : byte := x30.
Definition EEPROM_MAGIC : byte := xa5.
Definition EEPROM_ADDR_COUNT : Z := 1.
Definition EEPROM_ADDR_CURRENT : Z := 2.

(** The [float] literals of the source. *)
Definition c0_001 : float32 := F32.lit 1 1000.
Definition c0_01 : float32 := F32.lit 1 100.
Definition c0_05 : float32 := F32.lit 5 100.
Definition c0_06 : float32 := F32.lit 6 100.
Definition c3_60 : float32 := F32.lit 360 100.
Definition c3_90 : float32 := F32.lit 390 100.
Definition c4_20 : float32 := F32.lit 420 100.
Definition c20 : float32 := F32.of_Z 20.
Definition c29 : float32 := F32.of_Z 29.
Definition c55 : float32 := F32.of_Z 55.
Definition c100 : float32 := F32.of_Z 100.
Definition c1000 : float32 := F32.of_Z 1000.

(** ** EEPROM

    The library keeps a RAM copy of the flash region: [begin] fills it from
    flash, [read]/[write]/[get]/[put] work on the copy, [commit] writes the
    copy back to flash. *)

Record eeprom := mkEeprom {
  ee_buf : list byte;
  ee_flash : list byte
}.

Definition EEPROM_begin (flash : list byte) : eeprom :=
  mkEeprom flash flash.

Definition EEPROM_read (e : eeprom) (addr : Z) : byte :=
  zget x00 (ee_buf e) addr.

Definition EEPROM_write (e : eeprom) (addr : Z) (v : byte) : eeprom :=
  mkEeprom (zset (ee_buf e) addr v) (ee_flash e).

Definition EEPROM_commit (e : eeprom) : eeprom :=
  mkEeprom (ee_buf e) (ee_buf e).

(** [EEPROM.put(addr, f)] and [EEPROM.get(addr, f)] for a [float]: its four
    bytes, least significant first. The source uses them at address 2 of
    a 64-byte buffer only, where all four bytes are inside. *)
Definition EEPROM_put (e : eeprom) (addr : Z) (f : float32) : eeprom :=
  let b := F32.to_bits f in
  let e0 := EEPROM_write e addr (byte_of_Z b) in
  let e1 := EEPROM_write e0 (addr + 1) (byte_of_Z (Z.shiftr b 8)) in
  let e2 := EEPROM_write e1 (addr + 2) (byte_of_Z (Z.shiftr b 16)) in
  EEPROM_write e2 (addr + 3) (byte_of_Z (Z.shiftr b 24)).

Definition EEPROM_get (e : eeprom) (addr : Z) : float32 :=
  F32.of_bits
    (byte_val (EEPROM_read e addr)
     + Z.shiftl (byte_val (EEPROM_read e (addr + 1))) 8
     + Z.shiftl (byte_val (EEPROM_read e (addr + 2))) 16
     + Z.shiftl (byte_val (EEPROM_read e (addr + 3))) 24).

(** ** Runtime state *)

(** A frame handed to the CAN controller: identifier and payload. The
    payload is [None] when the source's conversion to [uint32_t] is
    undefined for the value it was asked to encode. *)
Definition can_tx : Type := (Z * option (list byte))%type.

Record state := mkState {
  canPresent : bool;
  activeCellCount : Z;
  cells : list float32;
  temperatureC : float32;
  balanceCurrentA : float32;
  packVoltageV : float32;
  currentSettingA : float32;
  nextCellIndexPerSlave : list Z;
  EEPROM : eeprom;
  canSent : list can_tx
}.

Definition set_canPresent (b : bool) (st : state) : state :=
  mkState b (activeCellCount st) (cells st) (temperatureC st)
    (balanceCurrentA st) (packVoltageV st) (currentSettingA st)
    (nextCellIndexPerSlave st) (EEPROM st) (canSent st).

Definition set_activeCellCount (n : Z) (st : state) : state :=
  mkState (canPresent st) n (cells st) (temperatureC st)
    (balanceCurrentA st) (packVoltageV st) (currentSettingA st)
    (nextCellIndexPerSlave st) (EEPROM st) (canSent st).

Definition set_cells (cs : list float32) (st : state) : state :=
  mkState (canPresent st) (activeCellCount st) cs (temperatureC st)
    (balanceCurrentA st) (packVoltageV st) (currentSettingA st)
    (nextCellIndexPerSlave st) (EEPROM st) (canSent st).

Definition set_temperatureC (t : float32) (st : state) : state :=
  mkState (canPresent st) (activeCellCount st) (cells st) t
    (balanceCurrentA st) (packVoltageV st) (currentSettingA st)
    (nextCellIndexPerSlave st) (EEPROM st) (canSent st).

Definition set_balanceCurrentA (a : float32) (st : state) : state :=
  mkState (canPresent st) (activeCellCount st) (cells st) (temperatureC st)
    a (packVoltageV st) (currentSettingA st)
    (nextCellIndexPerSlave st) (EEPROM st) (canSent st).

Definition set_packVoltageV (v : float32) (st : state) : state :=
  mkState (canPresent st) (activeCellCount st) (cells st) (temperatureC st)
    (balanceCurrentA st) v (currentSettingA st)
    (nextCellIndexPerSlave st) (EEPROM st) (canSent st).

Definition set_currentSettingA (a : float32) (st : state) : state :=
  mkState (canPresent st) (activeCellCount st) (cells st) (temperatureC st)
    (balanceCurrentA st) (packVoltageV st) a
    (nextCellIndexPerSlave st) (EEPROM st) (canSent st).

Definition set_nextCellIndexPerSlave (t : list Z) (st : state) : state :=
  mkState (canPresent st) (activeCellCount st) (cells st) (temperatureC st)
    (balanceCurrentA st) (packVoltageV st) (currentSettingA st)
    t (EEPROM st) (canSent st).

Definition set_EEPROM (e : eeprom) (st : state) : state :=
  mkState (canPresent st) (activeCellCount st) (cells st) (temperatureC st)
    (balanceCurrentA st) (packVoltageV st) (currentSettingA st)
    (nextCellIndexPerSlave st) e (canSent st).

Definition set_canSent (l : list can_tx) (st : state) : state :=
  mkState (canPresent st) (activeCellCount st) (cells st) (temperatureC st)
    (balanceCurrentA st) (packVoltageV st) (currentSettingA st)
    (nextCellIndexPerSlave st) (EEPROM st) l.

(** The globals as the C++ start-up code leaves them, before [setup]. *)
Definition boot_state (flash : list byte) : state :=
  mkState false DEFAULT_CELLS (replicate 32 F32.zero) c29 F32.zero F32.zero
    F32.zero (replicate 256 0) (mkEeprom [] flash) [].

(** ** Simulation helpers *)

Definition clampf4 (v lo hi : float32) : float32 :=
  if F32.ltb v lo then lo else if F32.ltb hi v then hi else v.

Definition initSimData (st : state) : state :=
  let st1 :=
    for_range 0 MAX_CELLS
      (fun i s =>
         set_cells
           (zset (cells s) i
                 (F32.add c3_90 (F32.mul c0_06 (F32.of_Z (Z.rem i 3))))) s)
      st in
  let st2 := set_temperatureC c29 st1 in
  let st3 := set_balanceCurrentA F32.zero st2 in
  let st4 := set_packVoltageV F32.zero st3 in
  let st5 := set_currentSettingA F32.zero st4 in
  for_range 0 256
    (fun i s =>
       set_nextCellIndexPerSlave (zset (nextCellIndexPerSlave s) i 0) s)
    st5.

(** One simulator tick. [dv i] is the value [random(-3, 4)] returns in
    iteration [i] of the cell loop, [dt] the value [random(-2, 3)] returns
    for the temperature. *)
Definition tickSimData (dv : Z -> Z) (dt : Z) (st : state) : state :=
  let st1 :=
    for_range 0 (activeCellCount st)
      (fun i s =>
         let v := F32.add (zget F32.zero (cells s) i)
                          (F32.mul (F32.of_Z (dv i)) c0_001) in
         set_cells (zset (cells s) i (clampf4 v c3_60 c4_20)) s)
      st in
  let t := F32.add (temperatureC st1) (F32.mul (F32.of_Z dt) c0_05) in
  set_temperatureC (clampf4 t c20 c55) st1.

(** ** Stats *)

Record stats := mkStats {
  st_total : float32;
  st_avg : float32;
  st_vmin : float32;
  st_vmax : float32
}.

Definition stats_step (c : float32) (acc : float32 * float32 * float32)
  : float32 * float32 * float32 :=
  let '(total, vmin, vmax) := acc in
  let total := F32.add total c in
  let vmin := if F32.ltb c vmin then c else vmin in
  let vmax := if F32.ltb vmax c then c else vmax in
  (total, vmin, vmax).

Definition computeStats (st : state) : stats :=
  let '(total, vmin, vmax) :=
    for_range 0 (activeCellCount st)
      (fun i acc => stats_step (zget F32.zero (cells st) i) acc)
      (F32.zero, c100, F32.zero) in
  let avg :=
    if 0 <? activeCellCount st
    then F32.div total (F32.of_Z (activeCellCount st))
    else F32.zero in
  mkStats total avg vmin vmax.

(** ** HTTP handlers *)

(** What [handleData] hands to the JSON serialiser, before the numbers
    are printed with [String(x, 3)] and [String(x, 1)]. *)
Record snapshot := mkSnapshot {
  j_cells : list float32;
  j_total : float32;
  j_avg : float32;
  j_min : float32;
  j_max : float32;
  j_diff : float32;
  j_temp : float32;
  j_count : Z;
  j_current : float32;
  j_can : bool
}.

Definition handleData (st : state) : snapshot :=
  let s := computeStats st in
  let reportedTotal :=
    if F32.ltb c0_01 (packVoltageV st) then packVoltageV st else st_total s in
  let diff := F32.sub (st_vmax s) (st_vmin s) in
  mkSnapshot
    (for_range 0 (activeCellCount st)
       (fun i acc => acc ++ [zget F32.zero (cells st) i]) [])
    reportedTotal (st_avg s) (st_vmin s) (st_vmax s) diff
    (temperatureC st) (activeCellCount st) (currentSettingA st)
    (canPresent st).

(** The status code of the reply; every handler ends with
    [server.send(200, "text/plain", "OK")]. *)
Definition http_ok : Z := 200.

(** [arg] is [None] when the request has no [count] argument, and
    otherwise the value of [server.arg("count").toInt()]. *)
Definition handleSetCells (arg : option Z) (st : state) : state * Z :=
  match arg with
  | Some c0 =>
      let c := if c0 <? 1 then 1 else c0 in
      let c := if MAX_CELLS <? c then MAX_CELLS else c in
      let st1 := set_activeCellCount c st in
      let st2 :=
        for_range 0 256
          (fun i s =>
             set_nextCellIndexPerSlave (zset (nextCellIndexPerSlave s) i 0) s)
          st1 in
      let st3 :=
        for_range (activeCellCount st2) MAX_CELLS
          (fun i s => set_cells (zset (cells s) i F32.zero) s) st2 in
      let e1 := EEPROM_write (EEPROM st3) 0 EEPROM_MAGIC in
      let e2 := EEPROM_write e1 EEPROM_ADDR_COUNT
                  (byte_of_Z (activeCellCount st3)) in
      (set_EEPROM (EEPROM_commit e2) st3, http_ok)
  | None => (st, http_ok)
  end.

(** ** Set current: persist and send over CAN *)

(** [round] is the C++ library's [std::round] on [float]; the result is
    [None] when the conversion of the rounded value to [uint32_t] is
    undefined. *)
Definition formatCurrentPayload (currentA : float32) : option (list byte) :=
  match F32.to_u32 (F32.round (F32.mul currentA c1000)) with
  | Some mA0 =>
      let mA := if 65535 <? mA0 then 65535 else mA0 in
      Some [ x01; CAN_SET_FRAME_TYPE;
             byte_of_Z (Z.land mA 255);
             byte_of_Z (Z.land (Z.shiftr mA 8) 255);
             x00; x00; x00; x00 ]
  | None => None
  end.

(** The frame goes to [CAN0.sendMsgBuf]; whether the controller accepts it
    only changes what is printed on the serial line. *)
Definition sendCurrentToBMS (currentA : float32) (st : state) : state :=
  if canPresent st
  then set_canSent (canSent st ++ [(CAN_SET_ID, formatCurrentPayload currentA)]) st
  else st.

(** [arg] is [None] when the request has no [value] argument, and
    otherwise the value of [server.arg("value").toFloat()]. *)
Definition handleSetCurrent (arg : option float32) (st : state) : state * Z :=
  match arg with
  | Some v0 =>
      let v := if F32.isnan v0 then F32.zero else v0 in
      let st1 := set_currentSettingA v st in
      let e1 := EEPROM_write (EEPROM st1) 0 EEPROM_MAGIC in
      let e2 := EEPROM_put e1 EEPROM_ADDR_CURRENT (currentSettingA st1) in
      let st2 := set_EEPROM (EEPROM_commit e2) st1 in
      (sendCurrentToBMS (currentSettingA st2) st2, http_ok)
  | None => (st, http_ok)
  end.

(** ** CAN parsing *)

(** What [CAN0.readMsgBuf] delivers: identifier, length and payload. *)
Record frame := mkFrame {
  rxId : Z;
  len : Z;
  buf : list byte
}.

Definition buf_at (f : frame) (i : Z) : Z := byte_val (zget x00 (buf f) i).

(** [(uint16_t)buf[b] | ((uint16_t)buf[b + 1] << 8)], stored in a
    [uint16_t]. *)
Definition raw16 (f : frame) (b : Z) : Z :=
  Z.land (Z.lor (buf_at f b) (Z.shiftl (buf_at f (b + 1)) 8)) 65535.

(** The loop [for (k = 0; k < 3; ++k)] of a cell-voltage frame, from
    iteration [k] on, with [todo] iterations left; it yields the cell
    array and the index [idx] at the loop's exit. *)
Fixpoint cell_burst (f : frame) (n : Z) (todo : nat) (k : Z)
         (cs : list float32) (idx : Z) : list float32 * Z :=
  match todo with
  | O => (cs, idx)
  | S todo' =>
      let b := 2 + k * 2 in
      if len f <=? b + 1 then (cs, idx)
      else
        let raw := raw16 f b in
        let v := F32.div (F32.of_Z raw) c1000 in
        let cs1 := if (0 <=? idx) && (idx <? n) then zset cs idx v else cs in
        let idx1 := idx + 1 in
        let idx2 := if n <=? idx1 then 0 else idx1 in
        cell_burst f n todo' (k + 1) cs1 idx2
  end.

(** The body of the receive loop of [drainCanMessages], for one frame. *)
Definition decodeFrame (f : frame) (st : state) : state :=
  if len f <? 2 then st
  else
    let slave := buf_at f 0 in
    let frameType := buf_at f 1 in
    if frameType =? 0 then
      let idx0 := zget 0 (nextCellIndexPerSlave st) slave in
      let idx :=
        if (idx0 <? 0) || (activeCellCount st <=? idx0) then 0 else idx0 in
      let '(cs, idx') := cell_burst f (activeCellCount st) 3 0 (cells st) idx in
      set_nextCellIndexPerSlave
        (zset (nextCellIndexPerSlave st) slave idx') (set_cells cs st)
    else if frameType =? 8 then
      if 4 <=? len f
      then set_balanceCurrentA (F32.div (F32.of_Z (raw16 f 2)) c1000) st
      else st
    else if frameType =? 9 then
      if 4 <=? len f
      then set_packVoltageV (F32.mul (F32.of_Z (raw16 f 2)) c0_01) st
      else st
    else if frameType =? 10 then
      if 3 <=? len f
      then set_temperatureC (F32.of_Z (buf_at f 2)) st
      else st
    else st.

(** [pending] are the frames the controller holds when the loop starts. *)
Definition drainCanMessages (pending : list frame) (st : state) : state :=
  if canPresent st
  then fold_left (fun s f => decodeFrame f s) pending st
  else st.

(** ** Preferences (EEPROM) *)

Definition loadPrefs (st : state) : state :=
  if Byte.eqb (EEPROM_read (EEPROM st) 0) EEPROM_MAGIC then
    let c := byte_val (EEPROM_read (EEPROM st) EEPROM_ADDR_COUNT) in
    let st1 :=
      if (1 <=? c) && (c <=? MAX_CELLS) then set_activeCellCount c st else st in
    let st2 :=
      set_currentSettingA (EEPROM_get (EEPROM st1) EEPROM_ADDR_CURRENT) st1 in
    if F32.isnan (currentSettingA st2) || F32.ltb (currentSettingA st2) F32.zero
    then set_currentSettingA F32.zero st2
    else st2
  else
    let e1 := EEPROM_write (EEPROM st) 0 EEPROM_MAGIC in
    let e2 := EEPROM_write e1 EEPROM_ADDR_COUNT
                (byte_of_Z (activeCellCount st)) in
    let e3 := EEPROM_put e2 EEPROM_ADDR_CURRENT (currentSettingA st) in
    set_EEPROM (EEPROM_commit e3) st.

(** ** Setup *)

(** [flash] is the content of the EEPROM flash region at power-up and
    [probe] tells whether [CAN0.begin] found the controller. *)
Definition setup (flash : list byte) (probe : bool) : state :=
  let st0 := boot_state flash in
  let st1 := set_EEPROM (EEPROM_begin (ee_flash (EEPROM st0))) st0 in
  let st2 := initSimData st1 in
  let st3 := loadPrefs st2 in
  let st4 := set_canPresent probe st3 in
  if canPresent st4 && F32.ltb F32.zero (currentSettingA st4)
  then sendCurrentToBMS (currentSettingA st4) st4
  else st4.

(** One pass of the periodic branch of [loop]. *)
Definition poll (pending : list frame) (dv : Z -> Z) (dt : Z) (st : state)
  : state :=
  if canPresent st then drainCanMessages pending st
  else tickSimData dv dt st.

(** ** Vocabulary of the specification *)

(** The decode cursor of a slave. *)
Definition cursor (st : state) (slave : Z) : Z :=
  zget 0 (nextCellIndexPerSlave st) slave.

(** Millivolts to volts. *)
Definition mV_to_V (raw : Z) : float32 := F32.div (F32.of_Z raw) c1000.

(** [v] is [raw / 1000] up to a relative error of 2^-24: it is the zero
    when [raw] is 0, and otherwise a positive number [m * 2^e] with
    [|1000 * m * 2^e - raw| <= raw / 2^24]. *)
Definition near_quotient_1000 (raw : Z) (v : float32) : bool :=
  match v with
  | S754_zero false => raw =? 0
  | S754_finite false m e =>
      (e <? 0) &&
      (Z.abs (1000 * Zpos m - raw * 2 ^ (- e)) * 16777216 <=? raw * 2 ^ (- e))
  | _ => false
  end.

(** [p] holds of [z], [z + 1], ..., [z + fuel - 1]. *)
Fixpoint all_from (fuel : nat) (z : Z) (p : Z -> bool) : bool :=
  match fuel with
  | O => true
  | Datatypes.S fuel' => p z && all_from fuel' (z + 1) p
  end.

(** A 16-bit little-endian word at bytes [b] and [b + 1] of a frame. *)
Definition le16 (f : frame) (b : Z) : Z := buf_at f b + 256 * buf_at f (b + 1).

(** The number of readings of a cell-voltage frame whose two bytes are
    both inside the frame, and those readings in volts. *)
Definition complete_readings (f : frame) : Z := Z.min 3 ((len f - 2) / 2).

Definition readings (f : frame) : list float32 :=
  map (fun k => mV_to_V (le16 f (2 + 2 * Z.of_nat k)))
      (seq 0 (Z.to_nat (complete_readings f))).

(** Writing the values [vs] at the positions [c + k], [c + k + 1], ...
    taken modulo [n]. *)
Fixpoint write_wrapping (n c k : Z) (vs : list float32) (cs : list float32)
  : list float32 :=
  match vs with
  | [] => cs
  | v :: vs' => write_wrapping n c (k + 1) vs' (zset cs ((c + k) mod n) v)
  end.

(** What one simulator tick makes of the voltage [x] of cell [i]. *)
Definition tick_cell (dv : Z -> Z) (i : Z) (x : float32) : float32 :=
  clampf4 (F32.add x (F32.mul (F32.of_Z (dv i)) c0_001)) c3_60 c4_20.

(** [c] clamped into [1, 32]. *)
Definition clamp_count (c : Z) : Z := Z.max 1 (Z.min 32 c).

(** The left-to-right [float] sum of the first [n] cells. *)
Definition sum_cells (n : nat) (cs : list float32) : float32 :=
  fold_left F32.add (take n cs) F32.zero.

(** Array sizes of the globals. *)
Definition shape_ok (st : state) : Prop :=
  length (cells st) = 32%nat /\
  length (nextCellIndexPerSlave st) = 256%nat /\
  length (ee_buf (EEPROM st)) = 64%nat.

(** The cell count is in [1, 32] and every cursor is below it. *)
Definition cursor_inv (st : state) : Prop :=
  1 <= activeCellCount st <= 32 /\
  forall s : Z, 0 <= cursor st s < activeCellCount st.

(** No cell voltage and no temperature is a NaN. *)
Definition numeric (st : state) : Prop :=
  Forall (fun v => F32.isnan v = false) (cells st) /\
  F32.isnan (temperatureC st) = false.

(** The preferences hold the magic byte, and a plausible stored count is
    the count in use. *)
Definition prefs_inv (st : state) : Prop :=
  EEPROM_read (EEPROM st) 0 = EEPROM_MAGIC /\
  let c := byte_val (EEPROM_read (EEPROM st) EEPROM_ADDR_COUNT) in
  (1 <= c <= 32 -> c = activeCellCount st).

(** The four invariants together. *)
Definition inv (st : state) : Prop :=
  shape_ok st /\ cursor_inv st /\ prefs_inv st /\ numeric st.

(** The state [setup] hands to [loadPrefs]. *)
Definition st_defaults (flash : list byte) : state :=
  mkState false DEFAULT_CELLS
    (for_range 0 32
       (fun i a =>
          zset a i (F32.add c3_90 (F32.mul c0_06 (F32.of_Z (Z.rem i 3)))))
       (replicate 32 F32.zero))
    c29 F32.zero F32.zero F32.zero (replicate 256 0)
    (EEPROM_begin flash) [].




(** What [random(-3, 4)] and [random(-2, 3)] can return. *)
Definition draws_ok (dv : Z -> Z) (dt : Z) : Prop :=
  (forall i, -3 <= dv i <= 3) /\ -2 <= dt <= 2.

(** The operations that act on the state once [setup] has run. *)
Inductive step : state -> state -> Prop :=
| step_decode (f : frame) (st : state) :
    step st (decodeFrame f st)
| step_drain (pending : list frame) (st : state) :
    step st (drainCanMessages pending st)
| step_set_cells (arg : option Z) (st : state) :
    step st (fst (handleSetCells arg st))
| step_set_current (arg : option float32) (st : state) :
    step st (fst (handleSetCurrent arg st))
| step_load (st : state) :
    step st (loadPrefs st)
| step_tick (dv : Z -> Z) (dt : Z) (st : state) :
    draws_ok dv dt -> step st (tickSimData dv dt st).

Inductive reachable : state -> Prop :=
| reach_setup (flash : list byte) (probe : bool) :
    length flash = 64%nat -> reachable (setup flash probe)
| reach_step (st st' : state) :
    reachable st -> step st st' -> reachable st'.

(** ** The request router and the main loop *)

Definition UPDATE_MS : Z := 200.
Definition CAN_POLL_MS : Z := 200.

(** The routes registered in [setup], with the argument each handler
    reads ([None] when the request does not carry it). *)
Inductive request :=
| GET_root
| GET_data
| GET_setCells (count : option Z)
| GET_setCurrent (value : option float32).

(** What a handler sends. The page is [INDEX_HTML] with its two
    placeholders replaced by the numbers given here; the JSON text is the
    printing of the snapshot. *)
Inductive response :=
| Page (num_cells update_ms : Z)
| Json (j : snapshot)
| Text (code : Z).

Definition handleRoot (st : state) : response :=
  Page (activeCellCount st) UPDATE_MS.

(** [server.handleClient()] with the request that is waiting, if any. *)
Definition handleClient (req : option request) (st : state)
  : state * option response :=
  match req with
  | None => (st, None)
  | Some GET_root => (st, Some (handleRoot st))
  | Some GET_data => (st, Some (Json (handleData st)))
  | Some (GET_setCells a) =>
      let '(st', code) := handleSetCells a st in (st', Some (Text code))
  | Some (GET_setCurrent a) =>
      let '(st', code) := handleSetCurrent a st in (st', Some (Text code))
  end.

(** The runtime state together with the two other globals of the main
    loop: the flag the interrupt routine sets and the [static] time of
    the last poll. *)
Record sched := mkSched {
  core : state;
  canIrqFlag : bool;
  lastPoll : Z
}.

Definition canIsr (s : sched) : sched :=
  mkSched (core s) true (lastPoll s).

(** Subtraction of two [uint32_t]. *)
Definition u32_sub (a b : Z) : Z := (a - b) mod 4294967296.

(** One pass of [loop]. [now] is what [millis()] returns, [rx_irq] and
    [rx_poll] are the frames the controller holds when the first and the
    second call of [drainCanMessages] start, [dv] and [dt] the draws of a
    simulator tick. The flag of [s] is the flag as the pass reads it; an
    interrupt that arrives later in the pass is [canIsr] on its result. *)
Definition loop (req : option request) (now : Z) (rx_irq rx_poll : list frame)
           (dv : Z -> Z) (dt : Z) (s : sched) : sched * option response :=
  let '(st1, resp) := handleClient req (core s) in
  let s1 := mkSched st1 (canIrqFlag s) (lastPoll s) in
  let s2 :=
    if canIrqFlag s1
    then mkSched (drainCanMessages rx_irq (core s1)) false now
    else s1 in
  let s3 :=
    if CAN_POLL_MS <=? u32_sub now (lastPoll s2)
    then mkSched (poll rx_poll dv dt (core s2)) (canIrqFlag s2) now
    else s2 in
  (s3, resp).

(** ** Vocabulary of the further properties *)

(** By how much a frame moves the cursor of slave [s]: the number of its
    complete readings when it is a cell-voltage frame of that slave. *)
Definition advance (s : Z) (f : frame) : Z :=
  if (2 <=? len f) && (buf_at f 1 =? 0) && (buf_at f 0 =? s)
  then complete_readings f else 0.

(** The frame is one the decoder acts on: it has its two header bytes and
    a known type. *)
Definition known_frame (f : frame) : bool :=
  (2 <=? len f)
  && ((buf_at f 1 =? 0) || (buf_at f 1 =? 8) || (buf_at f 1 =? 9)
      || (buf_at f 1 =? 10)).

(** [lo <= v <= hi]. *)
Definition between (lo hi v : float32) : bool := F32.leb lo v && F32.leb v hi.

(** The scalars a 16-bit reading decodes to are inside the range of the
    wire format: a balance current in [0, 65.535] A and a pack voltage in
    [0, 655.35] V. *)
Definition scalar_ranges (hiA hiV k : float32) (raw : Z) : bool :=
  between F32.zero hiA (mV_to_V raw)
  && between F32.zero hiV (F32.mul (F32.of_Z raw) k).

(** A temperature byte decodes to a whole number in [0, 255]. *)
Definition temperature_range (b : Z) : bool :=
  between F32.zero (F32.of_Z 255) (F32.of_Z b).

(** ** Sample inputs *)

Definition flash_erased : list byte := replicate 64 xff.

Definition st_fresh : state := setup flash_erased true.

(** Slave 5 reports 1000 mV, 2000 mV and 3000 mV. *)
Definition frame_burst : frame :=
  mkFrame 256 8 [x05; x00; xe8; x03; xd0; x07; xb8; x0b].

(** A frame of an unknown type, 0x77. *)
Definition frame_unknown : frame :=
  mkFrame 256 8 [x05; x77; xe8; x03; xd0; x07; xb8; x0b].

(** Slave 5 reports a pack voltage of 4000 x 10 mV. *)
Definition frame_pack : frame := mkFrame 256 4 [x05; x09; xa0; x0f].

Definition st_pack : state := decodeFrame frame_pack st_fresh.

(** A state reached after a set-cell-count request and a frame. *)
Definition st_sample : state :=
  decodeFrame frame_burst (fst (handleSetCells (Some 40) st_fresh)).

(** The setpoint 42.5 A. *)
Definition c42_5 : float32 := F32.lit 425 10.

(** The setpoint -5 A. *)
Definition c_neg5 : float32 := F32.of_Z (-5).


(** Preferences with a valid magic byte, count 8 and the bit pattern
    0x7F800000 of +infinity as setpoint. *)
Definition flash_inf : list byte :=
  [xa5; x08; x00; x00; x80; x7f] ++ replicate 58 xff.

Definition st_inf : state := set_EEPROM (EEPROM_begin flash_inf) st_fresh.

(** A stored setpoint that [load] is said to accept: finite and not
    below zero. *)
Definition finite_nonneg (x : float32) : bool :=
  F32.is_finite x && negb (F32.ltb x F32.zero).

(** The first six bytes of the preferences: magic, count, setpoint. *)
Definition prefs_image (count : Z) (current : float32) : list byte :=
  let b := F32.to_bits current in
  [ EEPROM_MAGIC; byte_of_Z count;
    byte_of_Z b; byte_of_Z (Z.shiftr b 8);
    byte_of_Z (Z.shiftr b 16); byte_of_Z (Z.shiftr b 24) ].



(** Everything written to the preferences has been committed, and a
    stored count that is not plausible goes with the default count. *)
Definition committed (st : state) : Prop :=
  ee_flash (EEPROM st) = ee_buf (EEPROM st) /\
  (let c := byte_val (EEPROM_read (EEPROM st) EEPROM_ADDR_COUNT) in
   ~ 1 <= c <= 32 -> activeCellCount st = DEFAULT_CELLS).

(** A step hands at most one frame to the controller, with the
    identifier of the set-current command. *)
Definition sends_at_most_one (st st' : state) : Prop :=
  canSent st' = canSent st \/
  (canPresent st = true /\
   exists p, canSent st' = canSent st ++ [(CAN_SET_ID, p)]).

(** Slave 6 reports 3500 mV, 3600 mV and 3700 mV. *)
Definition frame_burst6 : frame :=
  mkFrame 256 8 [x06; x00; xac; x0d; x10; x0e; x74; x0e].

(** The loop state 100 ms before the millisecond counter wraps around. *)
Definition sched_before_wrap : sched := mkSched st_fresh false 4294967196.

(** None of the numbers the dashboard shows is a NaN. *)
Definition no_nan (st : state) : Prop :=
  numeric st
  /\ F32.isnan (currentSettingA st) = false
  /\ F32.isnan (balanceCurrentA st) = false
  /\ F32.isnan (packVoltageV st) = false.

(** ** Proof tactics *)

(** Boolean comparisons of the embedding, as propositions. *)
Ltac zb :=
  repeat match goal with
  | H : (_ <? _) = true |- _ => apply Z.ltb_lt in H
  | H : (_ <? _) = false |- _ => apply Z.ltb_ge in H
  | H : (_ <=? _) = true |- _ => apply Z.leb_le in H
  | H : (_ <=? _) = false |- _ => apply Z.leb_gt in H
  | H : (_ =? _) = true |- _ => apply Z.eqb_eq in H
  | H : (_ =? _) = false |- _ => apply Z.eqb_neq in H
  | H : (_ <? _)%nat = true |- _ => apply Nat.ltb_lt in H
  | H : (_ <? _)%nat = false |- _ => apply Nat.ltb_ge in H
  | H : (_ && _) = true |- _ => apply andb_true_iff in H; destruct H
  | H : (_ || _) = false |- _ => apply orb_false_iff in H; destruct H
  end.

(** Projections of updated states and EEPROM records. *)
Ltac st_simpl :=
  cbn [activeCellCount set_activeCellCount set_nextCellIndexPerSlave set_cells
       set_temperatureC set_balanceCurrentA set_packVoltageV
       set_currentSettingA set_EEPROM set_canSent set_canPresent
       cells nextCellIndexPerSlave EEPROM canPresent temperatureC
       balanceCurrentA packVoltageV currentSettingA canSent
       ee_buf ee_flash EEPROM_write EEPROM_commit EEPROM_read fst snd] in *.


(** * Properties *)

(** ** Arrays and loops *)

Lemma zget_zset_eq {A : Type} (d : A) (a : list A) (i : Z) (v : A) :
  0 <= i < Z.of_nat (length a) -> zget d (zset a i v) i = v.
Proof.
  intros H. unfold zget, zset.
  destruct (i <? 0) eqn:E; zb; [lia|].
  rewrite list_lookup_insert_eq by lia. reflexivity.
Qed.

Lemma zget_zset_ne {A : Type} (d : A) (a : list A) (i j : Z) (v : A) :
  i <> j -> 0 <= j -> zget d (zset a i v) j = zget d a j.
Proof.
  intros H Hj. unfold zget, zset.
  destruct (j <? 0) eqn:E; zb; [lia|].
  destruct (i <? 0) eqn:E'; zb; [reflexivity|].
  rewrite list_lookup_insert_ne by lia. reflexivity.
Qed.

Lemma length_zset {A : Type} (a : list A) (i : Z) (v : A) :
  length (zset a i v) = length a.
Proof.
  unfold zset. destruct (i <? 0); [reflexivity|apply length_insert].
Qed.

Lemma lookup_zset {A : Type} (a : list A) (i : Z) (v : A) (j : nat) :
  zset a i v !! j =
  if (i =? Z.of_nat j) && (j <? length a)%nat then Some v else a !! j.
Proof.
  unfold zset. destruct (i <? 0) eqn:E.
  - destruct (i =? Z.of_nat j) eqn:E'; zb; [lia|reflexivity].
  - destruct (i =? Z.of_nat j) eqn:E'; zb; simpl.
    + assert (Z.to_nat i = j) as -> by lia.
      destruct (j <? length a)%nat eqn:E''; zb.
      * apply list_lookup_insert_eq. lia.
      * rewrite list_insert_ge; [reflexivity|]. lia.
    + apply list_lookup_insert_ne. lia.
Qed.

Lemma for_range_none {S : Type} (lo hi : Z) (body : Z -> S -> S) (s : S) :
  hi <= lo -> for_range lo hi body s = s.
Proof.
  intros H. unfold for_range.
  replace (Z.to_nat (hi - lo)) with 0%nat by lia. reflexivity.
Qed.

Lemma for_range_last {S : Type} (lo hi : Z) (body : Z -> S -> S) (s : S) :
  lo <= hi ->
  for_range lo (hi + 1) body s = body hi (for_range lo hi body s).
Proof.
  intros H. unfold for_range.
  replace (Z.to_nat (hi + 1 - lo)) with (Datatypes.S (Z.to_nat (hi - lo))) by lia.
  rewrite seq_S, fold_left_app. simpl.
  f_equal. lia.
Qed.

(** The invariant rule of the counting loop. *)
Lemma for_range_ind {S : Type} (P : Z -> S -> Prop) (lo hi : Z)
      (body : Z -> S -> S) (s : S) :
  lo <= hi ->
  P lo s ->
  (forall i x, lo <= i < hi -> P i x -> P (i + 1) (body i x)) ->
  P hi (for_range lo hi body s).
Proof.
  intros Hle H0 Hstep.
  assert (forall k : nat, lo + Z.of_nat k <= hi ->
            P (lo + Z.of_nat k) (for_range lo (lo + Z.of_nat k) body s)) as G.
  { induction k as [|k IH]; intros Hk.
    - rewrite Z.add_0_r, for_range_none by lia. exact H0.
    - replace (lo + Z.of_nat (Datatypes.S k)) with (lo + Z.of_nat k + 1) by lia.
      rewrite for_range_last by lia.
      apply Hstep; [lia|]. apply IH. lia. }
  specialize (G (Z.to_nat (hi - lo))).
  replace (lo + Z.of_nat (Z.to_nat (hi - lo))) with hi in G by lia.
  apply G. lia.
Qed.

(** ** Bytes *)

Lemma byte_val_range (b : byte) : 0 <= byte_val b < 256.
Proof.
  unfold byte_val. pose proof (Byte.to_N_bounded b). lia.
Qed.

Lemma byte_val_of_Z (z : Z) : byte_val (byte_of_Z z) = z mod 256.
Proof.
  unfold byte_val, byte_of_Z.
  pose proof (Z.mod_pos_bound z 256 eq_refl) as Hm.
  pose proof (Byte.to_of_N_option_map (Z.to_N (z mod 256))) as H.
  destruct (Byte.of_N (Z.to_N (z mod 256))) as [b|] eqn:E; simpl in H.
  - destruct (Z.to_N (z mod 256) <=? 255)%N; [|discriminate].
    injection H as ->. lia.
  - destruct (Z.to_N (z mod 256) <=? 255)%N eqn:E'; [discriminate|].
    apply N.leb_gt in E'. lia.
Qed.

Lemma byte_of_Z_val (b : byte) : byte_of_Z (byte_val b) = b.
Proof.
  unfold byte_of_Z, byte_val.
  pose proof (Byte.to_N_bounded b).
  rewrite Z.mod_small by lia.
  rewrite N2Z.id, Byte.of_to_N. reflexivity.
Qed.

Lemma lor_shiftl_8 (a b : Z) :
  0 <= a < 256 -> 0 <= b < 256 ->
  Z.land (Z.lor a (Z.shiftl b 8)) 65535 = a + 256 * b.
Proof.
  intros Ha Hb.
  assert (Z.land a (Z.shiftl b 8) = 0) as Hdisj.
  { apply Z.bits_inj'. intros i Hi.
    rewrite Z.land_spec, Z.bits_0.
    destruct (Z.ltb_spec i 8).
    - rewrite (Z.shiftl_spec_low b 8 i) by lia. apply andb_false_r.
    - replace (Z.testbit a i) with false; [reflexivity|].
      symmetry. destruct (Z.eq_dec a 0) as [->|Hn]; [apply Z.bits_0|].
      apply Z.bits_above_log2; [lia|].
      apply Z.log2_lt_pow2; [lia|].
      apply Z.lt_le_trans with (2 ^ 8); [simpl; lia|].
      apply Z.pow_le_mono_r; lia. }
  rewrite <- Z.lxor_lor, <- Z.add_nocarry_lxor by exact Hdisj.
  rewrite Z.shiftl_mul_pow2 by lia.
  change 65535 with (Z.ones 16).
  rewrite Z.land_ones by lia.
  change (2 ^ 8) with 256. change (2 ^ 16) with 65536.
  rewrite Z.mod_small; lia.
Qed.

Lemma raw16_le16 (f : frame) (b : Z) : raw16 f b = le16 f b.
Proof.
  unfold raw16, le16, buf_at.
  apply lor_shiftl_8; apply byte_val_range.
Qed.

Lemma le16_range (f : frame) (b : Z) : 0 <= le16 f b < 65536.
Proof.
  unfold le16, buf_at.
  pose proof (byte_val_range (zget x00 (buf f) b)).
  pose proof (byte_val_range (zget x00 (buf f) (b + 1))). lia.
Qed.

(** ** The frame decoder *)

Lemma all_from_spec (p : Z -> bool) (fuel : nat) :
  forall z, all_from fuel z p = true ->
  forall x, z <= x < z + Z.of_nat fuel -> p x = true.
Proof.
  induction fuel as [|fuel IH]; intros z H x Hx; [lia|].
  simpl in H. apply andb_true_iff in H as [H0 H1].
  destruct (Z.eq_dec x z) as [->|Hne]; [exact H0|].
  apply (IH (z + 1) H1). lia.
Qed.

(** Every 16-bit reading is decoded to the binary32 number nearest to its
    thousandth: all 65536 readings are checked. *)
Lemma mV_to_V_accurate (raw : Z) :
  0 <= raw < 65536 -> near_quotient_1000 raw (mV_to_V raw) = true.
Proof.
  intros H.
  apply (all_from_spec (fun r => near_quotient_1000 r (mV_to_V r))
                       (Z.to_nat 65536) 0); [|lia].
  vm_compute. reflexivity.
Qed.

Lemma wrap_step (n idx : Z) :
  0 <= idx < n -> (if n <=? idx + 1 then 0 else idx + 1) = (idx + 1) mod n.
Proof.
  intros H. destruct (n <=? idx + 1) eqn:E; zb.
  - replace (idx + 1) with n by lia. symmetry. apply Z.mod_same. lia.
  - symmetry. apply Z.mod_small. lia.
Qed.

Lemma wrap_succ (n c k : Z) :
  0 < n -> ((c + k) mod n + 1) mod n = (c + (k + 1)) mod n.
Proof.
  intros H. rewrite Z.add_assoc.
  rewrite (Z.add_mod (c + k) 1 n) by lia.
  rewrite (Z.add_mod ((c + k) mod n) 1 n) by lia.
  rewrite Z.mod_mod by lia. reflexivity.
Qed.

(** One iteration of the cell loop that finds both bytes of its reading. *)
Lemma cell_burst_step (f : frame) (n c k : Z) (todo : nat) (cs : list float32) :
  0 < n -> 2 + k * 2 + 1 < len f ->
  cell_burst f n (Datatypes.S todo) k cs ((c + k) mod n) =
  cell_burst f n todo (k + 1)
    (zset cs ((c + k) mod n) (mV_to_V (le16 f (2 + 2 * k))))
    ((c + (k + 1)) mod n).
Proof.
  intros Hn Hlen. simpl.
  pose proof (Z.mod_pos_bound (c + k) n Hn) as Hm.
  destruct (len f <=? 2 + k * 2 + 1) eqn:E; zb; [lia|].
  destruct (0 <=? (c + k) mod n) eqn:E1; zb; [|lia].
  destruct ((c + k) mod n <? n) eqn:E2; zb; [|lia].
  simpl. rewrite wrap_step, wrap_succ by lia.
  rewrite raw16_le16. unfold mV_to_V.
  replace (2 + k * 2) with (2 + 2 * k) by lia. reflexivity.
Qed.

(** An iteration that does not find them ends the loop. *)
Lemma cell_burst_break (f : frame) (n k idx : Z) (todo : nat) (cs : list float32) :
  len f <= 2 + k * 2 + 1 ->
  cell_burst f n todo k cs idx = (cs, idx).
Proof.
  intros H. destruct todo; simpl; [reflexivity|].
  destruct (len f <=? 2 + k * 2 + 1) eqn:E; zb; [reflexivity|lia].
Qed.

Lemma complete_readings_cases (f : frame) :
  2 <= len f ->
  (len f <= 3 /\ complete_readings f = 0) \/
  (4 <= len f <= 5 /\ complete_readings f = 1) \/
  (6 <= len f <= 7 /\ complete_readings f = 2) \/
  (8 <= len f /\ complete_readings f = 3).
Proof.
  intros H. unfold complete_readings.
  pose proof (Z.div_mod (len f - 2) 2 ltac:(lia)) as Hd.
  pose proof (Z.mod_pos_bound (len f - 2) 2 ltac:(lia)) as Hm.
  lia.
Qed.

Lemma decode_cells_general (f : frame) (st : state) :
  cursor_inv st -> 2 <= len f -> buf_at f 1 = 0 ->
  decodeFrame f st =
  set_nextCellIndexPerSlave
    (zset (nextCellIndexPerSlave st) (buf_at f 0)
          ((cursor st (buf_at f 0) + complete_readings f) mod activeCellCount st))
    (set_cells
       (write_wrapping (activeCellCount st) (cursor st (buf_at f 0)) 0
                       (readings f) (cells st))
       st).
Proof.
  intros [Hn Hc] Hlen Hty.
  specialize (Hc (buf_at f 0)).
  unfold decodeFrame.
  destruct (len f <? 2) eqn:E; zb; [lia|].
  rewrite Hty. simpl (0 =? 0).
  cbv iota.
  fold (cursor st (buf_at f 0)).
  set (c := cursor st (buf_at f 0)) in *.
  set (n := activeCellCount st) in *.
  destruct (c <? 0) eqn:E1; zb; [lia|].
  destruct (n <=? c) eqn:E2; zb; [lia|].
  simpl orb. cbv iota.
  assert (c = (c + 0) mod n) as Hc0
    by (rewrite Z.add_0_r, Z.mod_small; lia).
  rewrite Hc0 at 1.
  unfold readings.
  destruct (complete_readings_cases f Hlen)
    as [[Hl ->]|[[Hl ->]|[[Hl ->]|[Hl ->]]]].
  - rewrite cell_burst_break by lia. simpl.
    rewrite <- Hc0. reflexivity.
  - rewrite cell_burst_step by lia.
    rewrite cell_burst_break by lia. reflexivity.
  - rewrite cell_burst_step by lia.
    rewrite cell_burst_step by lia.
    rewrite cell_burst_break by lia. reflexivity.
  - rewrite cell_burst_step by lia.
    rewrite cell_burst_step by lia.
    rewrite cell_burst_step by lia. reflexivity.
Qed.

Lemma mod_wrap (x n : Z) : 0 <= x - n < n -> x mod n = x - n.
Proof.
  intros H. symmetry. apply Z.mod_unique with (q := 1); lia.
Qed.

Lemma cursor_after_decode (t : list Z) (s x : Z) (st : state) :
  0 <= s < Z.of_nat (length t) ->
  cursor (set_nextCellIndexPerSlave (zset t s x) st) s = x.
Proof.
  intros H. unfold cursor. simpl. apply zget_zset_eq, H.
Qed.

Lemma buf_at_range (f : frame) (i : Z) : 0 <= buf_at f i < 256.
Proof. apply byte_val_range. Qed.

Lemma decode_cells_cursor (f : frame) (st : state) :
  shape_ok st -> cursor_inv st -> 2 <= len f -> buf_at f 1 = 0 ->
  cursor (decodeFrame f st) (buf_at f 0) =
  (cursor st (buf_at f 0) + complete_readings f) mod activeCellCount st.
Proof.
  intros (_ & Htab & _) Hinv Hlen Hty.
  rewrite (decode_cells_general f st Hinv Hlen Hty).
  apply cursor_after_decode.
  pose proof (buf_at_range f 0). lia.
Qed.

(** C1. A cell-voltage frame (type 0x00, at least the two header bytes)
    received in a state that satisfies the cursor invariant: the readings
    whose two bytes are inside the frame are written, in order, at the
    slave's cursor and the following positions modulo the cell count,
    nothing else changes, and the cursor advances by the number of
    readings modulo the cell count.  For a frame of length 8 these are the
    three readings [raw / 1000.0f] of the little-endian words at bytes
    2-3, 4-5 and 6-7, the cursor ends at [(old + 3) mod n], and with at
    least three active cells the three target cells read back the three
    values.  A shorter frame keeps the readings decoded before the first
    incomplete one.  Each decoded value is the thousandth of its reading
    up to a relative error of 2^-24. *)
Theorem C1_cell_voltage_burst (f : frame) (st : state) :
  shape_ok st -> cursor_inv st -> 2 <= len f -> buf_at f 1 = 0 ->
  let n := activeCellCount st in
  let s := buf_at f 0 in
  let c := cursor st s in
  let st' := decodeFrame f st in
  st' = set_nextCellIndexPerSlave
          (zset (nextCellIndexPerSlave st) s ((c + complete_readings f) mod n))
          (set_cells (write_wrapping n c 0 (readings f) (cells st)) st)
  /\ cursor st' s = (c + complete_readings f) mod n
  /\ (len f < 4 -> readings f = [])
  /\ (4 <= len f < 6 -> readings f = [mV_to_V (le16 f 2)])
  /\ (6 <= len f < 8 -> readings f = [mV_to_V (le16 f 2); mV_to_V (le16 f 4)])
  /\ (len f = 8 ->
      let v0 := mV_to_V (le16 f 2) in
      let v1 := mV_to_V (le16 f 4) in
      let v2 := mV_to_V (le16 f 6) in
      cells st' =
        zset (zset (zset (cells st) c v0) ((c + 1) mod n) v1) ((c + 2) mod n) v2
      /\ cursor st' s = (c + 3) mod n
      /\ (3 <= n ->
          zget F32.zero (cells st') c = v0 /\
          zget F32.zero (cells st') ((c + 1) mod n) = v1 /\
          zget F32.zero (cells st') ((c + 2) mod n) = v2))
  /\ (forall b : Z, near_quotient_1000 (le16 f b) (mV_to_V (le16 f b)) = true).
Proof.
  intros Hshape Hinv Hlen Hty n s c st'.
  pose proof (decode_cells_general f st Hinv Hlen Hty) as Hd.
  fold n s c st' in Hd.
  pose proof (decode_cells_cursor f st Hshape Hinv Hlen Hty) as Hcur.
  fold n s c st' in Hcur.
  destruct Hshape as (Hcells & Htab & _).
  destruct Hinv as [Hn Hc]. specialize (Hc s). fold n c in Hn, Hc.
  split; [exact Hd|]. split; [exact Hcur|].
  split; [|split; [|split; [|split]]];
    [| | | |intros b; apply mV_to_V_accurate, le16_range].
  - intros Hl. unfold readings.
    destruct (complete_readings_cases f Hlen)
      as [[_ ->]|[[? _]|[[? _]|[? _]]]]; [reflexivity|lia..].
  - intros Hl. unfold readings.
    destruct (complete_readings_cases f Hlen)
      as [[? _]|[[_ ->]|[[? _]|[? _]]]]; [lia|reflexivity|lia..].
  - intros Hl. unfold readings.
    destruct (complete_readings_cases f Hlen)
      as [[? _]|[[? _]|[[_ ->]|[? _]]]]; [lia|lia|reflexivity|lia].
  - intros Hl v0 v1 v2.
    assert (complete_readings f = 3) as Hr.
    { destruct (complete_readings_cases f Hlen)
        as [[? _]|[[? _]|[[? _]|[_ ?]]]]; [lia..|assumption]. }
    assert (cells st' =
            zset (zset (zset (cells st) c v0) ((c + 1) mod n) v1)
                 ((c + 2) mod n) v2) as Hcs.
    { rewrite Hd. unfold readings. rewrite Hr. simpl.
      rewrite (Z.mod_small (c + 0) n), Z.add_0_r by lia. reflexivity. }
    split; [exact Hcs|]. split; [rewrite Hcur, Hr; reflexivity|].
    intros Hn3. rewrite Hcs.
    assert ((c + 1) mod n <> c /\ (c + 2) mod n <> c /\
            (c + 2) mod n <> (c + 1) mod n /\
            0 <= (c + 1) mod n < n /\ 0 <= (c + 2) mod n < n)
      as (N1 & N2 & N3 & P1 & P2).
    { destruct (Z.lt_ge_cases (c + 2) n); [rewrite !Z.mod_small; lia|].
      destruct (Z.lt_ge_cases (c + 1) n).
      - rewrite (Z.mod_small (c + 1)), (mod_wrap (c + 2)); lia.
      - rewrite (mod_wrap (c + 1)), (mod_wrap (c + 2)); lia. }
    split; [|split].
    + rewrite zget_zset_ne, zget_zset_ne by lia.
      apply zget_zset_eq. lia.
    + rewrite zget_zset_ne by lia.
      apply zget_zset_eq. rewrite length_zset. lia.
    + apply zget_zset_eq. rewrite !length_zset. lia.
Qed.

(** C9. A frame shorter than two bytes, and a frame whose type tag is
    none of 0x00, 0x08, 0x09, 0x0A, changes nothing: the snapshot and
    the cursor table are the ones before the frame. *)
Theorem C9_ignored_frames (f : frame) (st : state) :
  len f < 2 \/
  (2 <= len f /\ buf_at f 1 <> 0 /\ buf_at f 1 <> 8 /\
   buf_at f 1 <> 9 /\ buf_at f 1 <> 10) ->
  decodeFrame f st = st.
Proof.
  intros H. unfold decodeFrame.
  destruct (len f <? 2) eqn:E; zb; [reflexivity|].
  destruct H as [H|(_ & H0 & H8 & H9 & H10)]; [lia|].
  destruct (buf_at f 1 =? 0) eqn:E0; zb; [contradiction|].
  destruct (buf_at f 1 =? 8) eqn:E8; zb; [contradiction|].
  destruct (buf_at f 1 =? 9) eqn:E9; zb; [contradiction|].
  destruct (buf_at f 1 =? 10) eqn:E10; zb; [contradiction|].
  reflexivity.
Qed.

(** ** Loops over one array of the state *)

Lemma for_range_lift {S A : Type} (get : S -> A) (put : A -> S -> S)
      (g : Z -> A -> A) (lo hi : Z) (s : S) :
  (forall a x, get (put a x) = a) ->
  (forall a b x, put a (put b x) = put a x) ->
  (forall x, put (get x) x = x) ->
  for_range lo hi (fun i x => put (g i (get x)) x) s
  = put (for_range lo hi g (get s)) s.
Proof.
  intros Hgp Hpp Hpg.
  destruct (Z.le_gt_cases lo hi) as [Hle|Hgt].
  - apply (for_range_ind
             (fun i x => x = put (for_range lo i g (get s)) s)); [exact Hle| |].
    + rewrite for_range_none by lia. symmetry. apply Hpg.
    + intros i x Hi ->. rewrite Hgp, Hpp, for_range_last by lia. reflexivity.
  - rewrite !for_range_none by lia. symmetry. apply Hpg.
Qed.

Lemma for_range_update (A : Type) (d : A) (h : Z -> A -> A) (lo hi : Z)
      (l : list A) :
  let r := for_range lo hi (fun i a => zset a i (h i (zget d a i))) l in
  length r = length l /\
  forall j : nat,
    r !! j = if (lo <=? Z.of_nat j) && (Z.of_nat j <? hi)
             then h (Z.of_nat j) <$> (l !! j) else l !! j.
Proof.
  intros r. subst r.
  destruct (Z.le_gt_cases lo hi) as [Hle|Hgt].
  - apply (for_range_ind
             (fun i a => length a = length l /\
                forall j : nat,
                  a !! j = if (lo <=? Z.of_nat j) && (Z.of_nat j <? i)
                           then h (Z.of_nat j) <$> (l !! j) else l !! j));
      [exact Hle| |].
    + split; [reflexivity|]. intros j.
      destruct (lo <=? Z.of_nat j) eqn:E1, (Z.of_nat j <? lo) eqn:E2;
        zb; simpl; try reflexivity; lia.
    + intros i a Hi [Hlen IH]. split; [rewrite length_zset; exact Hlen|].
      intros j. rewrite lookup_zset. specialize (IH j).
      destruct (i =? Z.of_nat j) eqn:E; zb.
      * subst i.
        replace (lo <=? Z.of_nat j) with true by (symmetry; apply Z.leb_le; lia).
        replace (Z.of_nat j <? Z.of_nat j + 1) with true
          by (symmetry; apply Z.ltb_lt; lia).
        replace (Z.of_nat j <? Z.of_nat j) with false in IH
          by (symmetry; apply Z.ltb_ge; lia).
        rewrite andb_false_r in IH. simpl.
        destruct (j <? length a)%nat eqn:E'; zb.
        -- unfold zget. replace (Z.of_nat j <? 0) with false
             by (symmetry; apply Z.ltb_ge; lia).
           rewrite Nat2Z.id, IH.
           destruct (l !! j) eqn:El; [reflexivity|].
           apply lookup_ge_None in El. lia.
        -- rewrite IH. rewrite (proj2 (lookup_ge_None l j)) by lia.
           reflexivity.
      * simpl. rewrite IH.
        destruct (lo <=? Z.of_nat j) eqn:E1; simpl; [|reflexivity].
        destruct (Z.of_nat j <? i) eqn:E2, (Z.of_nat j <? i + 1) eqn:E3;
          zb; try reflexivity; lia.
  - rewrite for_range_none by lia. split; [reflexivity|]. intros j.
    destruct (lo <=? Z.of_nat j) eqn:E1, (Z.of_nat j <? hi) eqn:E2;
      zb; simpl; try reflexivity; lia.
Qed.

(** Filling a range of an array with one value. *)
Lemma for_range_fill (A : Type) (v : A) (lo hi : Z) (l : list A) :
  let r := for_range lo hi (fun i a => zset a i v) l in
  length r = length l /\
  forall j : nat,
    (j < length l)%nat ->
    r !! j = if (lo <=? Z.of_nat j) && (Z.of_nat j <? hi)
             then Some v else l !! j.
Proof.
  intros r. subst r.
  destruct (for_range_update A v (fun _ _ => v) lo hi l) as [Hlen Hj].
  split; [exact Hlen|]. intros j Hlt. rewrite Hj.
  destruct ((lo <=? Z.of_nat j) && (Z.of_nat j <? hi)); [|reflexivity].
  destruct (l !! j) eqn:E; [reflexivity|].
  apply lookup_ge_None in E. lia.
Qed.

Lemma fill_all (A : Type) (v : A) (n : nat) (l : list A) :
  length l = n ->
  for_range 0 (Z.of_nat n) (fun i a => zset a i v) l = replicate n v.
Proof.
  intros Hl.
  destruct (for_range_fill A v 0 (Z.of_nat n) l) as [Hlen Hj].
  apply list_eq. intros j.
  destruct (Nat.lt_ge_cases j n) as [Hlt|Hge].
  - rewrite Hj by lia. rewrite lookup_replicate_2 by exact Hlt.
    destruct (0 <=? Z.of_nat j) eqn:E1, (Z.of_nat j <? Z.of_nat n) eqn:E2;
      zb; try reflexivity; lia.
  - rewrite (proj2 (lookup_ge_None _ j)) by lia.
    symmetry. apply lookup_ge_None. rewrite length_replicate. exact Hge.
Qed.

Lemma state_eta (st : state) :
  mkState (canPresent st) (activeCellCount st) (cells st) (temperatureC st)
    (balanceCurrentA st) (packVoltageV st) (currentSettingA st)
    (nextCellIndexPerSlave st) (EEPROM st) (canSent st) = st.
Proof. destruct st. reflexivity. Qed.

Lemma cells_loop (g : Z -> list float32 -> list float32) (lo hi : Z)
      (st : state) :
  for_range lo hi (fun i s => set_cells (g i (cells s)) s) st
  = set_cells (for_range lo hi g (cells st)) st.
Proof.
  apply (for_range_lift cells set_cells g); try reflexivity.
  intros x. apply state_eta.
Qed.

Lemma cursors_loop (g : Z -> list Z -> list Z) (lo hi : Z) (st : state) :
  for_range lo hi
    (fun i s => set_nextCellIndexPerSlave (g i (nextCellIndexPerSlave s)) s) st
  = set_nextCellIndexPerSlave (for_range lo hi g (nextCellIndexPerSlave st)) st.
Proof.
  apply (for_range_lift nextCellIndexPerSlave set_nextCellIndexPerSlave g);
    try reflexivity.
  intros x. apply state_eta.
Qed.

(** ** Set cell count *)

Lemma clamp_count_code (c : Z) :
  (let c1 := if c <? 1 then 1 else c in
   if MAX_CELLS <? c1 then MAX_CELLS else c1) = clamp_count c.
Proof.
  unfold clamp_count, MAX_CELLS. simpl.
  destruct (c <? 1) eqn:E1; zb.
  - simpl. lia.
  - destruct (32 <? c) eqn:E2; zb; lia.
Qed.

Lemma clamp_count_range (c : Z) : 1 <= clamp_count c <= 32.
Proof. unfold clamp_count. lia. Qed.

Lemma handleSetCells_some (c : Z) (st : state) :
  length (nextCellIndexPerSlave st) = 256%nat ->
  fst (handleSetCells (Some c) st) =
  set_EEPROM
    (EEPROM_commit
       (EEPROM_write (EEPROM_write (EEPROM st) 0 EEPROM_MAGIC)
                     EEPROM_ADDR_COUNT (byte_of_Z (clamp_count c))))
    (set_cells
       (for_range (clamp_count c) 32 (fun i a => zset a i F32.zero) (cells st))
       (set_nextCellIndexPerSlave (replicate 256 0)
          (set_activeCellCount (clamp_count c) st))).
Proof.
  intros Htab. unfold handleSetCells. cbv beta iota zeta.
  pose proof (clamp_count_code c) as Hc. cbv beta zeta in Hc. rewrite Hc.
  cbn [fst].
  rewrite (cursors_loop (fun i t => zset t i 0)).
  rewrite (cells_loop (fun i a => zset a i F32.zero)).
  cbn [activeCellCount set_activeCellCount set_nextCellIndexPerSlave set_cells
       cells nextCellIndexPerSlave EEPROM canPresent temperatureC
       balanceCurrentA packVoltageV currentSettingA canSent].
  change 256 with (Z.of_nat 256).
  rewrite (fill_all Z 0 256) by exact Htab.
  reflexivity.
Qed.

Lemma write_wrapping_high (n c : Z) (vs : list float32) :
  0 < n ->
  forall (k : Z) (cs : list float32) (i : nat),
    n <= Z.of_nat i ->
    write_wrapping n c k vs cs !! i = cs !! i.
Proof.
  intros Hn. induction vs as [|v vs IH]; intros k cs i Hi; simpl;
    [reflexivity|].
  rewrite IH by exact Hi. rewrite lookup_zset.
  pose proof (Z.mod_pos_bound (c + k) n Hn).
  destruct ((c + k) mod n =? Z.of_nat i) eqn:E; zb; [lia|reflexivity].
Qed.

Lemma cell_burst_high (f : frame) (n : Z) (todo : nat) :
  forall (k : Z) (cs : list float32) (idx : Z) (i : nat),
    n <= Z.of_nat i ->
    fst (cell_burst f n todo k cs idx) !! i = cs !! i.
Proof.
  induction todo as [|todo IH]; intros k cs idx i Hi; simpl; [reflexivity|].
  destruct (len f <=? 2 + k * 2 + 1); [reflexivity|].
  rewrite IH by exact Hi.
  destruct ((0 <=? idx) && (idx <? n)) eqn:E; [|reflexivity].
  zb. rewrite lookup_zset.
  destruct (idx =? Z.of_nat i) eqn:E'; zb; [lia|reflexivity].
Qed.

Lemma cell_burst_length (f : frame) (n : Z) (todo : nat) :
  forall (k : Z) (cs : list float32) (idx : Z),
    length (fst (cell_burst f n todo k cs idx)) = length cs.
Proof.
  induction todo as [|todo IH]; intros k cs idx; simpl; [reflexivity|].
  destruct (len f <=? 2 + k * 2 + 1); [reflexivity|].
  rewrite IH.
  destruct ((0 <=? idx) && (idx <? n)); [apply length_zset|reflexivity].
Qed.

Lemma cell_burst_idx (f : frame) (n : Z) (todo : nat) :
  forall (k : Z) (cs : list float32) (idx : Z),
    0 <= idx < n -> 0 <= snd (cell_burst f n todo k cs idx) < n.
Proof.
  induction todo as [|todo IH]; intros k cs idx Hi; simpl; [exact Hi|].
  destruct (len f <=? 2 + k * 2 + 1); [exact Hi|].
  apply IH. destruct (n <=? idx + 1) eqn:E; zb; lia.
Qed.

(** The decoder never writes a cell at or above the cell count, whatever
    the cursor table holds. *)
Lemma decode_cells_high (f : frame) (st : state) (i : nat) :
  activeCellCount st <= Z.of_nat i ->
  cells (decodeFrame f st) !! i = cells st !! i.
Proof.
  intros Hi. unfold decodeFrame.
  destruct (len f <? 2); [reflexivity|].
  destruct (buf_at f 1 =? 0).
  - match goal with
    | |- context [cell_burst ?a ?b ?c ?d ?e ?g] =>
        pose proof (cell_burst_high a b c d e g i Hi) as H;
        destruct (cell_burst a b c d e g) as [cs idx']
    end.
    st_simpl. exact H.
  - destruct (buf_at f 1 =? 8); [destruct (4 <=? len f); reflexivity|].
    destruct (buf_at f 1 =? 9); [destruct (4 <=? len f); reflexivity|].
    destruct (buf_at f 1 =? 10); [destruct (3 <=? len f); reflexivity|].
    reflexivity.
Qed.

(** C3. A set-cell-count request with the integer [c]: the cell count
    becomes [c] clamped into [1, 32], all 256 cursors are 0, every cell at
    an index from the new count on is 0.0 and the cells below it are kept;
    a cell-voltage frame decoded next, for any slave, writes its readings
    from index 0 on, and the cells from the new count on still read 0.0. *)
Theorem C3_set_cell_count (c : Z) (st : state) :
  shape_ok st ->
  let n := clamp_count c in
  let st' := fst (handleSetCells (Some c) st) in
  activeCellCount st' = n
  /\ nextCellIndexPerSlave st' = replicate 256 0
  /\ (forall s : Z, cursor st' s = 0)
  /\ (forall i : Z, n <= i < 32 -> cells st' !! Z.to_nat i = Some F32.zero)
  /\ (forall i : Z, 0 <= i < n -> cells st' !! Z.to_nat i = cells st !! Z.to_nat i)
  /\ (forall f : frame,
        2 <= len f -> buf_at f 1 = 0 ->
        let st'' := decodeFrame f st' in
        cells st'' = write_wrapping n 0 0 (readings f) (cells st')
        /\ cursor st'' (buf_at f 0) = complete_readings f mod n
        /\ forall i : Z, n <= i < 32 ->
             cells st'' !! Z.to_nat i = Some F32.zero).
Proof.
  intros (Hcells & Htab & Hee) n st'.
  pose proof (clamp_count_range c) as Hn. fold n in Hn.
  pose proof (handleSetCells_some c st Htab) as Heq. fold st' n in Heq.
  destruct (for_range_fill float32 F32.zero n 32 (cells st)) as [Hlen Hfill].
  assert (activeCellCount st' = n) as Hcount by (rewrite Heq; reflexivity).
  assert (nextCellIndexPerSlave st' = replicate 256 0) as Hcur
    by (rewrite Heq; reflexivity).
  assert (cells st' = for_range n 32 (fun i a => zset a i F32.zero) (cells st))
    as Hcs by (rewrite Heq; reflexivity).
  assert (forall s : Z, cursor st' s = 0) as Hzero.
  { intros s. unfold cursor, zget. rewrite Hcur.
    destruct (s <? 0); [reflexivity|].
    destruct (replicate 256 0 !! Z.to_nat s) as [x|] eqn:E; [|reflexivity].
    apply lookup_replicate in E. simpl. tauto. }
  assert (forall i : Z, n <= i < 32 -> cells st' !! Z.to_nat i = Some F32.zero)
    as Hhigh.
  { intros i Hi. rewrite Hcs, Hfill by lia.
    destruct (n <=? Z.of_nat (Z.to_nat i)) eqn:E1,
             (Z.of_nat (Z.to_nat i) <? 32) eqn:E2; zb; try reflexivity; lia. }
  repeat (split; [assumption|]). split.
  - intros i Hi. rewrite Hcs, Hfill by lia.
    destruct (n <=? Z.of_nat (Z.to_nat i)) eqn:E1; zb; [lia|reflexivity].
  - intros f Hlenf Hty st''.
    assert (shape_ok st') as Hshape'.
    { unfold shape_ok. rewrite Hcs, Hcur, Hlen, length_replicate.
      rewrite Heq. st_simpl. unfold zset. simpl.
      rewrite !length_insert. auto. }
    assert (cursor_inv st') as Hinv'.
    { split; [lia|]. intros s. rewrite Hzero. lia. }
    pose proof (decode_cells_general f st' Hinv' Hlenf Hty) as Hd.
    pose proof (decode_cells_cursor f st' Hshape' Hinv' Hlenf Hty) as Hc'.
    rewrite Hzero, Hcount in Hd, Hc'. split; [|split].
    + unfold st''. rewrite Hd. reflexivity.
    + exact Hc'.
    + intros i Hi. unfold st''.
      rewrite decode_cells_high by lia. apply Hhigh, Hi.
Qed.

(** ** binary32: rounding never yields a NaN, comparisons *)

Lemma shr_1_nonneg (mrs : shr_record) :
  0 <= shr_m mrs -> 0 <= shr_m (shr_1 mrs).
Proof.
  destruct mrs as [m r s]. simpl. intros H.
  destruct m as [|p|p]; [simpl; lia| |lia].
  destruct p; simpl; lia.
Qed.

Lemma iter_shr_1_nonneg (p : positive) :
  forall mrs, 0 <= shr_m mrs -> 0 <= shr_m (SpecFloat.iter_pos shr_1 p mrs).
Proof.
  induction p as [p IH|p IH|]; intros mrs H; simpl.
  - apply IH, IH, shr_1_nonneg, H.
  - apply IH, IH, H.
  - apply shr_1_nonneg, H.
Qed.

Lemma shr_fexp_nonneg (m e : Z) (l : location) :
  0 <= m -> 0 <= shr_m (fst (shr_fexp F32.prec F32.emax m e l)).
Proof.
  intros H. unfold shr_fexp, shr.
  assert (0 <= shr_m (shr_record_of_loc m l)) as H0
    by (destruct l as [|[]]; exact H).
  destruct (fexp F32.prec F32.emax (Zdigits2 m + e) - e); simpl;
    [exact H0|apply iter_shr_1_nonneg, H0|exact H0].
Qed.

Lemma round_nearest_even_nonneg (m : Z) (l : location) :
  0 <= m -> 0 <= round_nearest_even m l.
Proof.
  intros H. destruct l as [|[]]; simpl; try lia.
  destruct (Z.even m); lia.
Qed.

Lemma binary_round_aux_not_nan (sx : bool) (mx ex : Z) (lx : location) :
  0 <= mx ->
  F32.isnan (binary_round_aux F32.prec F32.emax sx mx ex lx) = false.
Proof.
  intros H. unfold binary_round_aux.
  pose proof (shr_fexp_nonneg mx ex lx H) as H1.
  destruct (shr_fexp F32.prec F32.emax mx ex lx) as [mrs' e'].
  simpl in H1.
  pose proof (shr_fexp_nonneg
                (round_nearest_even (shr_m mrs') (loc_of_shr_record mrs'))
                e' loc_Exact
                (round_nearest_even_nonneg _ _ H1)) as H2.
  destruct (shr_fexp F32.prec F32.emax
              (round_nearest_even (shr_m mrs') (loc_of_shr_record mrs'))
              e' loc_Exact) as [mrs'' e''].
  simpl in H2.
  destruct (shr_m mrs'') as [|p|p]; [reflexivity| |lia].
  destruct (e'' <=? F32.emax - F32.prec); reflexivity.
Qed.

Lemma binary_normalize_not_nan (m e : Z) (szero : bool) :
  F32.isnan (binary_normalize F32.prec F32.emax m e szero) = false.
Proof.
  unfold binary_normalize, binary_round.
  destruct m as [|p|p]; [reflexivity| |];
    match goal with
    | |- context [shl_align ?a ?b ?c] => destruct (shl_align a b c) as [mz ez]
    end; apply binary_round_aux_not_nan; lia.
Qed.

Lemma of_Z_not_nan (z : Z) : F32.isnan (F32.of_Z z) = false.
Proof. apply binary_normalize_not_nan. Qed.

Lemma add_not_nan (x y : float32) :
  F32.isnan x = false -> F32.is_finite y = true ->
  F32.isnan (F32.add x y) = false.
Proof.
  intros Hx Hy.
  destruct x as [sx|sx| |sx mx ex]; try discriminate;
    destruct y as [sy|sy| |sy my ey]; try discriminate;
    try reflexivity.
  - destruct sx, sy; reflexivity.
  - apply binary_normalize_not_nan.
Qed.

Lemma mul_not_nan (x : float32) (sy : bool) (my : positive) (ey : Z) :
  F32.isnan x = false ->
  F32.isnan (F32.mul x (S754_finite sy my ey)) = false.
Proof.
  intros Hx. destruct x as [sx|sx| |sx mx ex]; try discriminate;
    try reflexivity.
  apply binary_round_aux_not_nan. lia.
Qed.

Lemma div_not_nan (x : float32) (sy : bool) (my : positive) (ey : Z) :
  F32.isnan x = false ->
  F32.isnan (F32.div x (S754_finite sy my ey)) = false.
Proof.
  intros Hx. destruct x as [sx|sx| |sx mx ex]; try discriminate;
    try reflexivity.
  unfold F32.div, SFdiv, SFdiv_core_binary.
  match goal with
  | |- context [Z.div_eucl ?a ?b] =>
      assert (0 <= a) as Ha;
      [|pose proof (Z.div_eucl_eq a b ltac:(lia)) as Heq;
        pose proof (Z.mod_pos_bound a b ltac:(lia)) as Hmod;
        unfold Z.modulo in Hmod;
        destruct (Z.div_eucl a b) as [q r] eqn:E]
  end.
  - match goal with
    | |- 0 <= match ?s with _ => _ end => destruct s eqn:Es
    end; try lia.
    apply Z.shiftl_nonneg. lia.
  - apply binary_round_aux_not_nan. nia.
Qed.

Lemma mV_to_V_not_nan (raw : Z) : F32.isnan (mV_to_V raw) = false.
Proof.
  unfold mV_to_V.
  change c1000 with (S754_finite false 16384000 (-14)).
  apply div_not_nan, of_Z_not_nan.
Qed.

(** Comparison is antisymmetric. *)
Lemma SFcompare_antisym (x y : float32) :
  SFcompare y x = option_map CompOpp (SFcompare x y).
Proof.
  destruct x as [sx|sx| |sx mx ex], y as [sy|sy| |sy my ey];
    try reflexivity;
    try (destruct sx; reflexivity);
    try (destruct sy; reflexivity);
    try (destruct sx, sy; reflexivity).
  simpl. destruct sx, sy; try reflexivity;
    rewrite (Z.compare_antisym ex ey);
    destruct (ex ?= ey); simpl; try reflexivity;
    rewrite (Pos.compare_cont_antisym mx my Eq); simpl;
    destruct (Pos.compare_cont Eq mx my); reflexivity.
Qed.

Lemma SFcompare_not_nan (x y : float32) :
  F32.isnan x = false -> F32.isnan y = false ->
  exists c, SFcompare x y = Some c.
Proof.
  intros Hx Hy.
  destruct x as [sx|sx| |sx mx ex]; try discriminate;
    destruct y as [sy|sy| |sy my ey]; try discriminate;
    simpl; eauto.
Qed.

Lemma not_ltb_leb (x y : float32) :
  F32.isnan x = false -> F32.isnan y = false ->
  F32.ltb x y = false -> F32.leb y x = true.
Proof.
  intros Hx Hy H. unfold F32.ltb, F32.leb, SFltb, SFleb in *.
  rewrite (SFcompare_antisym x y).
  destruct (SFcompare_not_nan x y Hx Hy) as [c Hc]. rewrite Hc in *.
  destruct c; simpl; [reflexivity|discriminate|reflexivity].
Qed.

(** [clampf4] of a number lands between its bounds. *)
Lemma clampf4_bounds (v lo hi : float32) :
  F32.isnan v = false ->
  F32.leb lo lo = true -> F32.leb lo hi = true -> F32.leb hi hi = true ->
  F32.leb lo (clampf4 v lo hi) = true /\ F32.leb (clampf4 v lo hi) hi = true.
Proof.
  intros Hv Hll Hlh Hhh.
  assert (F32.isnan lo = false) as Hlo by (destruct lo; auto; discriminate).
  assert (F32.isnan hi = false) as Hhi by (destruct hi; auto; discriminate).
  unfold clampf4.
  destruct (F32.ltb v lo) eqn:E1; [auto|].
  destruct (F32.ltb hi v) eqn:E2; [auto|].
  split; apply not_ltb_leb; assumption.
Qed.

(** The literals of the source, as bit patterns: 3.60f, 4.20f, 0.001f,
    0.01f, 0.05f, 1000.0f and 42.5f. *)
Example literal_bits :
  map F32.to_bits [c3_60; c4_20; c0_001; c0_01; c0_05; c1000; c42_5]
  = [0x40666666; 0x40866666; 0x3a83126f; 0x3c23d70a; 0x3d4ccccd;
     0x447a0000; 0x422a0000].
Proof. vm_compute. reflexivity. Qed.

Example of_bits_samples :
  map F32.of_bits [0x422a0000; 0x7f800000; 0xff800000; 0x7fc00000; 0x80000000]
  = [c42_5; S754_infinity false; S754_infinity true; S754_nan;
     S754_zero true].
Proof. vm_compute. reflexivity. Qed.

(** [std::round] and the conversion to [uint32_t] at a few values: 2.5,
    -2.5, 0.4, 65000.0, 2^32 and -1.0. *)
Example round_samples :
  F32.round (F32.lit 25 10) = F32.of_Z 3
  /\ F32.round (F32.lit (-25) 10) = F32.of_Z (-3)
  /\ F32.round (F32.lit 4 10) = S754_zero false
  /\ F32.to_u32 (F32.of_Z 65000) = Some 65000
  /\ F32.to_u32 (F32.lit 29 10) = Some 2
  /\ F32.to_u32 (F32.of_Z 4294967296) = None
  /\ F32.to_u32 (F32.of_Z (-1)) = None
  /\ F32.to_u32 S754_nan = None.
Proof. vm_compute. repeat split; reflexivity. Qed.

(** Decoded voltages: 1000 mV is 1.0f, 4200 mV is 4.2f. *)
Example mV_to_V_samples :
  mV_to_V 1000 = F32.of_Z 1 /\ mV_to_V 4200 = c4_20 /\ mV_to_V 0 = F32.zero.
Proof. vm_compute. repeat split; reflexivity. Qed.

(** ** The simulator *)

Lemma tickSimData_eq (dv : Z -> Z) (dt : Z) (st : state) :
  tickSimData dv dt st =
  set_temperatureC
    (clampf4 (F32.add (temperatureC st) (F32.mul (F32.of_Z dt) c0_05)) c20 c55)
    (set_cells
       (for_range 0 (activeCellCount st)
          (fun i a => zset a i (tick_cell dv i (zget F32.zero a i)))
          (cells st))
       st).
Proof.
  unfold tickSimData. cbv zeta.
  rewrite (cells_loop
             (fun i a => zset a i (tick_cell dv i (zget F32.zero a i)))).
  reflexivity.
Qed.

Lemma cell_delta_finite (r : Z) :
  -3 <= r <= 3 -> F32.is_finite (F32.mul (F32.of_Z r) c0_001) = true.
Proof.
  intros H.
  assert (r = -3 \/ r = -2 \/ r = -1 \/ r = 0 \/ r = 1 \/ r = 2 \/ r = 3)
    as [->|[->|[->|[->|[->|[->| ->]]]]]] by lia;
    vm_compute; reflexivity.
Qed.

Lemma temp_delta_finite (r : Z) :
  -2 <= r <= 2 -> F32.is_finite (F32.mul (F32.of_Z r) c0_05) = true.
Proof.
  intros H.
  assert (r = -2 \/ r = -1 \/ r = 0 \/ r = 1 \/ r = 2)
    as [->|[->|[->|[->| ->]]]] by lia;
    vm_compute; reflexivity.
Qed.

Lemma tick_cell_bounds (dv : Z -> Z) (i : Z) (x : float32) :
  -3 <= dv i <= 3 -> F32.isnan x = false ->
  F32.leb c3_60 (tick_cell dv i x) = true /\
  F32.leb (tick_cell dv i x) c4_20 = true.
Proof.
  intros Hd Hx. unfold tick_cell.
  apply clampf4_bounds; [|vm_compute; reflexivity..].
  apply add_not_nan; [exact Hx|apply cell_delta_finite, Hd].
Qed.

Lemma leb_not_nan (a b : float32) : F32.leb a b = true -> F32.isnan b = false.
Proof.
  destruct a, b; try reflexivity; discriminate.
Qed.

(** C8. One simulator tick, from any state whose cell voltages and
    temperature are numbers (whatever their values, inside or outside the
    bounds, infinities included) and with any draws [random] can return:
    every active cell voltage ends in [3.60f, 4.20f] and the temperature
    in [20, 55].  Every reachable state is such a state
    ([reachable_inv] below): no operation stores a NaN in a cell or in the
    temperature. *)
Theorem C8_tick_bounds (dv : Z -> Z) (dt : Z) (st : state) :
  draws_ok dv dt -> shape_ok st -> activeCellCount st <= 32 -> numeric st ->
  let st' := tickSimData dv dt st in
  (forall i : Z, 0 <= i < activeCellCount st' ->
     exists v, cells st' !! Z.to_nat i = Some v /\
               F32.leb c3_60 v = true /\ F32.leb v c4_20 = true)
  /\ F32.leb c20 (temperatureC st') = true
  /\ F32.leb (temperatureC st') c55 = true.
Proof.
  intros [Hdv Hdt] (Hcells & _ & _) Hn [Hnum Htemp] st'.
  unfold st'. rewrite tickSimData_eq. st_simpl.
  destruct (for_range_update float32 F32.zero (tick_cell dv) 0
              (activeCellCount st) (cells st)) as [Hlen Hj].
  split.
  - intros i Hi. rewrite Hj.
    destruct (0 <=? Z.of_nat (Z.to_nat i)) eqn:E1; zb; [|lia].
    destruct (Z.of_nat (Z.to_nat i) <? activeCellCount st) eqn:E2; zb; [|lia].
    simpl.
    destruct (cells st !! Z.to_nat i) as [x|] eqn:Ex;
      [|apply lookup_ge_None in Ex; lia].
    exists (tick_cell dv (Z.of_nat (Z.to_nat i)) x). split; [reflexivity|].
    apply tick_cell_bounds; [apply Hdv|].
    rewrite Forall_lookup in Hnum. apply (Hnum _ _ Ex).
  - apply clampf4_bounds; [|vm_compute; reflexivity..].
    apply add_not_nan; [exact Htemp|apply temp_delta_finite, Hdt].
Qed.

(** ** The snapshot endpoint *)

Lemma sum_cells_succ (k : nat) (cs : list float32) (x : float32) :
  cs !! k = Some x ->
  sum_cells (Datatypes.S k) cs = F32.add (sum_cells k cs) x.
Proof.
  intros H. unfold sum_cells.
  rewrite (take_S_r cs k x H), fold_left_app. reflexivity.
Qed.

Lemma computeStats_total (st : state) :
  (Z.to_nat (activeCellCount st) <= length (cells st))%nat ->
  st_total (computeStats st) = sum_cells (Z.to_nat (activeCellCount st)) (cells st).
Proof.
  intros Hn. unfold computeStats.
  set (loop := for_range 0 (activeCellCount st)
                 (fun i acc => stats_step (zget F32.zero (cells st) i) acc)
                 (F32.zero, c100, F32.zero)).
  assert (fst (fst loop) = sum_cells (Z.to_nat (activeCellCount st)) (cells st))
    as H.
  { unfold loop. destruct (Z.le_gt_cases 0 (activeCellCount st)) as [Hle|Hgt].
    - apply (for_range_ind
               (fun i acc => i <= activeCellCount st ->
                  fst (fst acc) = sum_cells (Z.to_nat i) (cells st)));
        [exact Hle|reflexivity| |lia].
      intros i [[t lo] hi] Hi IH _. simpl in IH |- *.
      replace (Z.to_nat (i + 1)) with (Datatypes.S (Z.to_nat i)) by lia.
      destruct (cells st !! Z.to_nat i) as [x|] eqn:Ex;
        [|apply lookup_ge_None in Ex; lia].
      rewrite (sum_cells_succ _ _ x Ex), <- IH by lia.
      unfold zget. destruct (i <? 0) eqn:E; zb; [lia|].
      rewrite Ex. reflexivity.
    - rewrite for_range_none by lia.
      replace (Z.to_nat (activeCellCount st)) with 0%nat by lia. reflexivity. }
  destruct loop as [[t lo] hi]. simpl in H. simpl. exact H.
Qed.

(** C10. The [total] the snapshot endpoint reports is the pack voltage
    received over CAN whenever that exceeds 0.01f, and otherwise the
    left-to-right sum of the active cells. *)
Theorem C10_reported_total (st : state) :
  shape_ok st -> activeCellCount st <= 32 ->
  (F32.ltb c0_01 (packVoltageV st) = true ->
   j_total (handleData st) = packVoltageV st)
  /\ (F32.ltb c0_01 (packVoltageV st) = false ->
      j_total (handleData st)
      = sum_cells (Z.to_nat (activeCellCount st)) (cells st)).
Proof.
  intros (Hcells & _ & _) Hn. unfold handleData. cbn [j_total].
  split; intros ->; [reflexivity|].
  apply computeStats_total. lia.
Qed.

(** ** Preferences *)

Lemma buf64_split (l : list byte) :
  length l = 64%nat ->
  exists b0 b1 b2 b3 b4 b5 rest,
    l = b0 :: b1 :: b2 :: b3 :: b4 :: b5 :: rest /\ length rest = 58%nat.
Proof.
  intros H.
  destruct l as [|b0 [|b1 [|b2 [|b3 [|b4 [|b5 rest]]]]]]; try discriminate.
  exists b0, b1, b2, b3, b4, b5, rest. split; [reflexivity|].
  simpl in H. lia.
Qed.

Lemma handleSetCurrent_some (v0 : float32) (st : state) :
  fst (handleSetCurrent (Some v0) st) =
  let v := if F32.isnan v0 then F32.zero else v0 in
  sendCurrentToBMS v
    (set_EEPROM
       (EEPROM_commit
          (EEPROM_put (EEPROM_write (EEPROM st) 0 EEPROM_MAGIC)
                      EEPROM_ADDR_CURRENT v))
       (set_currentSettingA v st)).
Proof. reflexivity. Qed.

Lemma sendCurrentToBMS_fields (a : float32) (st : state) :
  let st' := sendCurrentToBMS a st in
  activeCellCount st' = activeCellCount st /\
  cells st' = cells st /\
  temperatureC st' = temperatureC st /\
  currentSettingA st' = currentSettingA st /\
  nextCellIndexPerSlave st' = nextCellIndexPerSlave st /\
  EEPROM st' = EEPROM st /\
  canPresent st' = canPresent st.
Proof.
  unfold sendCurrentToBMS. destruct (canPresent st) eqn:E; simpl; auto 10.
Qed.

(** The preferences after a set-cell-count request. *)
Lemma set_cells_prefs (c : Z) (st : state) (b0 b1 : byte) (rest : list byte) :
  length (nextCellIndexPerSlave st) = 256%nat ->
  ee_buf (EEPROM st) = b0 :: b1 :: rest ->
  EEPROM (fst (handleSetCells (Some c) st)) =
  mkEeprom (EEPROM_MAGIC :: byte_of_Z (clamp_count c) :: rest)
           (EEPROM_MAGIC :: byte_of_Z (clamp_count c) :: rest).
Proof.
  intros Htab Hb. rewrite handleSetCells_some by exact Htab.
  st_simpl. unfold EEPROM_commit, EEPROM_write. cbn [ee_buf ee_flash].
  rewrite Hb. reflexivity.
Qed.

(** The preferences after a set-current request. *)
Lemma set_current_prefs (v0 : float32) (st : state)
      (b0 b1 b2 b3 b4 b5 : byte) (rest : list byte) :
  ee_buf (EEPROM st) = b0 :: b1 :: b2 :: b3 :: b4 :: b5 :: rest ->
  let v := if F32.isnan v0 then F32.zero else v0 in
  EEPROM (fst (handleSetCurrent (Some v0) st)) =
  mkEeprom (EEPROM_MAGIC :: b1 :: skipn 2 (prefs_image 0 v) ++ rest)
           (EEPROM_MAGIC :: b1 :: skipn 2 (prefs_image 0 v) ++ rest).
Proof.
  intros Hb v. rewrite handleSetCurrent_some. cbv zeta. fold v.
  destruct (sendCurrentToBMS_fields v
              (set_EEPROM
                 (EEPROM_commit
                    (EEPROM_put (EEPROM_write (EEPROM st) 0 EEPROM_MAGIC)
                                EEPROM_ADDR_CURRENT v))
                 (set_currentSettingA v st)))
    as (_ & _ & _ & _ & _ & -> & _).
  st_simpl. unfold EEPROM_put, EEPROM_commit, EEPROM_write.
  cbn [ee_buf ee_flash]. rewrite Hb. reflexivity.
Qed.

(** Four bytes, least significant first, give back a 32-bit pattern. *)
Lemma le32_bytes (b : Z) :
  0 <= b < 4294967296 ->
  byte_val (byte_of_Z b)
  + Z.shiftl (byte_val (byte_of_Z (Z.shiftr b 8))) 8
  + Z.shiftl (byte_val (byte_of_Z (Z.shiftr b 16))) 16
  + Z.shiftl (byte_val (byte_of_Z (Z.shiftr b 24))) 24 = b.
Proof.
  intros H. rewrite !byte_val_of_Z.
  rewrite !Z.shiftr_div_pow2, !Z.shiftl_mul_pow2 by lia.
  change (2 ^ 8) with 256. change (2 ^ 16) with 65536.
  change (2 ^ 24) with 16777216.
  pose proof (Z.div_mod b 256 ltac:(lia)).
  pose proof (Z.mod_pos_bound b 256 ltac:(lia)).
  pose proof (Z.div_mod (b / 256) 256 ltac:(lia)).
  pose proof (Z.mod_pos_bound (b / 256) 256 ltac:(lia)).
  pose proof (Z.div_mod (b / 256 / 256) 256 ltac:(lia)).
  pose proof (Z.mod_pos_bound (b / 256 / 256) 256 ltac:(lia)).
  rewrite Z.div_div in * by lia.
  change (256 * 256) with 65536 in *.
  rewrite Z.div_div in * by lia.
  change (65536 * 256) with 16777216 in *.
  assert (b / 16777216 < 256)
    by (apply Z.div_lt_upper_bound; lia).
  assert (0 <= b / 16777216) by (apply Z.div_pos; lia).
  rewrite (Z.mod_small (b / 16777216)) by lia.
  lia.
Qed.

(** What [load] reads from a buffer that starts with a preferences image. *)
Lemma get_prefs_image (e : eeprom) (b0 b1 : byte) (v : float32)
      (rest : list byte) :
  0 <= F32.to_bits v < 4294967296 ->
  ee_buf e = b0 :: b1 :: skipn 2 (prefs_image 0 v) ++ rest ->
  EEPROM_get e EEPROM_ADDR_CURRENT = F32.of_bits (F32.to_bits v).
Proof.
  intros Hr Hb. unfold EEPROM_get, EEPROM_read. rewrite Hb.
  cbn [prefs_image skipn app EEPROM_ADDR_CURRENT Z.add Pos.add Pos.succ].
  cbv [zget]. cbn [Z.ltb Z.compare Z.to_nat Pos.to_nat Pos.iter_op Nat.add
                   lookup list_lookup default].
  simpl. rewrite le32_bytes by exact Hr. reflexivity.
Qed.

Lemma loadPrefs_magic (st : state) :
  EEPROM_read (EEPROM st) 0 = EEPROM_MAGIC ->
  loadPrefs st =
  let c := byte_val (EEPROM_read (EEPROM st) EEPROM_ADDR_COUNT) in
  let x := EEPROM_get (EEPROM st) EEPROM_ADDR_CURRENT in
  set_currentSettingA
    (if F32.isnan x || F32.ltb x F32.zero then F32.zero else x)
    (if (1 <=? c) && (c <=? 32) then set_activeCellCount c st else st).
Proof.
  intros H. unfold loadPrefs. rewrite H. cbv zeta.
  change (Byte.eqb EEPROM_MAGIC EEPROM_MAGIC) with true. cbv iota.
  change MAX_CELLS with 32.
  destruct ((1 <=? byte_val (EEPROM_read (EEPROM st) EEPROM_ADDR_COUNT))
            && (byte_val (EEPROM_read (EEPROM st) EEPROM_ADDR_COUNT) <=? 32));
    st_simpl;
    destruct (F32.isnan (EEPROM_get (EEPROM st) EEPROM_ADDR_CURRENT)
              || F32.ltb (EEPROM_get (EEPROM st) EEPROM_ADDR_CURRENT) F32.zero);
    reflexivity.
Qed.

Lemma loadPrefs_no_magic (st : state) :
  EEPROM_read (EEPROM st) 0 <> EEPROM_MAGIC ->
  loadPrefs st =
  set_EEPROM
    (EEPROM_commit
       (EEPROM_put
          (EEPROM_write (EEPROM_write (EEPROM st) 0 EEPROM_MAGIC)
                        EEPROM_ADDR_COUNT (byte_of_Z (activeCellCount st)))
          EEPROM_ADDR_CURRENT (currentSettingA st)))
    st.
Proof.
  intros H. unfold loadPrefs.
  destruct (Byte.eqb (EEPROM_read (EEPROM st) 0) EEPROM_MAGIC) eqn:E;
    [|reflexivity].
  apply Byte.byte_dec_bl in E. contradiction.
Qed.

Lemma initSimData_eq (st : state) :
  length (nextCellIndexPerSlave st) = 256%nat ->
  initSimData st =
  set_nextCellIndexPerSlave (replicate 256 0)
    (set_currentSettingA F32.zero
       (set_packVoltageV F32.zero
          (set_balanceCurrentA F32.zero
             (set_temperatureC c29
                (set_cells
                   (for_range 0 32
                      (fun i a =>
                         zset a i
                           (F32.add c3_90
                              (F32.mul c0_06 (F32.of_Z (Z.rem i 3)))))
                      (cells st))
                   st))))).
Proof.
  intros Htab. unfold initSimData. cbv zeta.
  rewrite (cells_loop
             (fun i a =>
                zset a i (F32.add c3_90 (F32.mul c0_06 (F32.of_Z (Z.rem i 3)))))).
  rewrite (cursors_loop (fun i t => zset t i 0)).
  st_simpl. change 256 with (Z.of_nat 256).
  rewrite (fill_all Z 0 256) by exact Htab.
  reflexivity.
Qed.

Lemma setup_eq (flash : list byte) (probe : bool) :
  setup flash probe =
  let st3 := set_canPresent probe (loadPrefs (st_defaults flash)) in
  if probe && F32.ltb F32.zero (currentSettingA st3)
  then sendCurrentToBMS (currentSettingA st3) st3
  else st3.
Proof.
  unfold setup. cbv zeta.
  rewrite initSimData_eq by reflexivity.
  reflexivity.
Qed.

Lemma setup_fields (flash : list byte) (probe : bool) :
  let st := setup flash probe in
  let st0 := loadPrefs (st_defaults flash) in
  activeCellCount st = activeCellCount st0 /\
  cells st = cells st0 /\
  temperatureC st = temperatureC st0 /\
  currentSettingA st = currentSettingA st0 /\
  nextCellIndexPerSlave st = nextCellIndexPerSlave st0 /\
  EEPROM st = EEPROM st0.
Proof.
  intros st st0. unfold st. rewrite setup_eq. cbv zeta. fold st0.
  destruct (probe && F32.ltb F32.zero (currentSettingA (set_canPresent probe st0))).
  - destruct (sendCurrentToBMS_fields
                (currentSettingA (set_canPresent probe st0))
                (set_canPresent probe st0))
      as (-> & -> & -> & -> & -> & -> & _).
    auto 10.
  - auto 10.
Qed.

(** C6 as stated fails: a stored setpoint of +infinity is not finite, yet
    [load] keeps it instead of resetting the setpoint to 0. *)
Lemma C6_counterexample :
  ~ (forall st : state,
       EEPROM_read (EEPROM st) 0 = EEPROM_MAGIC ->
       finite_nonneg (EEPROM_get (EEPROM st) EEPROM_ADDR_CURRENT) = false ->
       currentSettingA (loadPrefs st) = F32.zero).
Proof.
  intros H.
  specialize (H st_inf eq_refl eq_refl).
  vm_compute in H. discriminate H.
Qed.

(** C6, amended. With the magic byte in place, [load] takes the stored
    cell count when it is in [1, 32] and keeps the count in memory
    otherwise; it resets the setpoint to 0 when the stored value is a NaN
    or compares below zero, and takes every other stored value as it is:
    the finite values that are not negative, and +infinity as well. *)
Theorem C6_load_validation (st : state) :
  EEPROM_read (EEPROM st) 0 = EEPROM_MAGIC ->
  let c := byte_val (EEPROM_read (EEPROM st) EEPROM_ADDR_COUNT) in
  let x := EEPROM_get (EEPROM st) EEPROM_ADDR_CURRENT in
  let st' := loadPrefs st in
  (1 <= c <= 32 -> activeCellCount st' = c)
  /\ (~ 1 <= c <= 32 -> activeCellCount st' = activeCellCount st)
  /\ (F32.isnan x = true \/ F32.ltb x F32.zero = true ->
      currentSettingA st' = F32.zero)
  /\ (F32.isnan x = false -> F32.ltb x F32.zero = false ->
      currentSettingA st' = x)
  /\ (finite_nonneg x = true -> currentSettingA st' = x)
  /\ (x = S754_infinity false -> currentSettingA st' = S754_infinity false).
Proof.
  intros Hm c x st'. unfold st'. rewrite (loadPrefs_magic st Hm).
  cbv zeta. fold c x.
  assert (activeCellCount
            (set_currentSettingA
               (if F32.isnan x || F32.ltb x F32.zero then F32.zero else x)
               (if (1 <=? c) && (c <=? 32) then set_activeCellCount c st else st))
          = if (1 <=? c) && (c <=? 32) then c else activeCellCount st) as Hc
    by (destruct ((1 <=? c) && (c <=? 32)); reflexivity).
  rewrite Hc. cbn [currentSettingA set_currentSettingA].
  split; [|split; [|split; [|split; [|split]]]].
  - intros H. destruct (1 <=? c) eqn:E1, (c <=? 32) eqn:E2; zb;
      try reflexivity; lia.
  - intros H. destruct (1 <=? c) eqn:E1, (c <=? 32) eqn:E2; zb;
      try reflexivity; lia.
  - intros [H|H]; rewrite H; [reflexivity|].
    rewrite orb_true_r. reflexivity.
  - intros H1 H2. rewrite H1, H2. reflexivity.
  - unfold finite_nonneg. intros H. apply andb_true_iff in H as [H1 H2].
    apply negb_true_iff in H2. rewrite H2.
    destruct x; try discriminate; reflexivity.
  - intros ->. reflexivity.
Qed.

(** ** Set current *)

(** C7 on the code. A set-current request with the value -5 answers 200,
    and the setpoint stored in memory and in the preferences is -5, not a
    valid value nearest to it; the command encoder is handed -5, whose
    conversion to [uint32_t] is undefined. After a power cycle [load]
    rejects the stored -5 and the setpoint is 0. *)
Theorem C7_negative_setpoint_kept (st : state) :
  let r := handleSetCurrent (Some c_neg5) st in
  F32.ltb c_neg5 F32.zero = true
  /\ snd r = 200
  /\ currentSettingA (fst r) = c_neg5
  /\ (canPresent st = true ->
      canSent (fst r) = canSent st ++ [(CAN_SET_ID, None)])
  /\ (let saved := fst (handleSetCurrent (Some c_neg5) st_fresh) in
      take 6 (ee_flash (EEPROM saved)) = prefs_image 8 c_neg5
      /\ prefs_image 8 c_neg5 = [xa5; x08; x00; x00; xa0; xc0]
      /\ currentSettingA (setup (ee_flash (EEPROM saved)) true) = F32.zero).
Proof.
  intros r. split; [reflexivity|]. split; [reflexivity|].
  unfold r. rewrite handleSetCurrent_some. cbv zeta.
  change (F32.isnan c_neg5) with false. cbv iota.
  split; [|split].
  - match goal with
    | |- currentSettingA (sendCurrentToBMS ?a ?s) = _ =>
        destruct (sendCurrentToBMS_fields a s) as (_ & _ & _ & -> & _)
    end.
    reflexivity.
  - intros Hcan. unfold sendCurrentToBMS. st_simpl. rewrite Hcan.
    reflexivity.
  - vm_compute. repeat split; reflexivity.
Qed.


Lemma land_255 (z : Z) : Z.land z 255 = z mod 256.
Proof.
  change 255 with (Z.ones 8). rewrite Z.land_ones by lia. reflexivity.
Qed.


(** ** Invariants of the running firmware *)

Lemma decodeFrame_cases (f : frame) (st : state) :
  decodeFrame f st = st
  \/ (exists v, F32.isnan v = false /\ decodeFrame f st = set_balanceCurrentA v st)
  \/ (exists v, F32.isnan v = false /\ decodeFrame f st = set_packVoltageV v st)
  \/ (exists v, F32.isnan v = false /\ decodeFrame f st = set_temperatureC v st)
  \/ (exists idx,
        (idx = 0 \/ 0 <= idx < activeCellCount st) /\
        decodeFrame f st =
        set_nextCellIndexPerSlave
          (zset (nextCellIndexPerSlave st) (buf_at f 0)
                (snd (cell_burst f (activeCellCount st) 3 0 (cells st) idx)))
          (set_cells
             (fst (cell_burst f (activeCellCount st) 3 0 (cells st) idx)) st)).
Proof.
  unfold decodeFrame.
  destruct (len f <? 2); [auto|].
  destruct (buf_at f 1 =? 0).
  - right. right. right. right.
    fold (cursor st (buf_at f 0)).
    set (idx := if (cursor st (buf_at f 0) <? 0)
                   || (activeCellCount st <=? cursor st (buf_at f 0))
                then 0 else cursor st (buf_at f 0)).
    exists idx. split.
    + unfold idx.
      destruct (cursor st (buf_at f 0) <? 0) eqn:E1; [auto|].
      destruct (activeCellCount st <=? cursor st (buf_at f 0)) eqn:E2;
        [auto|]. zb. simpl. right. lia.
    + destruct (cell_burst f (activeCellCount st) 3 0 (cells st) idx);
        reflexivity.
  - destruct (buf_at f 1 =? 8).
    { destruct (4 <=? len f); [|auto]. right. left.
      eexists. split; [|reflexivity]. apply mV_to_V_not_nan. }
    destruct (buf_at f 1 =? 9).
    { destruct (4 <=? len f); [|auto]. right. right. left.
      eexists. split; [|reflexivity].
      change c0_01 with (S754_finite false 10737418 (-30)).
      apply mul_not_nan, of_Z_not_nan. }
    destruct (buf_at f 1 =? 10); [|auto].
    destruct (3 <=? len f); [|auto]. right. right. right. left.
    eexists. split; [|reflexivity]. apply of_Z_not_nan.
Qed.

Lemma cell_burst_not_nan (f : frame) (n : Z) (todo : nat) :
  forall (k : Z) (cs : list float32) (idx : Z),
    Forall (fun v => F32.isnan v = false) cs ->
    Forall (fun v => F32.isnan v = false) (fst (cell_burst f n todo k cs idx)).
Proof.
  induction todo as [|todo IH]; intros k cs idx H; simpl; [exact H|].
  destruct (len f <=? 2 + k * 2 + 1); [exact H|].
  apply IH.
  destruct ((0 <=? idx) && (idx <? n)); [|exact H].
  unfold zset. destruct (idx <? 0); [exact H|].
  apply Forall_insert; [exact H|].
  apply (mV_to_V_not_nan (raw16 f (2 + k * 2))).
Qed.

Lemma cursor_zset (t : list Z) (s x s' : Z) (n : Z) :
  0 <= x < n ->
  0 <= zget 0 t s' < n ->
  0 <= zget 0 (zset t s x) s' < n.
Proof.
  intros Hx Hs'. unfold zget, zset in *.
  destruct (s' <? 0) eqn:E1; [exact Hs'|].
  destruct (s <? 0) eqn:E2; [exact Hs'|].
  zb. destruct (Z.eq_dec s s') as [->|Hne].
  - destruct (Nat.lt_ge_cases (Z.to_nat s') (length t)).
    + rewrite list_lookup_insert_eq by assumption. exact Hx.
    + rewrite list_insert_ge by assumption. exact Hs'.
  - rewrite list_lookup_insert_ne by lia. exact Hs'.
Qed.

(** A step that keeps the cell count, the cursors, the magic byte and the
    stored count, and leaves numbers in the cells and the temperature,
    keeps the invariants. *)
Lemma inv_ext (st st' : state) :
  inv st ->
  activeCellCount st' = activeCellCount st ->
  length (cells st') = 32%nat ->
  Forall (fun v => F32.isnan v = false) (cells st') ->
  nextCellIndexPerSlave st' = nextCellIndexPerSlave st ->
  length (ee_buf (EEPROM st')) = 64%nat ->
  EEPROM_read (EEPROM st') 0 = EEPROM_MAGIC ->
  EEPROM_read (EEPROM st') EEPROM_ADDR_COUNT
  = EEPROM_read (EEPROM st) EEPROM_ADDR_COUNT ->
  F32.isnan (temperatureC st') = false ->
  inv st'.
Proof.
  intros (Hshape & Hcur & Hprefs & Hnum & _) Hn Hlen Hc Ht Hel Hm Hcount Htemp.
  unfold inv, shape_ok, cursor_inv, prefs_inv, numeric, cursor in *.
  rewrite Hn, Ht, Hcount. cbv zeta in Hprefs. tauto.
Qed.

Lemma inv_same (st st' : state) :
  inv st ->
  activeCellCount st' = activeCellCount st ->
  cells st' = cells st ->
  nextCellIndexPerSlave st' = nextCellIndexPerSlave st ->
  EEPROM st' = EEPROM st ->
  F32.isnan (temperatureC st') = false ->
  inv st'.
Proof.
  intros Hinv Hn Hc Ht He Htemp.
  apply (inv_ext st); try assumption; rewrite ?Hc, ?He; try reflexivity;
    apply Hinv.
Qed.

Lemma decode_preserves_inv (f : frame) (st : state) :
  inv st -> inv (decodeFrame f st).
Proof.
  intros Hinv.
  destruct (decodeFrame_cases f st)
    as [->|[(v & Hv & ->)|[(v & Hv & ->)|[(v & Hv & ->)|(idx & Hidx & ->)]]]];
    [exact Hinv| | | |];
    try (apply (inv_same st); try reflexivity;
         [exact Hinv|try exact Hv; apply Hinv]).
  destruct Hinv as ((Hcells & Htab & Hee) & (Hn & Hcur) & Hprefs & (Hnum & Htemp)).
  pose proof (cell_burst_idx f (activeCellCount st) 3 0 (cells st) idx
                ltac:(lia)) as Hb.
  split; [|split; [|split]].
  - unfold shape_ok. st_simpl.
    rewrite cell_burst_length, length_zset. auto.
  - split; [exact Hn|]. intros s. unfold cursor. st_simpl.
    apply cursor_zset; [exact Hb|apply Hcur].
  - exact Hprefs.
  - split; [|exact Htemp]. st_simpl. apply cell_burst_not_nan, Hnum.
Qed.

Lemma drain_preserves_inv (pending : list frame) (st : state) :
  inv st -> inv (drainCanMessages pending st).
Proof.
  unfold drainCanMessages. destruct (canPresent st); [|auto].
  revert st. induction pending as [|f fs IH]; intros st H; simpl; [exact H|].
  apply IH, decode_preserves_inv, H.
Qed.

Lemma fill_not_nan (n : Z) (cs : list float32) :
  Forall (fun v => F32.isnan v = false) cs ->
  Forall (fun v => F32.isnan v = false)
         (for_range n 32 (fun i a => zset a i F32.zero) cs).
Proof.
  intros H.
  destruct (for_range_fill float32 F32.zero n 32 cs) as [Hlen Hj].
  rewrite Forall_lookup. intros j x Hx.
  assert (j < length cs)%nat as Hlt
    by (rewrite <- Hlen; apply lookup_lt_Some in Hx; exact Hx).
  rewrite Hj in Hx by exact Hlt.
  destruct ((n <=? Z.of_nat j) && (Z.of_nat j <? 32)).
  - injection Hx as <-. reflexivity.
  - rewrite Forall_lookup in H. apply (H j x Hx).
Qed.

Lemma set_cells_preserves_inv (arg : option Z) (st : state) :
  inv st -> inv (fst (handleSetCells arg st)).
Proof.
  intros Hinv. destruct arg as [c|]; [|exact Hinv].
  destruct Hinv as ((Hcells & Htab & Hee) & (Hn & Hcur) & Hprefs & (Hnum & Htemp)).
  destruct (buf64_split _ Hee) as (b0 & b1 & b2 & b3 & b4 & b5 & rest & Hb & Hr).
  pose proof (set_cells_prefs c st b0 b1 _ Htab Hb) as He.
  pose proof (clamp_count_range c) as Hc.
  rewrite handleSetCells_some in * by exact Htab.
  destruct (for_range_fill float32 F32.zero (clamp_count c) 32 (cells st))
    as [Hlen _].
  split; [|split; [|split]].
  - unfold shape_ok. rewrite He. st_simpl.
    rewrite Hlen, length_replicate. simpl. rewrite Hr. auto.
  - split; [exact Hc|]. intros s. unfold cursor, zget. st_simpl.
    destruct (s <? 0); [lia|].
    destruct (replicate 256 0 !! Z.to_nat s) as [x|] eqn:E; simpl; [|lia].
    apply lookup_replicate in E. lia.
  - unfold prefs_inv. rewrite He. split; [reflexivity|].
    cbv zeta.
    change (EEPROM_read _ EEPROM_ADDR_COUNT) with (byte_of_Z (clamp_count c)).
    st_simpl. rewrite byte_val_of_Z, Z.mod_small by lia. reflexivity.
  - split; [|exact Htemp]. st_simpl. apply fill_not_nan, Hnum.
Qed.

Lemma set_current_preserves_inv (arg : option float32) (st : state) :
  inv st -> inv (fst (handleSetCurrent arg st)).
Proof.
  intros Hinv. destruct arg as [v0|]; [|exact Hinv].
  pose proof Hinv as ((Hcells & Htab & Hee) & _ & (Hm & Hcount) & (Hnum & Htemp)).
  destruct (buf64_split _ Hee) as (b0 & b1 & b2 & b3 & b4 & b5 & rest & Hb & Hr).
  pose proof (set_current_prefs v0 st b0 b1 b2 b3 b4 b5 rest Hb) as He.
  cbv zeta in He.
  rewrite handleSetCurrent_some in *. cbv zeta in *.
  match type of He with
  | EEPROM (sendCurrentToBMS ?a ?s) = _ =>
      destruct (sendCurrentToBMS_fields a s)
        as (Hf1 & Hf2 & Hf3 & _ & Hf5 & _ & _)
  end.
  apply (inv_ext st); try assumption.
  - rewrite Hf2. exact Hcells.
  - rewrite Hf2. exact Hnum.
  - rewrite He. simpl. rewrite Hr. reflexivity.
  - rewrite He. reflexivity.
  - rewrite He. unfold EEPROM_read. rewrite Hb. reflexivity.
  - rewrite Hf3. exact Htemp.
Qed.

Lemma load_preserves_inv (st : state) : inv st -> inv (loadPrefs st).
Proof.
  intros Hinv.
  pose proof Hinv as (_ & _ & (Hm & Hcount) & (_ & Htemp)).
  rewrite (loadPrefs_magic st Hm). cbv zeta in *.
  destruct ((1 <=? byte_val (EEPROM_read (EEPROM st) EEPROM_ADDR_COUNT))
            && (byte_val (EEPROM_read (EEPROM st) EEPROM_ADDR_COUNT) <=? 32))
    eqn:E.
  - zb. apply (inv_same st); try reflexivity; try assumption.
    st_simpl. apply Hcount. lia.
  - apply (inv_same st); try reflexivity; assumption.
Qed.

Lemma tick_preserves_inv (dv : Z -> Z) (dt : Z) (st : state) :
  draws_ok dv dt -> inv st -> inv (tickSimData dv dt st).
Proof.
  intros [Hdv Hdt] Hinv.
  pose proof Hinv as ((Hcells & _ & Hee) & _ & (Hm & _) & (Hnum & Htemp)).
  rewrite tickSimData_eq.
  destruct (for_range_update float32 F32.zero (tick_cell dv) 0
              (activeCellCount st) (cells st)) as [Hlen Hj].
  apply (inv_ext st); try assumption; st_simpl; try reflexivity.
  - rewrite Hlen. exact Hcells.
  - rewrite Forall_lookup. intros j x Hx. rewrite Hj in Hx.
    rewrite Forall_lookup in Hnum.
    destruct ((0 <=? Z.of_nat j) && (Z.of_nat j <? activeCellCount st)).
    + destruct (cells st !! j) as [y|] eqn:Ey; [|discriminate].
      injection Hx as <-.
      apply (leb_not_nan c3_60), tick_cell_bounds; [apply Hdv|].
      apply (Hnum j y Ey).
    + apply (Hnum j x Hx).
  - apply (leb_not_nan c20), clampf4_bounds; [|vm_compute; reflexivity..].
    apply add_not_nan; [exact Htemp|apply temp_delta_finite, Hdt].
Qed.

Lemma step_preserves_inv (st st' : state) : step st st' -> inv st -> inv st'.
Proof.
  intros Hstep Hinv. destruct Hstep.
  - apply decode_preserves_inv, Hinv.
  - apply drain_preserves_inv, Hinv.
  - apply set_cells_preserves_inv, Hinv.
  - apply set_current_preserves_inv, Hinv.
  - apply load_preserves_inv, Hinv.
  - apply tick_preserves_inv; assumption.
Qed.

Lemma forallb_not_nan (l : list float32) :
  forallb (fun v => negb (F32.isnan v)) l = true ->
  Forall (fun v => F32.isnan v = false) l.
Proof.
  induction l as [|x l IH]; simpl; intros H; constructor.
  - apply andb_true_iff in H as [H _]. apply negb_true_iff, H.
  - apply IH. apply andb_true_iff in H as [_ H]. exact H.
Qed.

Lemma defaults_cells (flash : list byte) :
  length (cells (st_defaults flash)) = 32%nat /\
  Forall (fun v => F32.isnan v = false) (cells (st_defaults flash)).
Proof.
  split; [vm_compute; reflexivity|].
  apply forallb_not_nan. vm_compute. reflexivity.
Qed.

Lemma defaults_cursor (flash : list byte) (s : Z) :
  zget 0 (nextCellIndexPerSlave (st_defaults flash)) s = 0.
Proof.
  unfold zget. cbn [st_defaults nextCellIndexPerSlave].
  destruct (s <? 0); [reflexivity|].
  destruct (replicate 256 0 !! Z.to_nat s) as [x|] eqn:E; [|reflexivity].
  apply lookup_replicate in E. simpl. tauto.
Qed.

Lemma load_defaults_inv (flash : list byte) :
  length flash = 64%nat -> inv (loadPrefs (st_defaults flash)).
Proof.
  intros Hlen.
  destruct (defaults_cells flash) as [Hcl Hcn].
  destruct (Byte.eqb (EEPROM_read (EEPROM (st_defaults flash)) 0) EEPROM_MAGIC)
    eqn:E.
  - apply Byte.byte_dec_bl in E. rewrite (loadPrefs_magic _ E). cbv zeta.
    set (c := byte_val (EEPROM_read (EEPROM (st_defaults flash)) EEPROM_ADDR_COUNT)).
    match goal with
    | |- inv (set_currentSettingA ?x _) => set (cur := x)
    end.
    assert (forall st1,
              st1 = (if (1 <=? c) && (c <=? 32)
                     then set_activeCellCount c (st_defaults flash)
                     else st_defaults flash) ->
              inv (set_currentSettingA cur st1)) as G; [|apply G; reflexivity].
    intros st1 Hst1.
    assert (cells st1 = cells (st_defaults flash)
            /\ nextCellIndexPerSlave st1 = nextCellIndexPerSlave (st_defaults flash)
            /\ EEPROM st1 = EEPROM (st_defaults flash)
            /\ temperatureC st1 = c29
            /\ 1 <= activeCellCount st1 <= 32
            /\ (1 <= c <= 32 -> c = activeCellCount st1))
      as (H1 & H2 & H3 & H4 & H5 & H6).
    { rewrite Hst1. destruct (1 <=? c) eqn:E1, (c <=? 32) eqn:E2; zb;
        cbn [andb]; st_simpl; cbn [st_defaults activeCellCount temperatureC];
        unfold DEFAULT_CELLS; repeat split; try reflexivity; lia. }
    split; [|split; [|split]].
    + unfold shape_ok. st_simpl. rewrite H1, H2, H3. auto.
    + split; [exact H5|]. intros s. unfold cursor. st_simpl.
      rewrite H2, defaults_cursor. lia.
    + unfold prefs_inv. st_simpl. rewrite H3. split; [exact E|exact H6].
    + split; st_simpl; [rewrite H1; exact Hcn|rewrite H4; reflexivity].
  - apply Byte.eqb_false in E. rewrite (loadPrefs_no_magic _ E).
    destruct (buf64_split _ Hlen)
      as (b0 & b1 & b2 & b3 & b4 & b5 & rest & -> & Hr).
    split; [|split; [|split]].
    + unfold shape_ok. split; [exact Hcl|]. split; [reflexivity|].
      simpl. rewrite Hr. reflexivity.
    + split; [change (1 <= 8 <= 32); lia|]. intros s.
      unfold cursor. change (activeCellCount _) with 8.
      change (nextCellIndexPerSlave (set_EEPROM _ _))
        with (nextCellIndexPerSlave (st_defaults [])).
      rewrite defaults_cursor. lia.
    + split; [reflexivity|]. cbv zeta. intros _. reflexivity.
    + split; [exact Hcn|reflexivity].
Qed.

Lemma setup_inv (flash : list byte) (probe : bool) :
  length flash = 64%nat -> inv (setup flash probe).
Proof.
  intros Hlen.
  destruct (setup_fields flash probe) as (H1 & H2 & H3 & _ & H5 & H6).
  pose proof (load_defaults_inv flash Hlen) as Hinv.
  apply (inv_same _ _ Hinv); try assumption.
  rewrite H3. apply Hinv.
Qed.

Lemma reachable_inv (st : state) : reachable st -> inv st.
Proof.
  induction 1 as [flash probe Hlen|st st' _ IH Hstep].
  - apply setup_inv, Hlen.
  - apply (step_preserves_inv st st' Hstep IH).
Qed.

(** C2. In every state reachable from [setup] by frames, set-cell-count
    and set-current requests, loading the preferences and simulator
    ticks, the cell count is in [1, 32] and each of the 256 cursors is in
    [0, cell count); and a decoded frame never changes a cell at an index
    from the cell count on. *)
Theorem C2_reachable_invariant (st : state) :
  reachable st ->
  1 <= activeCellCount st <= 32
  /\ length (nextCellIndexPerSlave st) = 256%nat
  /\ Forall (fun x => 0 <= x < activeCellCount st) (nextCellIndexPerSlave st)
  /\ (forall s : Z, 0 <= cursor st s < activeCellCount st)
  /\ (forall (f : frame) (i : nat),
        activeCellCount st <= Z.of_nat i ->
        cells (decodeFrame f st) !! i = cells st !! i).
Proof.
  intros Hr.
  destruct (reachable_inv st Hr) as ((_ & Htab & _) & (Hn & Hcur) & _).
  split; [exact Hn|]. split; [exact Htab|]. split; [|split; [exact Hcur|]].
  - rewrite Forall_lookup. intros j x Hx.
    specialize (Hcur (Z.of_nat j)). unfold cursor, zget in Hcur.
    destruct (Z.of_nat j <? 0) eqn:E; zb; [lia|].
    rewrite Nat2Z.id, Hx in Hcur. exact Hcur.
  - intros f i Hi. apply decode_cells_high, Hi.
Qed.

(** ** binary32: rounding does not fall below 65535 *)

Lemma digits2_pos_bounds (p : positive) :
  2 ^ (Zpos (digits2_pos p) - 1) <= Zpos p < 2 ^ Zpos (digits2_pos p).
Proof.
  induction p as [p IH|p IH|]; simpl digits2_pos.
  - rewrite Pos2Z.inj_succ.
    replace (Z.succ (Zpos (digits2_pos p)) - 1)
      with (Z.succ (Zpos (digits2_pos p) - 1)) by lia.
    rewrite !Z.pow_succ_r by lia. lia.
  - rewrite Pos2Z.inj_succ.
    replace (Z.succ (Zpos (digits2_pos p)) - 1)
      with (Z.succ (Zpos (digits2_pos p) - 1)) by lia.
    rewrite !Z.pow_succ_r by lia. lia.
  - simpl. lia.
Qed.
















(** ** binary32: bit patterns *)

Lemma valid_bounds (m : positive) (e : Z) :
  bounded F32.prec F32.emax m e = true ->
  Zpos m < 16777216 /\ -149 <= e <= 104 /\ (Zpos m < 8388608 -> e = -149).
Proof.
  unfold bounded, canonical_mantissa, fexp, emin, F32.prec, F32.emax.
  intros H. apply andb_true_iff in H as [H1 H2]. zb.
  pose proof (digits2_pos_bounds m) as [Hlo Hhi].
  set (d := Zpos (digits2_pos m)) in *.
  destruct (Z.le_gt_cases (-149) (d + e - 24)) as [Hn|Hs].
  - assert (d = 24) as Hd by lia. rewrite Hd in *.
    change (2 ^ 24) with 16777216 in Hhi.
    change (2 ^ (24 - 1)) with 8388608 in Hlo. lia.
  - assert (e = -149) as He by lia.
    assert (2 ^ d <= 2 ^ 23) as Hp by (apply Z.pow_le_mono_r; lia).
    change (2 ^ 23) with 8388608 in Hp. lia.
Qed.

Lemma bit_fields (s : bool) (E f : Z) :
  0 <= E < 256 -> 0 <= f < 8388608 ->
  let b := F32.sign_bit s + E * 8388608 + f in
  Z.testbit b 31 = s
  /\ Z.land (Z.shiftr b 23) 255 = E
  /\ Z.land b 8388607 = f
  /\ 0 <= b < 4294967296.
Proof.
  intros HE Hf b.
  assert (F32.sign_bit s = Z.b2z s * 2147483648) as Hs
    by (destruct s; reflexivity).
  assert (0 <= Z.b2z s <= 1) as Hb by (destruct s; simpl; lia).
  split; [|split; [|split]].
  - destruct s; [apply Z.testbit_true|apply Z.testbit_false]; try lia;
      change (2 ^ 31) with 2147483648; simpl Z.b2z in *.
    + replace (b / 2147483648) with 1; [reflexivity|].
      apply Z.div_unique with (r := E * 8388608 + f); unfold b; lia.
    + replace (b / 2147483648) with 0; [reflexivity|].
      apply Z.div_unique with (r := E * 8388608 + f); unfold b; lia.
  - rewrite land_255, Z.shiftr_div_pow2 by lia. change (2 ^ 23) with 8388608.
    replace (b / 8388608) with (Z.b2z s * 256 + E)
      by (apply Z.div_unique with (r := f); unfold b; lia).
    symmetry. apply Z.mod_unique with (q := Z.b2z s); lia.
  - change 8388607 with (Z.ones 23). rewrite Z.land_ones by lia.
    change (2 ^ 23) with 8388608.
    symmetry. apply Z.mod_unique with (q := Z.b2z s * 256 + E);
      unfold b; lia.
  - unfold b. lia.
Qed.

Lemma to_bits_range (x : float32) :
  F32.valid x = true ->
  0 <= F32.to_bits x < 4294967296.
Proof.
  destruct x as [s|s| |s m e]; simpl; intros H.
  - destruct s; simpl; lia.
  - destruct s; simpl; lia.
  - lia.
  - destruct (valid_bounds m e H) as (Hm & He & Hsub).
    destruct (Zpos m <? 8388608) eqn:E; zb.
    + destruct s; simpl F32.sign_bit; lia.
    + rewrite Z.shiftl_mul_pow2 by lia. change (2 ^ 23) with 8388608.
      destruct (bit_fields s (e + 150) (Zpos m - 8388608)
                           ltac:(lia) ltac:(lia)) as (_ & _ & _ & Hr).
      cbv zeta in Hr. lia.
Qed.

Lemma of_to_bits (x : float32) :
  F32.valid x = true ->
  F32.of_bits (F32.to_bits x) = x.
Proof.
  destruct x as [s|s| |s m e]; intros H.
  - destruct s; reflexivity.
  - destruct s; reflexivity.
  - reflexivity.
  - destruct (valid_bounds m e H) as (Hm & He & Hsub).
    unfold F32.to_bits, F32.of_bits.
    destruct (Zpos m <? 8388608) eqn:E; zb.
    + destruct (bit_fields s 0 (Zpos m) ltac:(lia) ltac:(lia))
        as (H1 & H2 & H3 & _).
      cbv zeta in *. rewrite Z.mul_0_l, Z.add_0_r in *.
      rewrite H1, H2, H3. simpl. rewrite Hsub by lia. reflexivity.
    + rewrite Z.shiftl_mul_pow2 by lia. change (2 ^ 23) with 8388608.
      destruct (bit_fields s (e + 150) (Zpos m - 8388608)
                           ltac:(lia) ltac:(lia)) as (H1 & H2 & H3 & _).
      cbv zeta in *. rewrite H1, H2, H3.
      destruct (e + 150 =? 0) eqn:E0; zb; [lia|].
      destruct (e + 150 =? 255) eqn:E1; zb; [lia|].
      replace (Zpos m - 8388608 + 8388608) with (Zpos m) by lia.
      f_equal. lia.
Qed.

Lemma saved_prefs_any (c : Z) (v : float32) (st : state) :
  shape_ok st ->
  exists rest,
    EEPROM (fst (handleSetCurrent (Some v) (fst (handleSetCells (Some c) st))))
    = mkEeprom
        (EEPROM_MAGIC :: byte_of_Z (clamp_count c)
           :: skipn 2 (prefs_image 0 (if F32.isnan v then F32.zero else v))
           ++ rest)
        (EEPROM_MAGIC :: byte_of_Z (clamp_count c)
           :: skipn 2 (prefs_image 0 (if F32.isnan v then F32.zero else v))
           ++ rest).
Proof.
  intros (_ & Htab & Hee).
  destruct (buf64_split _ Hee) as (b0 & b1 & b2 & b3 & b4 & b5 & rest & Hb & Hr).
  exists rest.
  pose proof (set_cells_prefs c st b0 b1 _ Htab Hb) as H1.
  apply (set_current_prefs v _ xa5 (byte_of_Z (clamp_count c)) b2 b3 b4 b5 rest).
  rewrite H1. reflexivity.
Qed.

Lemma load_prefs_any (c : Z) (v : float32) (rest : list byte) (st : state) :
  1 <= c <= 32 -> F32.valid v = true ->
  EEPROM st
  = mkEeprom
      (EEPROM_MAGIC :: byte_of_Z c :: skipn 2 (prefs_image 0 v) ++ rest)
      (EEPROM_MAGIC :: byte_of_Z c :: skipn 2 (prefs_image 0 v) ++ rest) ->
  activeCellCount (loadPrefs st) = c /\
  currentSettingA (loadPrefs st)
  = if F32.isnan v || F32.ltb v F32.zero then F32.zero else v.
Proof.
  intros Hc Hv He.
  rewrite loadPrefs_magic by (rewrite He; reflexivity). cbv zeta.
  rewrite (get_prefs_image (EEPROM st) EEPROM_MAGIC (byte_of_Z c) v rest
             (to_bits_range v Hv)) by (rewrite He; reflexivity).
  rewrite (of_to_bits v Hv).
  replace (EEPROM_read (EEPROM st) EEPROM_ADDR_COUNT) with (byte_of_Z c)
    by (rewrite He; reflexivity).
  rewrite byte_val_of_Z, Z.mod_small by lia.
  replace ((1 <=? c) && (c <=? 32)) with true
    by (symmetry; apply andb_true_iff; split; apply Z.leb_le; lia).
  split; reflexivity.
Qed.

(** ** Preferences: the round trip *)

Lemma saved_prefs (st : state) :
  shape_ok st ->
  exists rest,
    EEPROM (fst (handleSetCurrent (Some c42_5)
                   (fst (handleSetCells (Some 12) st)))) =
    mkEeprom ([xa5; x0c; x00; x00; x2a; x42] ++ rest)
             ([xa5; x0c; x00; x00; x2a; x42] ++ rest)
    /\ length rest = 58%nat.
Proof.
  intros (_ & Htab & Hee).
  destruct (buf64_split _ Hee) as (b0 & b1 & b2 & b3 & b4 & b5 & rest & Hb & Hr).
  exists rest. split; [|exact Hr].
  pose proof (set_cells_prefs 12 st b0 b1 _ Htab Hb) as H1.
  rewrite (set_current_prefs c42_5 _ xa5 (byte_of_Z (clamp_count 12))
                             b2 b3 b4 b5 rest)
    by (rewrite H1; reflexivity).
  vm_compute. reflexivity.
Qed.

Lemma load_saved_prefs (st : state) (rest : list byte) :
  EEPROM st = mkEeprom ([xa5; x0c; x00; x00; x2a; x42] ++ rest)
                       ([xa5; x0c; x00; x00; x2a; x42] ++ rest) ->
  activeCellCount (loadPrefs st) = 12 /\ currentSettingA (loadPrefs st) = c42_5.
Proof.
  intros He. rewrite loadPrefs_magic by (rewrite He; reflexivity).
  rewrite He. cbv zeta.
  replace (byte_val _) with 12 by (vm_compute; reflexivity).
  replace (EEPROM_get _ _) with c42_5 by (vm_compute; reflexivity).
  split; reflexivity.
Qed.

(** C4. Saving cell count 12 and setpoint 42.5 (a set-cell-count and a
    set-current request) leaves the bytes A5 0C 00 00 2A 42 at offsets 0-5
    of the committed preferences (magic, count, the four bytes of the
    float); [load] on these preferences, in any state and also after a
    power cycle, yields count 12 and setpoint 42.5; the round trip holds
    as well for every count in [1, 32] with every setpoint that is a
    number not below zero.  [load] on preferences whose byte 0 is not the
    magic byte 0xA5 keeps the cell count and the setpoint in memory and
    commits them, with the magic byte, at offsets 0-5; at the first boot
    these are the defaults 8 and 0.0. *)
Theorem C4_prefs_round_trip (probe : bool) :
  (forall st : state,
     shape_ok st ->
     let saved :=
       fst (handleSetCurrent (Some c42_5) (fst (handleSetCells (Some 12) st))) in
     take 6 (ee_flash (EEPROM saved)) = [xa5; x0c; x00; x00; x2a; x42]
     /\ ee_buf (EEPROM saved) = ee_flash (EEPROM saved)
     /\ (forall st2 : state,
           EEPROM st2 = EEPROM saved ->
           activeCellCount (loadPrefs st2) = 12 /\
           currentSettingA (loadPrefs st2) = c42_5)
     /\ activeCellCount (setup (ee_flash (EEPROM saved)) probe) = 12
     /\ currentSettingA (setup (ee_flash (EEPROM saved)) probe) = c42_5)
  /\ (forall (st : state) (c : Z) (v : float32),
        shape_ok st -> 1 <= c <= 32 ->
        F32.valid v = true -> F32.isnan v = false ->
        F32.ltb v F32.zero = false ->
        let saved :=
          fst (handleSetCurrent (Some v) (fst (handleSetCells (Some c) st))) in
        activeCellCount (setup (ee_flash (EEPROM saved)) probe) = c
        /\ currentSettingA (setup (ee_flash (EEPROM saved)) probe) = v)
  /\ (forall st : state,
        shape_ok st ->
        EEPROM_read (EEPROM st) 0 <> EEPROM_MAGIC ->
        let st' := loadPrefs st in
        activeCellCount st' = activeCellCount st
        /\ currentSettingA st' = currentSettingA st
        /\ take 6 (ee_buf (EEPROM st'))
           = prefs_image (activeCellCount st) (currentSettingA st)
        /\ drop 6 (ee_buf (EEPROM st')) = drop 6 (ee_buf (EEPROM st))
        /\ ee_flash (EEPROM st') = ee_buf (EEPROM st'))
  /\ (forall flash : list byte,
        length flash = 64%nat ->
        zget x00 flash 0 <> EEPROM_MAGIC ->
        let st' := setup flash probe in
        activeCellCount st' = 8
        /\ currentSettingA st' = F32.zero
        /\ take 6 (ee_flash (EEPROM st')) = [xa5; x08; x00; x00; x00; x00]).
Proof.
  split; [|split; [|split]].
  - intros st Hshape saved.
    destruct (saved_prefs st Hshape) as (rest & He & Hr). fold saved in He.
    rewrite He. cbn [ee_flash ee_buf].
    split; [reflexivity|]. split; [reflexivity|]. split.
    + intros st2 H2. apply (load_saved_prefs st2 rest). exact H2.
    + destruct (setup_fields ([xa5; x0c; x00; x00; x2a; x42] ++ rest) probe)
        as (-> & _ & _ & -> & _).
      apply (load_saved_prefs _ rest). reflexivity.
  - intros st c v Hshape Hc Hv Hnan Hneg saved.
    destruct (saved_prefs_any c v st Hshape) as (rest & He). fold saved in He.
    rewrite Hnan in He.
    assert (clamp_count c = c) as Hcl by (unfold clamp_count; lia).
    rewrite Hcl in He. rewrite He. cbn [ee_flash].
    match goal with
    | |- context [setup ?fl probe] =>
        destruct (setup_fields fl probe) as (-> & _ & _ & -> & _);
        destruct (load_prefs_any c v rest (st_defaults fl) Hc Hv eq_refl)
          as (-> & ->)
    end.
    rewrite Hnan, Hneg. split; reflexivity.
  - intros st (_ & _ & Hee) Hm st'. unfold st'.
    rewrite loadPrefs_no_magic by exact Hm. st_simpl.
    destruct (buf64_split _ Hee)
      as (b0 & b1 & b2 & b3 & b4 & b5 & rest & Hb & Hr).
    unfold EEPROM_put, EEPROM_commit, EEPROM_write. cbn [ee_buf ee_flash].
    rewrite Hb. repeat split; reflexivity.
  - intros flash Hlen Hm st'.
    destruct (setup_fields flash probe) as (Hc & _ & _ & Hcur & _ & He).
    fold st' in Hc, Hcur, He. rewrite Hc, Hcur, He.
    rewrite loadPrefs_no_magic by exact Hm. st_simpl.
    destruct (buf64_split _ Hlen)
      as (b0 & b1 & b2 & b3 & b4 & b5 & rest & -> & Hr).
    repeat split; reflexivity.
Qed.


(** ** The properties at sample inputs *)

Lemma st_fresh_inv : inv st_fresh.
Proof. apply setup_inv. reflexivity. Qed.

(** C1 at the frame 05 00 E8 03 D0 07 B8 0B, right after [setup]. *)
Lemma C1_witness :
  shape_ok st_fresh /\ cursor_inv st_fresh /\
  2 <= len frame_burst /\ buf_at frame_burst 1 = 0 /\
  cells (decodeFrame frame_burst st_fresh)
  = zset (zset (zset (cells st_fresh) 0 (mV_to_V 1000)) 1 (mV_to_V 2000))
         2 (mV_to_V 3000) /\
  cursor (decodeFrame frame_burst st_fresh) 5 = 3.
Proof.
  pose proof st_fresh_inv as (Hs & Hc & _).
  assert (2 <= len frame_burst) as Hl by (vm_compute; discriminate).
  pose proof (C1_cell_voltage_burst frame_burst st_fresh Hs Hc Hl eq_refl)
    as (_ & _ & _ & _ & _ & H8 & _).
  destruct (H8 eq_refl) as (Hcells & Hcur & _).
  split; [exact Hs|]. split; [exact Hc|]. split; [exact Hl|].
  split; [reflexivity|]. split; [exact Hcells|exact Hcur].
Defined.

(** C2 at a state reached by a set-cell-count request for 40 cells and
    one frame. *)
Lemma C2_witness :
  reachable st_sample /\
  1 <= activeCellCount st_sample <= 32 /\
  forall s : Z, 0 <= cursor st_sample s < activeCellCount st_sample.
Proof.
  assert (reachable st_sample) as Hr.
  { unfold st_sample.
    apply (reach_step (fst (handleSetCells (Some 40) st_fresh)));
      [|apply step_decode].
    apply (reach_step st_fresh); [|apply step_set_cells].
    apply reach_setup. reflexivity. }
  destruct (C2_reachable_invariant st_sample Hr) as (Hn & _ & _ & Hc & _).
  split; [exact Hr|]. split; [exact Hn|exact Hc].
Defined.

(** C3 at the requests for 40, -7 and 4 cells, right after [setup]. *)
Lemma C3_witness :
  shape_ok st_fresh /\
  activeCellCount (fst (handleSetCells (Some 40) st_fresh)) = 32 /\
  activeCellCount (fst (handleSetCells (Some (-7)) st_fresh)) = 1 /\
  nextCellIndexPerSlave (fst (handleSetCells (Some 4) st_fresh))
  = replicate 256 0 /\
  cells (fst (handleSetCells (Some 4) st_fresh)) !! 4%nat = Some F32.zero.
Proof.
  pose proof st_fresh_inv as (Hs & _).
  destruct (C3_set_cell_count 40 st_fresh Hs) as (H40 & _).
  destruct (C3_set_cell_count (-7) st_fresh Hs) as (H7 & _).
  destruct (C3_set_cell_count 4 st_fresh Hs) as (_ & Hcur & _ & Hz & _).
  split; [exact Hs|]. split; [exact H40|]. split; [exact H7|].
  split; [exact Hcur|]. apply (Hz 4). split; [reflexivity|reflexivity].
Defined.

(** C6 at preferences that store count 8 and +infinity. *)
Lemma C6_witness :
  EEPROM_read (EEPROM st_inf) 0 = EEPROM_MAGIC /\
  activeCellCount (loadPrefs st_inf) = 8 /\
  currentSettingA (loadPrefs st_inf) = S754_infinity false.
Proof.
  split; [reflexivity|].
  destruct (C6_load_validation st_inf eq_refl) as (Hc & _ & _ & _ & _ & Hinf).
  split; [apply Hc; split; discriminate|apply Hinf; reflexivity].
Defined.

(** C8 at the state after [setup], all cell draws 3 and the temperature
    draw -2. *)
Lemma C8_witness :
  draws_ok (fun _ => 3) (-2) /\ shape_ok st_fresh /\
  activeCellCount st_fresh <= 32 /\ numeric st_fresh /\
  (forall i : Z,
     0 <= i < activeCellCount (tickSimData (fun _ => 3) (-2) st_fresh) ->
     exists v, cells (tickSimData (fun _ => 3) (-2) st_fresh) !! Z.to_nat i
               = Some v /\
               F32.leb c3_60 v = true /\ F32.leb v c4_20 = true) /\
  F32.leb c20 (temperatureC (tickSimData (fun _ => 3) (-2) st_fresh)) = true /\
  F32.leb (temperatureC (tickSimData (fun _ => 3) (-2) st_fresh)) c55 = true.
Proof.
  pose proof st_fresh_inv as (Hs & (Hn & _) & _ & Hnum).
  assert (draws_ok (fun _ => 3) (-2)) as Hd
    by (split; [intros _; split; discriminate|split; discriminate]).
  pose proof (C8_tick_bounds (fun _ => 3) (-2) st_fresh Hd Hs (proj2 Hn) Hnum)
    as H.
  split; [exact Hd|]. split; [exact Hs|]. split; [exact (proj2 Hn)|].
  split; [exact Hnum|exact H].
Defined.

(** C9 at a frame of type 0x77. *)
Lemma C9_witness :
  (len frame_unknown < 2 \/
   (2 <= len frame_unknown /\ buf_at frame_unknown 1 <> 0 /\
    buf_at frame_unknown 1 <> 8 /\ buf_at frame_unknown 1 <> 9 /\
    buf_at frame_unknown 1 <> 10)) /\
  decodeFrame frame_unknown st_fresh = st_fresh.
Proof.
  assert (len frame_unknown < 2 \/
          (2 <= len frame_unknown /\ buf_at frame_unknown 1 <> 0 /\
           buf_at frame_unknown 1 <> 8 /\ buf_at frame_unknown 1 <> 9 /\
           buf_at frame_unknown 1 <> 10)) as H
    by (right; repeat split; discriminate).
  split; [exact H|exact (C9_ignored_frames frame_unknown st_fresh H)].
Defined.

(** C10 at the state after [setup], where no pack voltage was received,
    and after a pack-voltage frame of 40.00 V. *)
Lemma C10_witness :
  shape_ok st_fresh /\ shape_ok st_pack /\
  activeCellCount st_fresh <= 32 /\ activeCellCount st_pack <= 32 /\
  j_total (handleData st_fresh)
  = sum_cells (Z.to_nat (activeCellCount st_fresh)) (cells st_fresh) /\
  j_total (handleData st_pack) = packVoltageV st_pack /\
  packVoltageV st_pack = F32.mul (F32.of_Z 4000) c0_01.
Proof.
  pose proof st_fresh_inv as (Hs & (Hn & _) & _).
  pose proof (decode_preserves_inv frame_pack st_fresh st_fresh_inv)
    as (Hp & (Hn' & _) & _).
  fold st_pack in Hp, Hn'.
  destruct (C10_reported_total st_fresh Hs (proj2 Hn)) as (_ & Hsum).
  destruct (C10_reported_total st_pack Hp (proj2 Hn')) as (Hpack & _).
  split; [exact Hs|]. split; [exact Hp|].
  split; [exact (proj2 Hn)|]. split; [exact (proj2 Hn')|].
  split; [apply Hsum; reflexivity|].
  split; [apply Hpack; reflexivity|reflexivity].
Defined.

(** C4 at the state after [setup] with an erased EEPROM: count 12 with
    setpoint 42.5, and count 31 with setpoint 100.5. *)
Lemma C4_witness :
  shape_ok st_fresh /\
  take 6 (ee_flash
            (EEPROM
               (fst (handleSetCurrent (Some c42_5)
                       (fst (handleSetCells (Some 12) st_fresh))))))
  = [xa5; x0c; x00; x00; x2a; x42] /\
  activeCellCount
    (setup
       (ee_flash
          (EEPROM
             (fst (handleSetCurrent (Some c42_5)
                     (fst (handleSetCells (Some 12) st_fresh))))))
       false) = 12 /\
  currentSettingA
    (setup
       (ee_flash
          (EEPROM
             (fst (handleSetCurrent (Some c42_5)
                     (fst (handleSetCells (Some 12) st_fresh))))))
       false) = c42_5 /\
  F32.valid (F32.lit 1005 10) = true /\
  currentSettingA
    (setup
       (ee_flash
          (EEPROM
             (fst (handleSetCurrent (Some (F32.lit 1005 10))
                     (fst (handleSetCells (Some 31) st_fresh))))))
       false) = F32.lit 1005 10.
Proof.
  pose proof st_fresh_inv as (Hs & _).
  destruct (C4_prefs_round_trip false) as (Hsave & Hany & _).
  destruct (Hsave st_fresh Hs) as (Himg & _ & _ & Hcount & Hcur).
  assert (F32.valid (F32.lit 1005 10) = true) as Hv
    by (vm_compute; reflexivity).
  assert (1 <= 31 <= 32) as H31 by (split; discriminate).
  destruct (Hany st_fresh 31 (F32.lit 1005 10) Hs H31 Hv eq_refl eq_refl)
    as (_ & Hcur').
  split; [exact Hs|]. split; [exact Himg|]. split; [exact Hcount|].
  split; [exact Hcur|]. split; [exact Hv|exact Hcur'].
Defined.


(** * Further properties of the firmware *)

(** ** The frame decoder: what a frame leaves alone *)

Lemma decode_keeps (f : frame) (st : state) :
  activeCellCount (decodeFrame f st) = activeCellCount st
  /\ currentSettingA (decodeFrame f st) = currentSettingA st
  /\ EEPROM (decodeFrame f st) = EEPROM st
  /\ canSent (decodeFrame f st) = canSent st
  /\ canPresent (decodeFrame f st) = canPresent st.
Proof.
  destruct (decodeFrame_cases f st)
    as [->|[(v & _ & ->)|[(v & _ & ->)|[(v & _ & ->)|(idx & _ & ->)]]]];
    repeat split; reflexivity.
Qed.

Lemma decode_other_cursor (f : frame) (st : state) (s : Z) :
  s <> buf_at f 0 -> cursor (decodeFrame f st) s = cursor st s.
Proof.
  intros Hs.
  destruct (decodeFrame_cases f st)
    as [->|[(v & _ & ->)|[(v & _ & ->)|[(v & _ & ->)|(idx & _ & ->)]]]];
    try reflexivity.
  unfold cursor. st_simpl.
  destruct (Z.lt_ge_cases s 0) as [Hneg|Hpos].
  - unfold zget. destruct (s <? 0) eqn:E; zb; [reflexivity|lia].
  - apply zget_zset_ne; [congruence|exact Hpos].
Qed.

Lemma decode_scalar_keeps_cells (f : frame) (st : state) :
  buf_at f 1 <> 0 ->
  cells (decodeFrame f st) = cells st /\
  nextCellIndexPerSlave (decodeFrame f st) = nextCellIndexPerSlave st.
Proof.
  intros H. unfold decodeFrame.
  destruct (len f <? 2); [auto|].
  destruct (buf_at f 1 =? 0) eqn:E0; zb; [contradiction|].
  destruct (buf_at f 1 =? 8); [destruct (4 <=? len f); auto|].
  destruct (buf_at f 1 =? 9); [destruct (4 <=? len f); auto|].
  destruct (buf_at f 1 =? 10); [destruct (3 <=? len f); auto|auto].
Qed.

Lemma decode_cells_keeps_scalars (f : frame) (st : state) :
  buf_at f 1 = 0 ->
  temperatureC (decodeFrame f st) = temperatureC st
  /\ packVoltageV (decodeFrame f st) = packVoltageV st
  /\ balanceCurrentA (decodeFrame f st) = balanceCurrentA st.
Proof.
  intros H. unfold decodeFrame.
  destruct (len f <? 2); [auto|]. rewrite H. simpl (0 =? 0). cbv iota.
  match goal with
  | |- context [cell_burst ?a ?b ?c ?d ?e ?g] =>
      destruct (cell_burst a b c d e g) as [cs idx']
  end.
  auto.
Qed.

(** X1. Whatever the frame, decoding it never changes the cell count,
    the setpoint, the preferences, the frames sent or the transceiver
    flag, and it leaves the cursor of every slave other than the frame's
    own alone; a frame that is not a cell-voltage frame changes no cell
    and no cursor, and a cell-voltage frame changes none of temperature,
    pack voltage and balance current. *)
Theorem X1_decode_frame_effect (f : frame) (st : state) :
  let st' := decodeFrame f st in
  activeCellCount st' = activeCellCount st
  /\ currentSettingA st' = currentSettingA st
  /\ EEPROM st' = EEPROM st
  /\ canSent st' = canSent st
  /\ canPresent st' = canPresent st
  /\ (forall s : Z, s <> buf_at f 0 -> cursor st' s = cursor st s)
  /\ (buf_at f 1 <> 0 ->
      cells st' = cells st /\
      nextCellIndexPerSlave st' = nextCellIndexPerSlave st)
  /\ (buf_at f 1 = 0 ->
      temperatureC st' = temperatureC st
      /\ packVoltageV st' = packVoltageV st
      /\ balanceCurrentA st' = balanceCurrentA st).
Proof.
  intros st'. unfold st'.
  destruct (decode_keeps f st) as (H1 & H2 & H3 & H4 & H5).
  repeat (split; [assumption|]).
  split; [intros s; apply decode_other_cursor|].
  split; [apply decode_scalar_keeps_cells|apply decode_cells_keeps_scalars].
Qed.

(** ** The frame decoder: scalar frames *)

Lemma scalar_ranges_checked :
  all_from (Z.to_nat 65536) 0
    (scalar_ranges (F32.lit 65535 1000) (F32.lit 65535 100) c0_01) = true.
Proof. vm_cast_no_check (eq_refl true). Qed.

Lemma scalar_ranges_all (raw : Z) :
  0 <= raw < 65536 ->
  scalar_ranges (F32.lit 65535 1000) (F32.lit 65535 100) c0_01 raw = true.
Proof.
  intros H.
  apply (all_from_spec _ (Z.to_nat 65536) 0 scalar_ranges_checked). lia.
Qed.

Lemma temperature_range_all (b : Z) :
  0 <= b < 256 -> temperature_range b = true.
Proof.
  intros H.
  apply (all_from_spec temperature_range (Z.to_nat 256) 0); [|lia].
  vm_compute. reflexivity.
Qed.

Lemma decode_balance (f : frame) (st : state) :
  2 <= len f -> buf_at f 1 = 8 ->
  decodeFrame f st =
  if 4 <=? len f then set_balanceCurrentA (mV_to_V (le16 f 2)) st else st.
Proof.
  intros Hl Ht. unfold decodeFrame.
  destruct (len f <? 2) eqn:E; zb; [lia|]. rewrite Ht.
  simpl (8 =? 0). simpl (8 =? 8). cbv iota.
  rewrite raw16_le16. reflexivity.
Qed.

Lemma decode_pack (f : frame) (st : state) :
  2 <= len f -> buf_at f 1 = 9 ->
  decodeFrame f st =
  if 4 <=? len f
  then set_packVoltageV (F32.mul (F32.of_Z (le16 f 2)) c0_01) st else st.
Proof.
  intros Hl Ht. unfold decodeFrame.
  destruct (len f <? 2) eqn:E; zb; [lia|]. rewrite Ht.
  simpl (9 =? 0). simpl (9 =? 8). simpl (9 =? 9). cbv iota.
  rewrite raw16_le16. reflexivity.
Qed.

Lemma decode_temperature (f : frame) (st : state) :
  2 <= len f -> buf_at f 1 = 10 ->
  decodeFrame f st =
  if 3 <=? len f then set_temperatureC (F32.of_Z (buf_at f 2)) st else st.
Proof.
  intros Hl Ht. unfold decodeFrame.
  destruct (len f <? 2) eqn:E; zb; [lia|]. rewrite Ht. reflexivity.
Qed.

(** X2. A balance-current frame (0x08) and a pack-voltage frame (0x09)
    of fewer than 4 bytes, and a temperature frame (0x0A) of fewer than
    3 bytes, change nothing.  A complete one overwrites its one scalar:
    the little-endian word at bytes 2-3 divided by 1000, the same word
    times 0.01f, or byte 2 as a whole number.  The unsigned wire format
    bounds what can be reported: a balance current in [0, 65.535] A, a
    pack voltage in [0, 655.35] V and a temperature in [0, 255] degrees,
    never a negative value. *)
Theorem X2_scalar_frames (f : frame) (st : state) :
  2 <= len f ->
  (buf_at f 1 = 8 ->
   (len f < 4 -> decodeFrame f st = st)
   /\ (4 <= len f ->
       decodeFrame f st = set_balanceCurrentA (mV_to_V (le16 f 2)) st
       /\ between F32.zero (F32.lit 65535 1000)
                  (balanceCurrentA (decodeFrame f st)) = true))
  /\ (buf_at f 1 = 9 ->
      (len f < 4 -> decodeFrame f st = st)
      /\ (4 <= len f ->
          decodeFrame f st
          = set_packVoltageV (F32.mul (F32.of_Z (le16 f 2)) c0_01) st
          /\ between F32.zero (F32.lit 65535 100)
                     (packVoltageV (decodeFrame f st)) = true))
  /\ (buf_at f 1 = 10 ->
      (len f < 3 -> decodeFrame f st = st)
      /\ (3 <= len f ->
          decodeFrame f st = set_temperatureC (F32.of_Z (buf_at f 2)) st
          /\ between F32.zero (F32.of_Z 255)
                     (temperatureC (decodeFrame f st)) = true)).
Proof.
  intros Hl.
  pose proof (scalar_ranges_all (le16 f 2) (le16_range f 2)) as Hr.
  unfold scalar_ranges in Hr. apply andb_true_iff in Hr as [Hb Hp].
  pose proof (temperature_range_all (buf_at f 2) (buf_at_range f 2)) as Ht.
  unfold temperature_range in Ht.
  split; [|split]; intros Hty.
  - rewrite (decode_balance f st Hl Hty). split; intros Hlen.
    + destruct (4 <=? len f) eqn:E; zb; [lia|reflexivity].
    + destruct (4 <=? len f) eqn:E; zb; [|lia].
      split; [reflexivity|]. exact Hb.
  - rewrite (decode_pack f st Hl Hty). split; intros Hlen.
    + destruct (4 <=? len f) eqn:E; zb; [lia|reflexivity].
    + destruct (4 <=? len f) eqn:E; zb; [|lia].
      split; [reflexivity|]. exact Hp.
  - rewrite (decode_temperature f st Hl Hty). split; intros Hlen.
    + destruct (3 <=? len f) eqn:E; zb; [lia|reflexivity].
    + destruct (3 <=? len f) eqn:E; zb; [|lia].
      split; [reflexivity|]. exact Ht.
Qed.

(** ** The frame decoder: cursors over a sequence of frames *)

Lemma decode_advance (f : frame) (st : state) (s : Z) :
  shape_ok st -> cursor_inv st ->
  cursor (decodeFrame f st) s
  = (cursor st s + advance s f) mod activeCellCount st.
Proof.
  intros Hs Hc. pose proof Hc as [Hn Hcur]. unfold advance.
  destruct ((2 <=? len f) && (buf_at f 1 =? 0) && (buf_at f 0 =? s)) eqn:E.
  - zb. subst s. apply decode_cells_cursor; assumption.
  - rewrite Z.add_0_r, Z.mod_small by apply Hcur.
    apply andb_false_iff in E as [E|E]; [apply andb_false_iff in E as [E|E]|];
      zb.
    + unfold decodeFrame. destruct (len f <? 2) eqn:E'; zb; [reflexivity|lia].
    + unfold cursor.
      rewrite (proj2 (decode_scalar_keeps_cells f st E)). reflexivity.
    + apply decode_other_cursor. congruence.
Qed.

Lemma fold_decode_inv (l : list frame) :
  forall st, inv st -> inv (fold_left (fun s f => decodeFrame f s) l st).
Proof.
  induction l as [|f l IH]; intros st H; [exact H|].
  simpl. apply IH, decode_preserves_inv, H.
Qed.

Lemma fold_decode_keeps (l : list frame) :
  forall st,
    let st' := fold_left (fun s f => decodeFrame f s) l st in
    activeCellCount st' = activeCellCount st
    /\ currentSettingA st' = currentSettingA st
    /\ EEPROM st' = EEPROM st
    /\ canSent st' = canSent st
    /\ canPresent st' = canPresent st.
Proof.
  induction l as [|f l IH]; intros st; [repeat split|].
  simpl. destruct (IH (decodeFrame f st)) as (H1 & H2 & H3 & H4 & H5).
  destruct (decode_keeps f st) as (G1 & G2 & G3 & G4 & G5).
  repeat split; congruence.
Qed.

Lemma fold_decode_advance (s : Z) (l : list frame) :
  forall st,
    inv st ->
    cursor (fold_left (fun s f => decodeFrame f s) l st) s
    = (cursor st s + fold_right (fun f a => advance s f + a) 0 l)
      mod activeCellCount st.
Proof.
  induction l as [|f l IH]; intros st H.
  - simpl. rewrite Z.add_0_r, Z.mod_small; [reflexivity|].
    apply (proj2 (proj1 (proj2 H))).
  - simpl. rewrite IH by (apply decode_preserves_inv, H).
    destruct H as (Hs & Hc & _).
    rewrite (decode_advance f st s Hs Hc).
    rewrite (proj1 (decode_keeps f st)).
    rewrite Z.add_mod_idemp_l by (destruct Hc; lia).
    f_equal. lia.
Qed.

(** X3. With a transceiver, the cursor of a slave after a drain is its
    cursor before, plus the number of complete readings of that slave's
    cell-voltage frames among the drained ones, modulo the cell count:
    frames of other slaves, of other types and of fewer than 2 bytes do
    not move it, and the cell count is unchanged. *)
Theorem X3_cursor_after_drain (l : list frame) (st : state) (s : Z) :
  inv st -> canPresent st = true ->
  cursor (drainCanMessages l st) s
  = (cursor st s + fold_right (fun f a => advance s f + a) 0 l)
    mod activeCellCount st
  /\ activeCellCount (drainCanMessages l st) = activeCellCount st.
Proof.
  intros H Hc. unfold drainCanMessages. rewrite Hc. split.
  - apply fold_decode_advance, H.
  - apply (fold_decode_keeps l st).
Qed.

(** ** The frame decoder: slaves that share a cursor *)

Lemma write_wrapping_length (n c : Z) (vs : list float32) :
  forall (k : Z) (cs : list float32),
    length (write_wrapping n c k vs cs) = length cs.
Proof.
  induction vs as [|v vs IH]; intros k cs; [reflexivity|].
  simpl. rewrite IH. apply length_zset.
Qed.

Lemma write_wrapping_outside (n c : Z) (vs : list float32) :
  forall (k : Z) (cs : list float32) (i : nat),
    (forall j : nat, (j < length vs)%nat ->
                     Z.of_nat i <> (c + (k + Z.of_nat j)) mod n) ->
    write_wrapping n c k vs cs !! i = cs !! i.
Proof.
  induction vs as [|v vs IH]; intros k cs i H; [reflexivity|].
  simpl. rewrite IH.
  - rewrite lookup_zset.
    destruct ((c + k) mod n =? Z.of_nat i) eqn:E; [|reflexivity].
    zb. exfalso. apply (H 0%nat); [simpl; lia|].
    rewrite Z.add_0_r. symmetry. exact E.
  - intros j Hj. specialize (H (Datatypes.S j)).
    replace (k + 1 + Z.of_nat j) with (k + Z.of_nat (Datatypes.S j)) by lia.
    apply H. simpl. lia.
Qed.

Lemma write_wrapping_agree (n c : Z) (vs : list float32) :
  forall (k : Z) (cs1 cs2 : list float32),
    length cs1 = length cs2 ->
    (forall i : nat,
        cs1 !! i = cs2 !! i \/
        exists j : nat, (j < length vs)%nat /\
                        Z.of_nat i = (c + (k + Z.of_nat j)) mod n) ->
    write_wrapping n c k vs cs1 = write_wrapping n c k vs cs2.
Proof.
  induction vs as [|v vs IH]; intros k cs1 cs2 Hl H.
  - simpl. apply list_eq. intros i.
    destruct (H i) as [E|(j & Hj & _)]; [exact E|simpl in Hj; lia].
  - simpl. apply IH; [rewrite !length_zset; exact Hl|].
    intros i. rewrite !lookup_zset, Hl.
    destruct ((c + k) mod n =? Z.of_nat i) eqn:E; simpl.
    + left. destruct (i <? length cs2)%nat eqn:El; [reflexivity|].
      zb. rewrite !(proj2 (lookup_ge_None _ _)) by lia. reflexivity.
    + destruct (H i) as [E'|(j & Hj & E')]; [left; exact E'|].
      destruct j as [|j].
      * zb. rewrite Z.add_0_r in E'. lia.
      * right. exists j. split; [simpl in Hj; lia|].
        rewrite E'. f_equal. lia.
Qed.

Lemma write_wrapping_covers (n c : Z) (vs1 vs2 cs : list float32) :
  (length vs1 <= length vs2)%nat ->
  write_wrapping n c 0 vs2 (write_wrapping n c 0 vs1 cs)
  = write_wrapping n c 0 vs2 cs.
Proof.
  intros Hl. apply write_wrapping_agree; [apply write_wrapping_length|].
  intros i.
  destruct (decide (Exists
              (fun j : nat => Z.of_nat i = (c + (0 + Z.of_nat j)) mod n)
              (seq 0 (length vs1)))) as [Hex|Hno].
  - right. apply Exists_exists in Hex as (j & Hin & E).
    apply elem_of_seq in Hin. exists j. split; [lia|exact E].
  - left. apply write_wrapping_outside. intros j Hj E. apply Hno.
    apply Exists_exists. exists j. split; [apply elem_of_seq; lia|exact E].
Qed.

Lemma length_readings (f : frame) :
  length (readings f) = Z.to_nat (complete_readings f).
Proof. unfold readings. rewrite length_map, length_seq. reflexivity. Qed.

(** X4. The cursors are per slave but the cell array is shared: when two
    slaves have the same cursor (as all have after a set-cell-count
    request), a cell-voltage frame of the one followed by a frame of the
    other with at least as many complete readings leaves exactly the
    cells that the second frame alone would leave; the first frame's
    readings are lost, and both cursors have moved on. *)
Theorem X4_shared_cells_overwritten (f1 f2 : frame) (st : state) :
  inv st ->
  2 <= len f1 -> buf_at f1 1 = 0 ->
  2 <= len f2 -> buf_at f2 1 = 0 ->
  buf_at f1 0 <> buf_at f2 0 ->
  cursor st (buf_at f1 0) = cursor st (buf_at f2 0) ->
  complete_readings f1 <= complete_readings f2 ->
  let st' := decodeFrame f2 (decodeFrame f1 st) in
  cells st' = cells (decodeFrame f2 st)
  /\ cursor st' (buf_at f1 0)
     = (cursor st (buf_at f1 0) + complete_readings f1) mod activeCellCount st
  /\ cursor st' (buf_at f2 0)
     = (cursor st (buf_at f2 0) + complete_readings f2) mod activeCellCount st.
Proof.
  intros H Hl1 Ht1 Hl2 Ht2 Hne Hcur Hk st'. unfold st'.
  pose proof (decode_preserves_inv f1 st H) as H1.
  pose proof H as (Hs & Hc & _). pose proof H1 as (Hs1 & Hc1 & _).
  pose proof (proj1 (decode_keeps f1 st)) as Hn.
  assert (cursor (decodeFrame f1 st) (buf_at f2 0) = cursor st (buf_at f2 0))
    as Hoth by (apply decode_other_cursor; congruence).
  split; [|split].
  - rewrite (decode_cells_general f2 _ Hc1 Hl2 Ht2).
    rewrite (decode_cells_general f2 st Hc Hl2 Ht2).
    rewrite Hoth, Hn. st_simpl.
    rewrite (decode_cells_general f1 st Hc Hl1 Ht1). st_simpl.
    rewrite Hcur. apply write_wrapping_covers.
    rewrite !length_readings.
    assert (0 <= complete_readings f1).
    { destruct (complete_readings_cases f1 Hl1) as [?|[?|[?|?]]]; lia. }
    lia.
  - rewrite decode_other_cursor by exact Hne.
    apply decode_cells_cursor; assumption.
  - rewrite (decode_cells_cursor f2 _ Hs1 Hc1 Hl2 Ht2), Hoth, Hn.
    reflexivity.
Qed.

(** ** Draining the receive queue *)

Lemma decode_unknown (f : frame) (st : state) :
  known_frame f = false -> decodeFrame f st = st.
Proof.
  unfold known_frame, decodeFrame. intros H.
  destruct (len f <? 2) eqn:E; [reflexivity|]. apply Z.ltb_ge in E.
  apply andb_false_iff in H as [H|H]; [apply Z.leb_gt in H; lia|].
  apply orb_false_iff in H as [H H10]. apply orb_false_iff in H as [H H9].
  apply orb_false_iff in H as [H0 H8].
  rewrite H0, H8, H9, H10. reflexivity.
Qed.

Lemma fold_decode_filter (l : list frame) :
  forall st,
    fold_left (fun s f => decodeFrame f s) (List.filter known_frame l) st
    = fold_left (fun s f => decodeFrame f s) l st.
Proof.
  induction l as [|f l IH]; intros st; [reflexivity|].
  simpl. destruct (known_frame f) eqn:E.
  - simpl. apply IH.
  - rewrite (decode_unknown f st E). apply IH.
Qed.

(** X5. Without a transceiver a drain leaves the state as it is,
    whatever is pending.  Draining a queue is draining its first part and
    then the rest, and the frames the decoder does not know (fewer than 2
    bytes, or a type other than 0x00, 0x08, 0x09, 0x0A) can be removed
    from the queue without changing the result. *)
Theorem X5_drain_queue (l1 l2 : list frame) (st : state) :
  (canPresent st = false -> drainCanMessages l1 st = st)
  /\ drainCanMessages (l1 ++ l2) st
     = drainCanMessages l2 (drainCanMessages l1 st)
  /\ drainCanMessages (List.filter known_frame l1) st
     = drainCanMessages l1 st.
Proof.
  split; [|split].
  - intros H. unfold drainCanMessages. rewrite H. reflexivity.
  - unfold drainCanMessages. destruct (canPresent st) eqn:E.
    + rewrite (proj2 (proj2 (proj2 (proj2 (fold_decode_keeps l1 st))))), E.
      apply fold_left_app.
    + rewrite E. reflexivity.
  - unfold drainCanMessages. destruct (canPresent st); [|reflexivity].
    apply fold_decode_filter.
Qed.

(** ** binary32: the comparison is an order *)

Lemma ltb_leb (x y : float32) : F32.ltb x y = true -> F32.leb x y = true.
Proof.
  unfold F32.ltb, F32.leb, SFltb, SFleb.
  destruct (SFcompare x y) as [[| |]|]; auto.
Qed.

Lemma leb_ltb_false (x y : float32) :
  F32.leb x y = true -> F32.ltb y x = false.
Proof.
  unfold F32.ltb, F32.leb, SFltb, SFleb.
  rewrite (SFcompare_antisym x y).
  destruct (SFcompare x y) as [[| |]|]; simpl; auto; discriminate.
Qed.

Lemma leb_refl (x : float32) : F32.isnan x = false -> F32.leb x x = true.
Proof.
  intros H. unfold F32.leb, SFleb.
  destruct x as [s|s| |s m e]; try discriminate; try reflexivity.
  - destruct s; reflexivity.
  - simpl. rewrite Z.compare_refl.
    change (Pos.compare_cont Eq m m) with (m ?= m)%positive.
    rewrite Pos.compare_refl. destruct s; reflexivity.
Qed.

Lemma leb_fin_trans (e1 e2 e3 : Z) (m1 m2 m3 : positive) :
  match (match e1 ?= e2 with
         | Eq => Pos.compare_cont Eq m1 m2 | Lt => Lt | Gt => Gt end) with
  | Gt => false | _ => true end = true ->
  match (match e2 ?= e3 with
         | Eq => Pos.compare_cont Eq m2 m3 | Lt => Lt | Gt => Gt end) with
  | Gt => false | _ => true end = true ->
  match (match e1 ?= e3 with
         | Eq => Pos.compare_cont Eq m1 m3 | Lt => Lt | Gt => Gt end) with
  | Gt => false | _ => true end = true.
Proof.
  change (Pos.compare_cont Eq m1 m2) with (m1 ?= m2)%positive.
  change (Pos.compare_cont Eq m2 m3) with (m2 ?= m3)%positive.
  change (Pos.compare_cont Eq m1 m3) with (m1 ?= m3)%positive.
  destruct (Z.compare_spec e1 e2), (Z.compare_spec e2 e3),
    (Z.compare_spec e1 e3); try lia; try discriminate; try reflexivity;
    destruct (Pos.compare_spec m1 m2), (Pos.compare_spec m2 m3),
    (Pos.compare_spec m1 m3); try lia; try discriminate; reflexivity.
Qed.

Lemma leb_fin_trans_neg (e1 e2 e3 : Z) (m1 m2 m3 : positive) :
  match (match e1 ?= e2 with
         | Eq => CompOpp (Pos.compare_cont Eq m1 m2) | Lt => Gt | Gt => Lt
         end) with
  | Gt => false | _ => true end = true ->
  match (match e2 ?= e3 with
         | Eq => CompOpp (Pos.compare_cont Eq m2 m3) | Lt => Gt | Gt => Lt
         end) with
  | Gt => false | _ => true end = true ->
  match (match e1 ?= e3 with
         | Eq => CompOpp (Pos.compare_cont Eq m1 m3) | Lt => Gt | Gt => Lt
         end) with
  | Gt => false | _ => true end = true.
Proof.
  change (Pos.compare_cont Eq m1 m2) with (m1 ?= m2)%positive.
  change (Pos.compare_cont Eq m2 m3) with (m2 ?= m3)%positive.
  change (Pos.compare_cont Eq m1 m3) with (m1 ?= m3)%positive.
  destruct (Z.compare_spec e1 e2), (Z.compare_spec e2 e3),
    (Z.compare_spec e1 e3); try lia; try discriminate; try reflexivity;
    destruct (Pos.compare_spec m1 m2), (Pos.compare_spec m2 m3),
    (Pos.compare_spec m1 m3); simpl; try lia; try discriminate; reflexivity.
Qed.

Lemma leb_trans (x y z : float32) :
  F32.leb x y = true -> F32.leb y z = true -> F32.leb x z = true.
Proof.
  unfold F32.leb, SFleb.
  destruct x as [sx|sx| |sx mx ex]; try (intros; discriminate);
    destruct y as [sy|sy| |sy my ey]; try (intros; discriminate);
    destruct z as [sz|sz| |sz mz ez]; try (intros; discriminate);
    try destruct sx; try destruct sy; try destruct sz;
    try (intros; discriminate); try (intros; reflexivity);
    cbn [SFcompare].
  all: first [ apply leb_fin_trans | apply leb_fin_trans_neg ].
Qed.

(** ** clampf4 *)

(** X6. [clampf4] returns a value between the bounds as it is, and is
    idempotent when the bounds are in order; it does not clamp a NaN,
    which it returns as it is. *)
Theorem X6_clampf4 (v lo hi : float32) :
  (F32.isnan v = true -> clampf4 v lo hi = v)
  /\ (F32.leb lo v = true -> F32.leb v hi = true -> clampf4 v lo hi = v)
  /\ (F32.leb lo hi = true ->
      clampf4 (clampf4 v lo hi) lo hi = clampf4 v lo hi).
Proof.
  split; [|split].
  - intros H. destruct v; try discriminate. destruct hi; reflexivity.
  - intros H1 H2. unfold clampf4.
    rewrite (leb_ltb_false lo v H1), (leb_ltb_false v hi H2). reflexivity.
  - intros H. pose proof (leb_ltb_false lo hi H) as Hhl.
    assert (F32.ltb lo lo = false) as Hll.
    { unfold F32.ltb, SFltb. pose proof (SFcompare_antisym lo lo) as Ha.
      destruct (SFcompare lo lo) as [[| |]|]; try reflexivity; discriminate. }
    assert (F32.ltb hi hi = false) as Hhh.
    { unfold F32.ltb, SFltb. pose proof (SFcompare_antisym hi hi) as Ha.
      destruct (SFcompare hi hi) as [[| |]|]; try reflexivity; discriminate. }
    unfold clampf4.
    destruct (F32.ltb v lo) eqn:E1; [rewrite Hll, Hhl; reflexivity|].
    destruct (F32.ltb hi v) eqn:E2; [rewrite Hhl, Hhh; reflexivity|].
    rewrite E1, E2. reflexivity.
Qed.

(** ** The snapshot endpoint: cells, minimum and maximum *)

Lemma zget_not_nan (cs : list float32) (i : Z) :
  Forall (fun v => F32.isnan v = false) cs ->
  F32.isnan (zget F32.zero cs i) = false.
Proof.
  intros H. unfold zget. destruct (i <? 0); [reflexivity|].
  destruct (cs !! Z.to_nat i) as [v|] eqn:E; [|reflexivity].
  simpl. exact (proj1 (Forall_lookup _ _) H _ _ E).
Qed.

Lemma snapshot_cells (n : Z) (cs : list float32) :
  (Z.to_nat n <= length cs)%nat ->
  for_range 0 n (fun i acc => acc ++ [zget F32.zero cs i]) []
  = take (Z.to_nat n) cs.
Proof.
  intros Hn. destruct (Z.le_gt_cases 0 n) as [H0|H0].
  - apply (for_range_ind (fun i acc => i <= n -> acc = take (Z.to_nat i) cs));
      [exact H0|reflexivity| |lia].
    intros i acc Hi IH _. rewrite IH by lia.
    replace (Z.to_nat (i + 1)) with (Datatypes.S (Z.to_nat i)) by lia.
    destruct (lookup_lt_is_Some_2 cs (Z.to_nat i)) as [x Hx]; [lia|].
    rewrite (take_S_r _ _ _ Hx). unfold zget.
    destruct (i <? 0) eqn:E; zb; [lia|]. rewrite Hx. reflexivity.
  - rewrite for_range_none by lia.
    replace (Z.to_nat n) with 0%nat by lia. reflexivity.
Qed.

(** X7. The snapshot lists the first [activeCellCount] cells, in the
    order of the array and no others, and its count, temperature,
    setpoint and transceiver fields are the state's. *)
Theorem X7_snapshot_cells (st : state) :
  shape_ok st -> activeCellCount st <= 32 ->
  let s := handleData st in
  j_cells s = take (Z.to_nat (activeCellCount st)) (cells st)
  /\ (0 <= activeCellCount st ->
      Z.of_nat (length (j_cells s)) = j_count s)
  /\ j_count s = activeCellCount st
  /\ j_temp s = temperatureC st
  /\ j_current s = currentSettingA st
  /\ j_can s = canPresent st.
Proof.
  intros (Hc & _) Hn s.
  assert (j_cells s = take (Z.to_nat (activeCellCount st)) (cells st)) as E.
  { apply snapshot_cells. rewrite Hc. lia. }
  split; [exact E|]. split; [|repeat split].
  intros H0. rewrite E, length_take, Hc.
  change (j_count s) with (activeCellCount st). lia.
Qed.

Lemma stats_loop (st : state) (n : Z) :
  Forall (fun v => F32.isnan v = false) (cells st) ->
  let cell := fun i => zget F32.zero (cells st) i in
  let r := for_range 0 n (fun i acc => stats_step (cell i) acc)
                     (F32.zero, c100, F32.zero) in
  let vmin := snd (fst r) in
  let vmax := snd r in
  F32.isnan vmin = false /\ F32.isnan vmax = false
  /\ F32.leb vmin c100 = true /\ F32.leb F32.zero vmax = true
  /\ (forall j, 0 <= j < n ->
                F32.leb vmin (cell j) = true /\ F32.leb (cell j) vmax = true)
  /\ (vmin = c100 \/ exists j, 0 <= j < n /\ vmin = cell j)
  /\ (vmax = F32.zero \/ exists j, 0 <= j < n /\ vmax = cell j).
Proof.
  intros Hnan cell.
  assert (forall i, F32.isnan (cell i) = false) as Hcell
      by (intros i; apply zget_not_nan, Hnan).
  destruct (Z.le_gt_cases 0 n) as [H0|H0].
  2:{ cbv zeta. rewrite for_range_none by lia. cbn [fst snd].
      repeat split; try reflexivity; try lia; auto. }
  cbv zeta.
  apply (for_range_ind
           (fun i (r : float32 * float32 * float32) =>
              F32.isnan (snd (fst r)) = false /\ F32.isnan (snd r) = false
              /\ F32.leb (snd (fst r)) c100 = true
              /\ F32.leb F32.zero (snd r) = true
              /\ (forall j, 0 <= j < i ->
                            F32.leb (snd (fst r)) (cell j) = true /\
                            F32.leb (cell j) (snd r) = true)
              /\ (snd (fst r) = c100 \/
                  exists j, 0 <= j < i /\ snd (fst r) = cell j)
              /\ (snd r = F32.zero \/
                  exists j, 0 <= j < i /\ snd r = cell j)));
    [exact H0| |].
  - cbn [fst snd]. repeat split; try reflexivity; try lia; auto.
  - intros i [[t mn] mx] Hi (N1 & N2 & L1 & L2 & Hall & Hmn & Hmx).
    cbn [fst snd] in *. unfold stats_step. cbn [fst snd].
    pose proof (Hcell i) as Hci.
    assert (F32.isnan (if F32.ltb (cell i) mn then cell i else mn) = false)
      as N1' by (destruct (F32.ltb (cell i) mn); assumption).
    assert (F32.isnan (if F32.ltb mx (cell i) then cell i else mx) = false)
      as N2' by (destruct (F32.ltb mx (cell i)); assumption).
    split; [exact N1'|]. split; [exact N2'|].
    split; [|split; [|split; [|split]]].
    + destruct (F32.ltb (cell i) mn) eqn:E; [|exact L1].
      exact (leb_trans _ _ _ (ltb_leb _ _ E) L1).
    + destruct (F32.ltb mx (cell i)) eqn:E; [|exact L2].
      exact (leb_trans _ _ _ L2 (ltb_leb _ _ E)).
    + intros j Hj. destruct (Z.eq_dec j i) as [->|Hne].
      * split.
        -- destruct (F32.ltb (cell i) mn) eqn:E;
             [apply leb_refl, Hci|apply not_ltb_leb; assumption].
        -- destruct (F32.ltb mx (cell i)) eqn:E;
             [apply leb_refl, Hci|apply not_ltb_leb; assumption].
      * destruct (Hall j ltac:(lia)) as [A B]. split.
        -- destruct (F32.ltb (cell i) mn) eqn:E; [|exact A].
           exact (leb_trans _ _ _ (ltb_leb _ _ E) A).
        -- destruct (F32.ltb mx (cell i)) eqn:E; [|exact B].
           exact (leb_trans _ _ _ B (ltb_leb _ _ E)).
    + destruct (F32.ltb (cell i) mn) eqn:E.
      * right. exists i. split; [lia|reflexivity].
      * destruct Hmn as [->|(j & Hj & ->)]; [left; reflexivity|].
        right. exists j. split; [lia|reflexivity].
    + destruct (F32.ltb mx (cell i)) eqn:E.
      * right. exists i. split; [lia|reflexivity].
      * destruct Hmx as [->|(j & Hj & ->)]; [left; reflexivity|].
        right. exists j. split; [lia|reflexivity].
Qed.

(** X8. When no cell is a NaN, the minimum of the snapshot is not above
    any listed cell and the maximum not below any; the minimum is one of
    the listed cells or the starting value 100.0f, which it never
    exceeds, and the maximum is one of the listed cells or the starting
    value 0.0f, below which it never falls.  The difference is the
    binary32 difference of the two. *)
Theorem X8_snapshot_min_max (st : state) :
  numeric st ->
  let s := handleData st in
  let cell := fun i => zget F32.zero (cells st) i in
  (forall i, 0 <= i < activeCellCount st ->
             F32.leb (j_min s) (cell i) = true /\
             F32.leb (cell i) (j_max s) = true)
  /\ F32.leb (j_min s) c100 = true
  /\ F32.leb F32.zero (j_max s) = true
  /\ (j_min s = c100 \/
      exists i, 0 <= i < activeCellCount st /\ j_min s = cell i)
  /\ (j_max s = F32.zero \/
      exists i, 0 <= i < activeCellCount st /\ j_max s = cell i)
  /\ j_diff s = F32.sub (j_max s) (j_min s).
Proof.
  intros [Hnan _] s cell.
  pose proof (stats_loop st (activeCellCount st) Hnan) as H.
  cbv zeta in H.
  assert (j_min s = snd (fst (for_range 0 (activeCellCount st)
            (fun i acc => stats_step (zget F32.zero (cells st) i) acc)
            (F32.zero, c100, F32.zero)))) as Emin.
  { unfold s, handleData, computeStats.
    destruct (for_range 0 (activeCellCount st) _ _) as [[t mn] mx].
    reflexivity. }
  assert (j_max s = snd (for_range 0 (activeCellCount st)
            (fun i acc => stats_step (zget F32.zero (cells st) i) acc)
            (F32.zero, c100, F32.zero))) as Emax.
  { unfold s, handleData, computeStats.
    destruct (for_range 0 (activeCellCount st) _ _) as [[t mn] mx].
    reflexivity. }
  rewrite Emin, Emax.
  destruct H as (_ & _ & L1 & L2 & Hall & Hmn & Hmx).
  repeat (split; [assumption|]).
  rewrite <- Emin, <- Emax. reflexivity.
Qed.

(** ** The two setting requests *)

Lemma state_ext (s t : state) :
  canPresent s = canPresent t ->
  activeCellCount s = activeCellCount t ->
  cells s = cells t ->
  temperatureC s = temperatureC t ->
  balanceCurrentA s = balanceCurrentA t ->
  packVoltageV s = packVoltageV t ->
  currentSettingA s = currentSettingA t ->
  nextCellIndexPerSlave s = nextCellIndexPerSlave t ->
  EEPROM s = EEPROM t ->
  canSent s = canSent t ->
  s = t.
Proof. destruct s, t. simpl. intros. subst. reflexivity. Qed.

Lemma fill_twice (n : Z) (cs : list float32) :
  for_range n 32 (fun i a => zset a i F32.zero)
    (for_range n 32 (fun i a => zset a i F32.zero) cs)
  = for_range n 32 (fun i a => zset a i F32.zero) cs.
Proof.
  pose proof (for_range_fill _ F32.zero n 32 cs) as [L1 R1].
  pose proof (for_range_fill _ F32.zero n 32
                (for_range n 32 (fun i a => zset a i F32.zero) cs)) as [L2 R2].
  apply list_eq. intros j.
  destruct (Nat.lt_ge_cases j (length cs)) as [Hj|Hj].
  - rewrite R2 by (rewrite L1; exact Hj). rewrite (R1 j Hj).
    destruct ((n <=? Z.of_nat j) && (Z.of_nat j <? 32)); reflexivity.
  - rewrite !(proj2 (lookup_ge_None _ _)); [reflexivity|lia|lia].
Qed.

Lemma set_cells_fields (c : Z) (st : state) :
  length (nextCellIndexPerSlave st) = 256%nat ->
  let st' := fst (handleSetCells (Some c) st) in
  temperatureC st' = temperatureC st
  /\ balanceCurrentA st' = balanceCurrentA st
  /\ packVoltageV st' = packVoltageV st
  /\ currentSettingA st' = currentSettingA st
  /\ canSent st' = canSent st
  /\ canPresent st' = canPresent st.
Proof.
  intros H. cbv zeta. rewrite (handleSetCells_some c st H).
  repeat split; reflexivity.
Qed.

(** X9. A set-cell-count request without a [count] argument changes
    nothing and is answered 200.  With the argument the answer is 200
    too; the request leaves temperature, balance current, pack voltage,
    setpoint, the frames sent and the transceiver flag alone, writes no
    preference byte other than the magic byte and the count, commits
    what it wrote, and repeating it changes nothing more. *)
Theorem X9_set_cells_request (c : Z) (st : state) :
  shape_ok st ->
  let st' := fst (handleSetCells (Some c) st) in
  handleSetCells None st = (st, 200)
  /\ snd (handleSetCells (Some c) st) = 200
  /\ fst (handleSetCells (Some c) st') = st'
  /\ temperatureC st' = temperatureC st
  /\ balanceCurrentA st' = balanceCurrentA st
  /\ packVoltageV st' = packVoltageV st
  /\ currentSettingA st' = currentSettingA st
  /\ canSent st' = canSent st
  /\ canPresent st' = canPresent st
  /\ drop 2 (ee_buf (EEPROM st')) = drop 2 (ee_buf (EEPROM st))
  /\ ee_flash (EEPROM st') = ee_buf (EEPROM st').
Proof.
  intros (Hc & Hx & He) st'.
  destruct (buf64_split _ He) as (b0 & b1 & b2 & b3 & b4 & b5 & rest & Eb & _).
  pose proof (set_cells_prefs c st b0 b1 _ Hx Eb) as HE. fold st' in HE.
  pose proof (set_cells_fields c st Hx) as (F1 & F2 & F3 & F4 & F5 & F6).
  fold st' in F1, F2, F3, F4, F5, F6.
  split; [reflexivity|]. split; [reflexivity|].
  split.
  - assert (length (nextCellIndexPerSlave st') = 256%nat) as Hx'.
    { unfold st'. rewrite (handleSetCells_some c st Hx). st_simpl.
      apply length_replicate. }
    pose proof (set_cells_prefs c st' _ _ _ Hx'
                  (f_equal ee_buf HE)) as HE'.
    cbn [ee_buf] in HE'.
    assert (forall s, length (nextCellIndexPerSlave s) = 256%nat ->
              activeCellCount (fst (handleSetCells (Some c) s)) = clamp_count c
              /\ cells (fst (handleSetCells (Some c) s))
                 = for_range (clamp_count c) 32
                     (fun i a => zset a i F32.zero) (cells s)
              /\ nextCellIndexPerSlave (fst (handleSetCells (Some c) s))
                 = replicate 256 0) as Hf.
    { intros s Hs. rewrite (handleSetCells_some c s Hs). repeat split. }
    destruct (Hf st Hx) as (A1 & A2 & A3). fold st' in A1, A2, A3.
    destruct (Hf st' Hx') as (B1 & B2 & B3).
    pose proof (set_cells_fields c st' Hx') as (G1 & G2 & G3 & G4 & G5 & G6).
    apply state_ext; try assumption; try congruence.
    rewrite B2, A2. apply fill_twice.
  - repeat (split; [assumption|]).
    rewrite HE, Eb. split; reflexivity.
Qed.

Lemma set_current_fields (v : float32) (st : state) :
  let st' := fst (handleSetCurrent (Some v) st) in
  let a := if F32.isnan v then F32.zero else v in
  currentSettingA st' = a
  /\ canSent st'
     = (if canPresent st
        then canSent st ++ [(CAN_SET_ID, formatCurrentPayload a)]
        else canSent st)
  /\ activeCellCount st' = activeCellCount st
  /\ cells st' = cells st
  /\ nextCellIndexPerSlave st' = nextCellIndexPerSlave st
  /\ temperatureC st' = temperatureC st
  /\ balanceCurrentA st' = balanceCurrentA st
  /\ packVoltageV st' = packVoltageV st
  /\ canPresent st' = canPresent st.
Proof.
  cbv zeta. rewrite handleSetCurrent_some. cbv zeta.
  unfold sendCurrentToBMS. st_simpl.
  destruct (canPresent st) eqn:E; st_simpl; rewrite ?E; repeat split.
Qed.

(** X10. A set-current request without a [value] argument changes
    nothing and is answered 200.  With the argument the answer is 200
    too; the setpoint becomes the argument, or 0 for a NaN, so it is
    never a NaN; one frame is handed to the controller when there is a
    transceiver and none otherwise; cell count, cells, cursors,
    temperature, balance current and pack voltage are left alone; the
    stored count byte and the bytes after the setpoint are not written,
    and what was written is committed. *)
Theorem X10_set_current_request (v : float32) (st : state) :
  shape_ok st ->
  let st' := fst (handleSetCurrent (Some v) st) in
  let a := if F32.isnan v then F32.zero else v in
  handleSetCurrent None st = (st, 200)
  /\ snd (handleSetCurrent (Some v) st) = 200
  /\ currentSettingA st' = a
  /\ F32.isnan (currentSettingA st') = false
  /\ canSent st'
     = (if canPresent st
        then canSent st ++ [(CAN_SET_ID, formatCurrentPayload a)]
        else canSent st)
  /\ activeCellCount st' = activeCellCount st
  /\ cells st' = cells st
  /\ nextCellIndexPerSlave st' = nextCellIndexPerSlave st
  /\ temperatureC st' = temperatureC st
  /\ balanceCurrentA st' = balanceCurrentA st
  /\ packVoltageV st' = packVoltageV st
  /\ canPresent st' = canPresent st
  /\ EEPROM_read (EEPROM st') EEPROM_ADDR_COUNT
     = EEPROM_read (EEPROM st) EEPROM_ADDR_COUNT
  /\ drop 6 (ee_buf (EEPROM st')) = drop 6 (ee_buf (EEPROM st))
  /\ ee_flash (EEPROM st') = ee_buf (EEPROM st').
Proof.
  intros (Hc & Hx & He) st' a.
  destruct (buf64_split _ He) as (b0 & b1 & b2 & b3 & b4 & b5 & rest & Eb & _).
  pose proof (set_current_prefs v st _ _ _ _ _ _ _ Eb) as HE.
  cbv zeta in HE. fold st' a in HE.
  pose proof (set_current_fields v st) as (F1 & F2 & F3 & F4 & F5 & F6 & F7 & F8 & F9).
  fold st' a in F1, F2, F3, F4, F5, F6, F7, F8, F9.
  split; [reflexivity|]. split; [reflexivity|].
  split; [exact F1|]. split.
  { rewrite F1. unfold a. destruct (F32.isnan v) eqn:E; [reflexivity|exact E]. }
  repeat (split; [assumption|]).
  unfold EEPROM_read. rewrite HE, Eb. cbn [ee_buf ee_flash].
  repeat split.
Qed.

(** X11. The two setting requests do not interfere: a set-cell-count
    request followed by a set-current request leaves the same state,
    preferences and frames sent included, as the two in the other
    order. *)
Theorem X11_requests_commute (c : Z) (v : float32) (st : state) :
  shape_ok st ->
  fst (handleSetCurrent (Some v) (fst (handleSetCells (Some c) st)))
  = fst (handleSetCells (Some c) (fst (handleSetCurrent (Some v) st))).
Proof.
  intros (Hc & Hx & He).
  destruct (buf64_split _ He) as (b0 & b1 & b2 & b3 & b4 & b5 & rest & Eb & _).
  set (a := if F32.isnan v then F32.zero else v).
  set (s1 := fst (handleSetCells (Some c) st)).
  set (s2 := fst (handleSetCurrent (Some v) st)).
  pose proof (set_cells_prefs c st b0 b1 _ Hx Eb) as E1. fold s1 in E1.
  pose proof (set_current_prefs v st _ _ _ _ _ _ _ Eb) as E2.
  cbv zeta in E2. fold s2 a in E2.
  pose proof (set_current_fields v st) as (G1 & G2 & G3 & G4 & G5 & G6 & G7 & G8 & G9).
  fold s2 a in G1, G2, G3, G4, G5, G6, G7, G8, G9.
  pose proof (set_cells_fields c st Hx) as (F1 & F2 & F3 & F4 & F5 & F6).
  fold s1 in F1, F2, F3, F4, F5, F6.
  assert (length (nextCellIndexPerSlave s2) = 256%nat) as Hx2
      by (rewrite G5; exact Hx).
  pose proof (set_current_prefs v s1 _ _ _ _ _ _ _ (f_equal ee_buf E1)) as E12.
  cbv zeta in E12. fold a in E12.
  pose proof (set_cells_prefs c s2 _ _ _ Hx2 (f_equal ee_buf E2)) as E21.
  pose proof (set_current_fields v s1) as (P1 & P2 & P3 & P4 & P5 & P6 & P7 & P8 & P9).
  fold a in P1, P2, P3, P4, P5, P6, P7, P8, P9.
  pose proof (set_cells_fields c s2 Hx2) as (Q1 & Q2 & Q3 & Q4 & Q5 & Q6).
  set (s12 := fst (handleSetCurrent (Some v) s1)) in *.
  set (s21 := fst (handleSetCells (Some c) s2)) in *.
  assert (activeCellCount s21 = clamp_count c
          /\ cells s21
             = for_range (clamp_count c) 32 (fun i a => zset a i F32.zero)
                         (cells s2)
          /\ nextCellIndexPerSlave s21 = replicate 256 0) as (R1 & R2 & R3).
  { unfold s21. rewrite (handleSetCells_some c s2 Hx2). repeat split. }
  assert (activeCellCount s1 = clamp_count c
          /\ cells s1
             = for_range (clamp_count c) 32 (fun i a => zset a i F32.zero)
                         (cells st)
          /\ nextCellIndexPerSlave s1 = replicate 256 0) as (S1 & S2 & S3).
  { unfold s1. rewrite (handleSetCells_some c st Hx). repeat split. }
  apply state_ext; try congruence.
  rewrite P2, Q5, G2, F6, F5. reflexivity.
Qed.

(** ** Loading the preferences *)

Lemma load_keeps (st : state) :
  cells (loadPrefs st) = cells st
  /\ nextCellIndexPerSlave (loadPrefs st) = nextCellIndexPerSlave st
  /\ temperatureC (loadPrefs st) = temperatureC st
  /\ balanceCurrentA (loadPrefs st) = balanceCurrentA st
  /\ packVoltageV (loadPrefs st) = packVoltageV st
  /\ canSent (loadPrefs st) = canSent st
  /\ canPresent (loadPrefs st) = canPresent st.
Proof.
  destruct (Byte.eqb (EEPROM_read (EEPROM st) 0) EEPROM_MAGIC) eqn:E.
  - apply Byte.byte_dec_bl in E. rewrite (loadPrefs_magic _ E). cbv zeta.
    destruct ((1 <=? _) && (_ <=? 32)); repeat split.
  - apply Byte.eqb_false in E. rewrite (loadPrefs_no_magic _ E).
    repeat split.
Qed.

Lemma load_magic_fields (st : state) :
  EEPROM_read (EEPROM st) 0 = EEPROM_MAGIC ->
  let c := byte_val (EEPROM_read (EEPROM st) EEPROM_ADDR_COUNT) in
  let x := EEPROM_get (EEPROM st) EEPROM_ADDR_CURRENT in
  EEPROM (loadPrefs st) = EEPROM st
  /\ currentSettingA (loadPrefs st)
     = (if F32.isnan x || F32.ltb x F32.zero then F32.zero else x)
  /\ activeCellCount (loadPrefs st)
     = (if (1 <=? c) && (c <=? 32) then c else activeCellCount st).
Proof.
  intros Hm. cbv zeta. rewrite (loadPrefs_magic _ Hm). cbv zeta.
  destruct ((1 <=? _) && (_ <=? 32)); repeat split.
Qed.

Lemma load_setpoint_clean (x : float32) :
  let cur := if F32.isnan x || F32.ltb x F32.zero then F32.zero else x in
  F32.isnan cur = false /\ F32.ltb cur F32.zero = false.
Proof.
  cbv zeta. destruct (F32.isnan x) eqn:E1; [split; reflexivity|].
  destruct (F32.ltb x F32.zero) eqn:E2; [split; reflexivity|].
  split; assumption.
Qed.

(** X12. When the magic byte is present, loading the preferences only
    reads them: the EEPROM buffer and flash are left as they are, no
    runtime value other than the cell count and the setpoint changes,
    the setpoint that results is neither a NaN nor below zero, and
    loading a second time changes nothing. *)
Theorem X12_load_reads_only (st : state) :
  EEPROM_read (EEPROM st) 0 = EEPROM_MAGIC ->
  let st' := loadPrefs st in
  EEPROM st' = EEPROM st
  /\ F32.isnan (currentSettingA st') = false
  /\ F32.ltb (currentSettingA st') F32.zero = false
  /\ cells st' = cells st
  /\ nextCellIndexPerSlave st' = nextCellIndexPerSlave st
  /\ temperatureC st' = temperatureC st
  /\ balanceCurrentA st' = balanceCurrentA st
  /\ packVoltageV st' = packVoltageV st
  /\ canSent st' = canSent st
  /\ canPresent st' = canPresent st
  /\ loadPrefs st' = st'.
Proof.
  intros Hm st'.
  destruct (load_keeps st) as (K1 & K2 & K3 & K4 & K5 & K6 & K7).
  fold st' in K1, K2, K3, K4, K5, K6, K7.
  destruct (load_magic_fields st Hm) as (HE & Hcur & Hn).
  fold st' in HE, Hcur, Hn.
  destruct (load_setpoint_clean (EEPROM_get (EEPROM st) EEPROM_ADDR_CURRENT))
    as [N1 N2].
  split; [exact HE|]. split; [rewrite Hcur; exact N1|].
  split; [rewrite Hcur; exact N2|].
  repeat (split; [assumption|]).
  assert (EEPROM_read (EEPROM st') 0 = EEPROM_MAGIC) as Hm'
      by (rewrite HE; exact Hm).
  destruct (load_keeps st') as (L1 & L2 & L3 & L4 & L5 & L6 & L7).
  destruct (load_magic_fields st' Hm') as (HE' & Hcur' & Hn').
  rewrite HE in Hcur', Hn'.
  apply state_ext; try congruence.
  rewrite Hn', Hn.
  destruct ((1 <=? _) && (_ <=? 32)); reflexivity.
Qed.

(** ** The state after setup *)

Lemma defaults_cell (flash : list byte) (i : Z) :
  0 <= i < 32 ->
  cells (st_defaults flash) !! Z.to_nat i
  = Some (F32.add c3_90 (F32.mul c0_06 (F32.of_Z (Z.rem i 3)))).
Proof.
  intros Hi. cbn [st_defaults cells].
  pose proof (for_range_update float32 F32.zero
                (fun i _ => F32.add c3_90 (F32.mul c0_06 (F32.of_Z (Z.rem i 3))))
                0 32 (replicate 32 F32.zero)) as [_ H].
  cbv beta in H. rewrite (H (Z.to_nat i)).
  rewrite Z2Nat.id by lia.
  destruct (0 <=? i) eqn:E1, (i <? 32) eqn:E2; zb; try lia.
  cbn [andb]. rewrite lookup_replicate_2 by lia. reflexivity.
Qed.

Lemma boot_cells_in_range (r : Z) :
  0 <= r < 3 ->
  between c3_60 c4_20 (F32.add c3_90 (F32.mul c0_06 (F32.of_Z r))) = true.
Proof.
  intros H. assert (r = 0 \/ r = 1 \/ r = 2) as [->|[->| ->]] by lia;
    vm_compute; reflexivity.
Qed.

Lemma setup_parts (flash : list byte) (probe : bool) :
  let st := setup flash probe in
  let st0 := loadPrefs (st_defaults flash) in
  canPresent st = probe
  /\ canSent st
     = (if probe && F32.ltb F32.zero (currentSettingA st0)
        then [(CAN_SET_ID, formatCurrentPayload (currentSettingA st0))]
        else [])
  /\ cells st = cells st0
  /\ nextCellIndexPerSlave st = nextCellIndexPerSlave st0
  /\ temperatureC st = temperatureC st0
  /\ balanceCurrentA st = balanceCurrentA st0
  /\ packVoltageV st = packVoltageV st0
  /\ currentSettingA st = currentSettingA st0
  /\ EEPROM st = EEPROM st0.
Proof.
  cbv zeta. rewrite setup_eq. cbv zeta. st_simpl.
  pose proof (proj1 (proj2 (proj2 (proj2 (proj2 (proj2
                (load_keeps (st_defaults flash)))))))) as K6.
  change (canSent (st_defaults flash)) with (@nil can_tx) in K6.
  destruct probe; cbn [andb].
  - destruct (F32.ltb F32.zero (currentSettingA _)).
    + unfold sendCurrentToBMS. st_simpl. rewrite K6. repeat split.
    + st_simpl. rewrite K6. repeat split.
  - st_simpl. rewrite K6. repeat split.
Qed.

Lemma load_defaults_setpoint (flash : list byte) :
  length flash = 64%nat ->
  let st0 := loadPrefs (st_defaults flash) in
  F32.isnan (currentSettingA st0) = false
  /\ EEPROM_read (EEPROM st0) 0 = EEPROM_MAGIC
  /\ ee_flash (EEPROM st0) = ee_buf (EEPROM st0).
Proof.
  intros Hlen. cbv zeta.
  destruct (Byte.eqb (EEPROM_read (EEPROM (st_defaults flash)) 0)
                     EEPROM_MAGIC) eqn:E.
  - apply Byte.byte_dec_bl in E.
    destruct (load_magic_fields _ E) as (HE & HN & _).
    rewrite HE, HN. split; [apply load_setpoint_clean|].
    split; [exact E|]. reflexivity.
  - apply Byte.eqb_false in E. rewrite (loadPrefs_no_magic _ E).
    destruct (buf64_split _ Hlen)
      as (b0 & b1 & b2 & b3 & b4 & b5 & rest & -> & Hr).
    repeat split.
Qed.

(** X13. After [setup] the transceiver flag is the result of the probe;
    one frame with the loaded setpoint has been handed to the controller
    when the probe succeeded and that setpoint is above zero, and none
    otherwise.  With or without a transceiver the 32 cells hold the
    simulator's start values 3.90f + 0.06f * (i % 3), all between 3.60f
    and 4.20f, every cursor is 0, the temperature is 29.0f, and balance
    current and pack voltage are 0; the setpoint is not a NaN, and the
    preferences hold the magic byte, committed. *)
Theorem X13_after_setup (flash : list byte) (probe : bool) :
  length flash = 64%nat ->
  let st := setup flash probe in
  canPresent st = probe
  /\ canSent st
     = (if probe && F32.ltb F32.zero (currentSettingA st)
        then [(CAN_SET_ID, formatCurrentPayload (currentSettingA st))]
        else [])
  /\ (forall i : Z, 0 <= i < 32 ->
        exists v, cells st !! Z.to_nat i = Some v
                  /\ v = F32.add c3_90 (F32.mul c0_06 (F32.of_Z (Z.rem i 3)))
                  /\ between c3_60 c4_20 v = true)
  /\ nextCellIndexPerSlave st = replicate 256 0
  /\ temperatureC st = c29
  /\ balanceCurrentA st = F32.zero
  /\ packVoltageV st = F32.zero
  /\ F32.isnan (currentSettingA st) = false
  /\ EEPROM_read (EEPROM st) 0 = EEPROM_MAGIC
  /\ ee_flash (EEPROM st) = ee_buf (EEPROM st).
Proof.
  intros Hlen st.
  destruct (load_keeps (st_defaults flash)) as (K1 & K2 & K3 & K4 & K5 & _).
  destruct (load_defaults_setpoint flash Hlen) as (N & M & C).
  destruct (setup_parts flash probe)
    as (S1 & S2 & S3 & S4 & S5 & S6 & S7 & S8 & S9).
  fold st in S1, S2, S3, S4, S5, S6, S7, S8, S9.
  set (st0 := loadPrefs (st_defaults flash)) in *.
  split; [exact S1|]. split; [rewrite S8; exact S2|].
  split.
  { intros i Hi. eexists. rewrite S3, K1. split; [apply defaults_cell, Hi|].
    split; [reflexivity|]. apply boot_cells_in_range.
    pose proof (Z.rem_bound_pos i 3). lia. }
  split; [rewrite S4, K2; reflexivity|].
  split; [rewrite S5, K3; reflexivity|].
  split; [rewrite S6, K4; reflexivity|].
  split; [rewrite S7, K5; reflexivity|].
  split; [rewrite S8; exact N|].
  rewrite S9. split; assumption.
Qed.

(** ** The running firmware: preferences and transmissions *)

Lemma tick_keeps (dv : Z -> Z) (dt : Z) (st : state) :
  let st' := tickSimData dv dt st in
  activeCellCount st' = activeCellCount st
  /\ currentSettingA st' = currentSettingA st
  /\ nextCellIndexPerSlave st' = nextCellIndexPerSlave st
  /\ balanceCurrentA st' = balanceCurrentA st
  /\ packVoltageV st' = packVoltageV st
  /\ EEPROM st' = EEPROM st
  /\ canSent st' = canSent st
  /\ canPresent st' = canPresent st.
Proof. cbv zeta. rewrite tickSimData_eq. repeat split. Qed.

Lemma drain_keeps (l : list frame) (st : state) :
  let st' := drainCanMessages l st in
  activeCellCount st' = activeCellCount st
  /\ currentSettingA st' = currentSettingA st
  /\ EEPROM st' = EEPROM st
  /\ canSent st' = canSent st
  /\ canPresent st' = canPresent st.
Proof.
  cbv zeta. unfold drainCanMessages.
  destruct (canPresent st) eqn:E; [|repeat split; exact E].
  rewrite <- E. apply fold_decode_keeps.
Qed.

Lemma step_committed (st st' : state) :
  step st st' -> inv st -> committed st -> committed st'.
Proof.
  intros Hstep Hinv [Hf Hc].
  pose proof Hinv as ((_ & Hx & He) & _ & (Hm & Hp) & _).
  destruct Hstep as [f st|l st|arg st|arg st|st|dv dt st Hd].
  - destruct (decode_keeps f st) as (K1 & _ & K3 & _).
    unfold committed. rewrite K1, K3. split; assumption.
  - destruct (drain_keeps l st) as (K1 & _ & K3 & _).
    unfold committed. rewrite K1, K3. split; assumption.
  - destruct arg as [c|]; [|split; assumption].
    destruct (buf64_split _ He)
      as (b0 & b1 & b2 & b3 & b4 & b5 & rest & Eb & _).
    pose proof (set_cells_prefs c st b0 b1 _ Hx Eb) as HE.
    unfold committed. rewrite HE. split; [reflexivity|].
    cbv zeta. intros Hbad. exfalso. apply Hbad.
    change (EEPROM_read _ EEPROM_ADDR_COUNT) with (byte_of_Z (clamp_count c)).
    pose proof (clamp_count_range c).
    rewrite byte_val_of_Z, Z.mod_small by lia. lia.
  - destruct arg as [v|]; [|split; assumption].
    destruct (buf64_split _ He)
      as (b0 & b1 & b2 & b3 & b4 & b5 & rest & Eb & _).
    pose proof (set_current_prefs v st _ _ _ _ _ _ _ Eb) as HE.
    cbv zeta in HE.
    destruct (set_current_fields v st) as (_ & _ & K3 & _).
    unfold committed. rewrite HE, K3. split; [reflexivity|].
    cbv zeta in *. unfold EEPROM_read in *. rewrite Eb in Hc. exact Hc.
  - destruct (load_magic_fields st Hm) as (K1 & _ & K3).
    unfold committed. rewrite K1, K3. split; [exact Hf|].
    cbv zeta in *. intros Hbad. specialize (Hc Hbad).
    destruct (1 <=? _) eqn:E1, (_ <=? 32) eqn:E2; zb; cbn [andb];
      try exact Hc.
    exfalso. apply Hbad. lia.
  - destruct (tick_keeps dv dt st) as (K1 & _ & _ & _ & _ & K6 & _).
    unfold committed. rewrite K1, K6. split; assumption.
Qed.

Lemma setup_committed (flash : list byte) (probe : bool) :
  length flash = 64%nat -> committed (setup flash probe).
Proof.
  intros Hlen.
  destruct (setup_fields flash probe) as (F1 & _ & _ & _ & _ & F6).
  unfold committed. rewrite F1, F6.
  destruct (Byte.eqb (EEPROM_read (EEPROM (st_defaults flash)) 0)
                     EEPROM_MAGIC) eqn:E.
  - apply Byte.byte_dec_bl in E.
    destruct (load_magic_fields _ E) as (K1 & _ & K3).
    rewrite K1, K3. split; [reflexivity|]. cbv zeta. intros Hbad.
    destruct (1 <=? _) eqn:E1, (_ <=? 32) eqn:E2; zb; cbn [andb];
      try reflexivity.
    exfalso. apply Hbad. lia.
  - apply Byte.eqb_false in E. rewrite (loadPrefs_no_magic _ E).
    destruct (buf64_split _ Hlen)
      as (b0 & b1 & b2 & b3 & b4 & b5 & rest & -> & Hr).
    split; reflexivity.
Qed.

Lemma reachable_committed (st : state) : reachable st -> committed st.
Proof.
  induction 1 as [flash probe Hlen|st st' Hr IH Hs].
  - apply setup_committed, Hlen.
  - exact (step_committed st st' Hs (reachable_inv st Hr) IH).
Qed.

(** X14. In every state the firmware can reach, whatever was written to
    the preferences has been committed to flash, and a power cycle
    brings back the cell count in use: [setup] run on the flash content
    of that state yields the same count, with or without a
    transceiver. *)
Theorem X14_power_cycle_keeps_count (st : state) (probe : bool) :
  reachable st ->
  ee_flash (EEPROM st) = ee_buf (EEPROM st)
  /\ activeCellCount (setup (ee_flash (EEPROM st)) probe) = activeCellCount st.
Proof.
  intros Hr.
  destruct (reachable_committed st Hr) as [Hf Hc].
  destruct (reachable_inv st Hr) as ((_ & _ & He) & _ & (Hm & Hp) & _).
  split; [exact Hf|].
  destruct (setup_fields (ee_flash (EEPROM st)) probe) as (F1 & _).
  rewrite F1, Hf.
  assert (EEPROM_read (EEPROM (st_defaults (ee_buf (EEPROM st)))) 0
          = EEPROM_MAGIC) as Hm' by exact Hm.
  destruct (load_magic_fields _ Hm') as (_ & _ & K3).
  change (EEPROM_read (EEPROM (st_defaults (ee_buf (EEPROM st))))
                      EEPROM_ADDR_COUNT)
    with (EEPROM_read (EEPROM st) EEPROM_ADDR_COUNT) in K3.
  change (activeCellCount (st_defaults (ee_buf (EEPROM st))))
    with DEFAULT_CELLS in K3.
  rewrite K3. clear K3. cbv zeta in Hp, Hc.
  destruct (1 <=? _) eqn:E1, (_ <=? 32) eqn:E2; zb; cbn [andb].
  - apply Hp. lia.
  - symmetry. apply Hc. lia.
  - symmetry. apply Hc. lia.
  - symmetry. apply Hc. lia.
Qed.

Lemma step_sends (st st' : state) :
  step st st' -> inv st ->
  canPresent st' = canPresent st /\ sends_at_most_one st st'.
Proof.
  intros Hstep ((_ & Hx & _) & _).
  destruct Hstep as [f st|l st|arg st|arg st|st|dv dt st Hd].
  - destruct (decode_keeps f st) as (_ & _ & _ & K4 & K5).
    split; [exact K5|left; exact K4].
  - destruct (drain_keeps l st) as (_ & _ & _ & K4 & K5).
    split; [exact K5|left; exact K4].
  - destruct arg as [c|]; [|split; [reflexivity|left; reflexivity]].
    destruct (set_cells_fields c st Hx) as (_ & _ & _ & _ & K5 & K6).
    split; [exact K6|left; exact K5].
  - destruct arg as [v|]; [|split; [reflexivity|left; reflexivity]].
    destruct (set_current_fields v st) as (_ & K2 & _ & _ & _ & _ & _ & _ & K9).
    split; [exact K9|]. unfold sends_at_most_one. rewrite K2.
    destruct (canPresent st); [right|left; reflexivity].
    split; [reflexivity|]. eexists. reflexivity.
  - destruct (load_keeps st) as (_ & _ & _ & _ & _ & K6 & K7).
    split; [exact K7|left; exact K6].
  - destruct (tick_keeps dv dt st) as (_ & _ & _ & _ & _ & _ & K7 & K8).
    split; [exact K8|left; exact K7].
Qed.

Lemma reachable_sent (st : state) :
  reachable st ->
  (canPresent st = false -> canSent st = [])
  /\ Forall (fun tx : can_tx => fst tx = CAN_SET_ID) (canSent st).
Proof.
  induction 1 as [flash probe Hlen|st st' Hr [IH1 IH2] Hs].
  - rewrite setup_eq. cbv zeta. st_simpl.
    destruct probe; cbn [andb].
    + destruct (F32.ltb F32.zero _).
      * unfold sendCurrentToBMS. st_simpl.
        rewrite (proj1 (proj2 (proj2 (proj2 (proj2 (proj2
                   (load_keeps (st_defaults flash)))))))).
        split; [discriminate|]. repeat constructor.
      * st_simpl. split; [discriminate|].
        rewrite (proj1 (proj2 (proj2 (proj2 (proj2 (proj2
                   (load_keeps (st_defaults flash)))))))).
        constructor.
    + st_simpl.
      rewrite (proj1 (proj2 (proj2 (proj2 (proj2 (proj2
                 (load_keeps (st_defaults flash)))))))).
      split; [reflexivity|constructor].
  - destruct (step_sends st st' Hs (reachable_inv st Hr)) as [Hp Hsend].
    destruct Hsend as [E|(Ht & p & E)]; rewrite E.
    + split; [rewrite Hp; exact IH1|exact IH2].
    + split; [rewrite Hp, Ht; discriminate|].
      apply Forall_app. split; [exact IH2|]. repeat constructor.
Qed.

(** X15. The transceiver flag is decided by [setup] and no operation
    changes it afterwards.  Every operation hands at most one frame to
    the controller; in every reachable state all frames sent carry the
    identifier 0x01, and without a transceiver none has been sent. *)
Theorem X15_transmissions (st : state) :
  reachable st ->
  (canPresent st = false -> canSent st = [])
  /\ Forall (fun tx : can_tx => fst tx = 1) (canSent st)
  /\ (forall st', step st st' ->
        canPresent st' = canPresent st /\ sends_at_most_one st st').
Proof.
  intros Hr. destruct (reachable_sent st Hr) as [H1 H2].
  split; [exact H1|]. split; [exact H2|].
  intros st' Hs. exact (step_sends st st' Hs (reachable_inv st Hr)).
Qed.

Lemma decode_no_nan (f : frame) (st : state) :
  F32.isnan (balanceCurrentA st) = false ->
  F32.isnan (packVoltageV st) = false ->
  F32.isnan (balanceCurrentA (decodeFrame f st)) = false
  /\ F32.isnan (packVoltageV (decodeFrame f st)) = false.
Proof.
  intros Hb Hp.
  destruct (decodeFrame_cases f st)
    as [->|[(v & Hv & ->)|[(v & Hv & ->)|[(v & Hv & ->)|(idx & _ & ->)]]]];
    split; assumption.
Qed.

Lemma fold_decode_no_nan (l : list frame) :
  forall st,
    F32.isnan (balanceCurrentA st) = false ->
    F32.isnan (packVoltageV st) = false ->
    let st' := fold_left (fun s f => decodeFrame f s) l st in
    F32.isnan (balanceCurrentA st') = false
    /\ F32.isnan (packVoltageV st') = false.
Proof.
  induction l as [|f l IH]; intros st Hb Hp; [split; assumption|].
  simpl. destruct (decode_no_nan f st Hb Hp) as [Hb' Hp'].
  apply IH; assumption.
Qed.

Lemma step_no_nan (st st' : state) :
  step st st' -> inv st -> no_nan st -> no_nan st'.
Proof.
  intros Hstep Hinv (Hnum & Hc & Hb & Hp).
  pose proof (step_preserves_inv st st' Hstep Hinv) as (_ & _ & _ & Hnum').
  pose proof Hinv as ((_ & Hx & _) & _ & (Hm & _) & _).
  split; [exact Hnum'|].
  destruct Hstep as [f st|l st|arg st|arg st|st|dv dt st Hd].
  - destruct (decode_keeps f st) as (_ & K2 & _).
    destruct (decode_no_nan f st Hb Hp) as [Hb' Hp'].
    rewrite K2. auto.
  - destruct (drain_keeps l st) as (_ & K2 & _). rewrite K2.
    split; [exact Hc|]. unfold drainCanMessages.
    destruct (canPresent st); [apply fold_decode_no_nan; assumption|auto].
  - destruct arg as [c|]; [|auto].
    destruct (set_cells_fields c st Hx) as (_ & K2 & K3 & K4 & _).
    rewrite K2, K3, K4. auto.
  - destruct arg as [v|]; [|auto].
    destruct (set_current_fields v st)
      as (K1 & _ & _ & _ & _ & _ & K7 & K8 & _).
    rewrite K1, K7, K8. split; [|auto].
    destruct (F32.isnan v) eqn:E; [reflexivity|exact E].
  - destruct (load_keeps st) as (_ & _ & _ & K4 & K5 & _).
    destruct (load_magic_fields st Hm) as (_ & K2 & _).
    rewrite K2, K4, K5. split; [apply load_setpoint_clean|auto].
  - destruct (tick_keeps dv dt st) as (_ & K2 & _ & K4 & K5 & _).
    rewrite K2, K4, K5. auto.
Qed.

(** X20. In every state the firmware can reach, no cell voltage, no
    temperature, no setpoint, no balance current and no pack voltage is
    a NaN: the tick bounds and the minimum and maximum of the snapshot,
    which hold for numbers only, hold in every reachable state. *)
Theorem X20_reachable_no_nan (st : state) :
  reachable st ->
  no_nan st
  /\ (forall i : Z, F32.isnan (zget F32.zero (cells st) i) = false).
Proof.
  intros Hr.
  assert (no_nan st) as H.
  { induction Hr as [flash probe Hlen|st st' Hr IH Hs].
    - split; [apply (setup_inv flash probe Hlen)|].
      destruct (setup_parts flash probe)
        as (_ & _ & _ & _ & _ & S6 & S7 & S8 & _).
      destruct (load_keeps (st_defaults flash)) as (_ & _ & _ & K4 & K5 & _).
      rewrite S6, S7, S8, K4, K5.
      split; [apply (load_defaults_setpoint flash Hlen)|].
      split; reflexivity.
    - exact (step_no_nan st st' Hs (reachable_inv st Hr) IH). }
  split; [exact H|]. intros i. apply zget_not_nan, H.
Qed.

(** ** The simulator: what a tick touches *)

Lemma tick_zero_draw (dv : Z -> Z) (i : Z) (x : float32) :
  dv i = 0 -> between c3_60 c4_20 x = true -> tick_cell dv i x = x.
Proof.
  intros Hd Hb. unfold between in Hb. apply andb_true_iff in Hb as [H1 H2].
  unfold tick_cell. rewrite Hd.
  assert (F32.add x (F32.mul (F32.of_Z 0) c0_001) = x) as ->.
  { change (F32.mul (F32.of_Z 0) c0_001) with (S754_zero false).
    destruct x as [s|s| |s m e]; try reflexivity.
    destruct s; [|reflexivity]. vm_compute in H1. discriminate. }
  unfold clampf4.
  rewrite (leb_ltb_false _ _ H1), (leb_ltb_false _ _ H2). reflexivity.
Qed.

(** X16. A simulator tick changes the first [activeCellCount] cells and
    the temperature and nothing else: each of those cells moves by its
    own draw, clamped, and the cells from [activeCellCount] on, the
    count, the cursors, the setpoint, balance current, pack voltage,
    the preferences and the frames sent are as before.  A cell between
    3.60f and 4.20f whose draw is 0 keeps its value. *)
Theorem X16_tick_effect (dv : Z -> Z) (dt : Z) (st : state) :
  let st' := tickSimData dv dt st in
  length (cells st') = length (cells st)
  /\ (forall i : nat,
        cells st' !! i
        = if (0 <=? Z.of_nat i) && (Z.of_nat i <? activeCellCount st)
          then tick_cell dv (Z.of_nat i) <$> cells st !! i
          else cells st !! i)
  /\ (forall (i : nat) (x : float32),
        Z.of_nat i < activeCellCount st -> cells st !! i = Some x ->
        dv (Z.of_nat i) = 0 -> between c3_60 c4_20 x = true ->
        cells st' !! i = Some x)
  /\ activeCellCount st' = activeCellCount st
  /\ currentSettingA st' = currentSettingA st
  /\ nextCellIndexPerSlave st' = nextCellIndexPerSlave st
  /\ balanceCurrentA st' = balanceCurrentA st
  /\ packVoltageV st' = packVoltageV st
  /\ EEPROM st' = EEPROM st
  /\ canSent st' = canSent st
  /\ canPresent st' = canPresent st.
Proof.
  intros st'.
  pose proof (for_range_update float32 F32.zero (tick_cell dv) 0
                (activeCellCount st) (cells st)) as [HL HU].
  cbv zeta in HL, HU.
  assert (cells st'
          = for_range 0 (activeCellCount st)
              (fun i a => zset a i (tick_cell dv i (zget F32.zero a i)))
              (cells st)) as Ec.
  { unfold st'. rewrite tickSimData_eq. reflexivity. }
  split; [rewrite Ec; exact HL|].
  split; [intros i; rewrite Ec; apply HU|].
  split.
  { intros i x Hi Hx Hd Hb. rewrite Ec, HU, Hx.
    destruct (0 <=? Z.of_nat i) eqn:E1, (Z.of_nat i <? activeCellCount st) eqn:E2;
      zb; try lia.
    cbn [andb]. simpl. rewrite (tick_zero_draw dv _ x Hd Hb). reflexivity. }
  apply tick_keeps.
Qed.

(** ** The main loop *)

Lemma handleClient_fst (req : option request) (st : state) :
  fst (handleClient req st)
  = match req with
    | Some (GET_setCells a) => fst (handleSetCells a st)
    | Some (GET_setCurrent a) => fst (handleSetCurrent a st)
    | _ => st
    end.
Proof.
  destruct req as [[| |a|a]|]; try reflexivity; unfold handleClient.
  - destruct (handleSetCells a st); reflexivity.
  - destruct (handleSetCurrent a st); reflexivity.
Qed.

Lemma handleClient_snd (req : option request) (st : state) :
  snd (handleClient req st)
  = match req with
    | None => None
    | Some GET_root => Some (Page (activeCellCount st) 200)
    | Some GET_data => Some (Json (handleData st))
    | Some (GET_setCells _) | Some (GET_setCurrent _) => Some (Text 200)
    end.
Proof.
  destruct req as [[| |[c|]|[v|]]|]; reflexivity.
Qed.

Lemma handleClient_inv (req : option request) (st : state) :
  inv st ->
  inv (fst (handleClient req st))
  /\ canPresent (fst (handleClient req st)) = canPresent st.
Proof.
  intros H. rewrite handleClient_fst.
  destruct req as [[| |a|a]|]; try (split; [exact H|reflexivity]).
  - split; [apply set_cells_preserves_inv, H|].
    destruct a as [c|]; [|reflexivity].
    apply (set_cells_fields c st). apply H.
  - split; [apply set_current_preserves_inv, H|].
    destruct a as [v|]; [|reflexivity].
    apply (set_current_fields v st).
Qed.

Lemma loop_eq (req : option request) (now : Z) (rx_irq rx_poll : list frame)
      (dv : Z -> Z) (dt : Z) (s : sched) :
  loop req now rx_irq rx_poll dv dt s
  = (let st1 := fst (handleClient req (core s)) in
     let s2 := if canIrqFlag s
               then mkSched (drainCanMessages rx_irq st1) false now
               else mkSched st1 (canIrqFlag s) (lastPoll s) in
     if CAN_POLL_MS <=? u32_sub now (lastPoll s2)
     then mkSched (poll rx_poll dv dt (core s2)) (canIrqFlag s2) now
     else s2,
     snd (handleClient req (core s))).
Proof.
  unfold loop. destruct (handleClient req (core s)) as [st1 resp].
  reflexivity.
Qed.

Lemma u32_sub_elapsed (t0 t1 : Z) :
  0 <= t1 - t0 < 4294967296 ->
  u32_sub (t1 mod 4294967296) (t0 mod 4294967296) = t1 - t0.
Proof.
  intros H. unfold u32_sub.
  rewrite <- Zminus_mod. apply Z.mod_small. exact H.
Qed.

(** X17. The interrupt handler only sets the flag.  The pass of the
    main loop that follows clears the flag, drains the receive queue
    once and restarts the poll timer; the periodic branch is not taken
    in that pass, so without a transceiver the pass neither decodes a
    frame nor advances the simulation. *)
Theorem X17_loop_interrupt_pass (req : option request) (now : Z)
        (rx_irq rx_poll : list frame) (dv : Z -> Z) (dt : Z) (s : sched) :
  let r := loop req now rx_irq rx_poll dv dt (canIsr s) in
  let st1 := fst (handleClient req (core s)) in
  core (canIsr s) = core s
  /\ lastPoll (canIsr s) = lastPoll s
  /\ fst r = mkSched (drainCanMessages rx_irq st1) false now
  /\ (canPresent st1 = false -> fst r = mkSched st1 false now).
Proof.
  intros r st1. unfold r. rewrite loop_eq. cbv zeta.
  cbn [canIsr lastPoll core canIrqFlag fst].
  assert (u32_sub now now = 0) as ->
      by (unfold u32_sub; rewrite Z.sub_diag; reflexivity).
  change (CAN_POLL_MS <=? 0) with false. cbv iota.
  split; [reflexivity|]. split; [reflexivity|]. split; [reflexivity|].
  intros Hp. unfold drainCanMessages. fold st1. rewrite Hp. reflexivity.
Qed.

(** X18. Without a pending interrupt the periodic branch runs when at
    least 200 ms have passed since the timer was restarted, and then
    restarts it; the elapsed time is computed on the 32-bit millisecond
    counter, so the decision is the same when the counter has wrapped
    around in between.  The branch drains the queue with a transceiver
    and advances the simulation without one. *)
Theorem X18_loop_poll_timer (req : option request) (t0 t1 : Z)
        (rx_irq rx_poll : list frame) (dv : Z -> Z) (dt : Z) (s : sched) :
  canIrqFlag s = false ->
  lastPoll s = t0 mod 4294967296 ->
  0 <= t1 - t0 < 4294967296 ->
  let now := t1 mod 4294967296 in
  let r := loop req now rx_irq rx_poll dv dt s in
  let st1 := fst (handleClient req (core s)) in
  (t1 - t0 < 200 -> fst r = mkSched st1 false (lastPoll s))
  /\ (200 <= t1 - t0 ->
      fst r = mkSched (poll rx_poll dv dt st1) false now
      /\ (canPresent st1 = true ->
          core (fst r) = drainCanMessages rx_poll st1)
      /\ (canPresent st1 = false -> core (fst r) = tickSimData dv dt st1)).
Proof.
  intros Hf Hl Ht now r st1. unfold r. rewrite loop_eq. cbv zeta. rewrite Hf.
  cbn [lastPoll core canIrqFlag fst]. rewrite Hl. unfold now.
  rewrite (u32_sub_elapsed t0 t1 Ht). fold st1. unfold CAN_POLL_MS.
  split; intros H.
  - destruct (200 <=? t1 - t0) eqn:E; zb; [lia|reflexivity].
  - destruct (200 <=? t1 - t0) eqn:E; zb; [|lia].
    split; [reflexivity|]. cbn [core]. unfold poll.
    split; intros Hp; rewrite Hp; reflexivity.
Qed.

(** X19. A pass of the main loop keeps the invariant of the running
    firmware (array sizes, cell count in 1..32, cursors below the count,
    magic byte, no NaN among the cells and the temperature) and the
    transceiver flag.  A pass without a request sends no reply; the root
    page is rendered with the cell count in use and a refresh of 200 ms;
    the root and data requests change nothing by themselves; both
    setting requests are answered 200. *)
Theorem X19_loop_pass (req : option request) (now : Z)
        (rx_irq rx_poll : list frame) (dv : Z -> Z) (dt : Z) (s : sched) :
  inv (core s) -> draws_ok dv dt ->
  let r := loop req now rx_irq rx_poll dv dt s in
  inv (core (fst r))
  /\ canPresent (core (fst r)) = canPresent (core s)
  /\ snd r
     = match req with
       | None => None
       | Some GET_root => Some (Page (activeCellCount (core s)) 200)
       | Some GET_data => Some (Json (handleData (core s)))
       | Some (GET_setCells _) | Some (GET_setCurrent _) => Some (Text 200)
       end
  /\ (match req with
      | None | Some GET_root | Some GET_data =>
          fst (handleClient req (core s)) = core s
      | _ => True
      end).
Proof.
  intros Hinv Hd r. unfold r. rewrite loop_eq. cbv zeta. cbn [fst snd].
  destruct (handleClient_inv req (core s) Hinv) as [H1 P1].
  set (st1 := fst (handleClient req (core s))) in *.
  assert (forall l st, inv st ->
            inv (drainCanMessages l st)
            /\ canPresent (drainCanMessages l st) = canPresent st) as Hdr.
  { intros l st H. split; [apply drain_preserves_inv, H|].
    apply (drain_keeps l st). }
  assert (forall st, inv st ->
            inv (poll rx_poll dv dt st)
            /\ canPresent (poll rx_poll dv dt st) = canPresent st) as Hpoll.
  { intros st H. unfold poll. destruct (canPresent st) eqn:E.
    - rewrite <- E. apply Hdr, H.
    - split; [apply tick_preserves_inv; assumption|].
      rewrite <- E. apply (tick_keeps dv dt st). }
  split; [|split; [|split]].
  - destruct (canIrqFlag s); cbn [lastPoll core canIrqFlag];
      destruct (CAN_POLL_MS <=? _); cbn [core].
    + apply Hpoll, Hdr, H1.
    + apply Hdr, H1.
    + apply Hpoll, H1.
    + exact H1.
  - destruct (canIrqFlag s); cbn [lastPoll core canIrqFlag];
      destruct (CAN_POLL_MS <=? _); cbn [core].
    + rewrite (proj2 (Hpoll _ (proj1 (Hdr rx_irq st1 H1)))).
      rewrite (proj2 (Hdr rx_irq st1 H1)). exact P1.
    + rewrite (proj2 (Hdr rx_irq st1 H1)). exact P1.
    + rewrite (proj2 (Hpoll st1 H1)). exact P1.
    + exact P1.
  - apply handleClient_snd.
  - destruct req as [[| |a|a]|]; try exact I; reflexivity.
Qed.

(** ** The further properties at sample inputs *)

(** X2 at a pack-voltage frame of 4000 x 10 mV. *)
Lemma X2_witness :
  2 <= len frame_pack /\
  decodeFrame frame_pack st_fresh
  = set_packVoltageV (F32.mul (F32.of_Z (le16 frame_pack 2)) c0_01) st_fresh /\
  between F32.zero (F32.lit 65535 100)
          (packVoltageV (decodeFrame frame_pack st_fresh)) = true.
Proof.
  assert (2 <= len frame_pack) as H by (vm_compute; discriminate).
  destruct (X2_scalar_frames frame_pack st_fresh H) as (_ & Hp & _).
  destruct (Hp eq_refl) as [_ H4].
  split; [exact H|]. apply H4. vm_compute. discriminate.
Defined.

(** X3 at a queue of two frames of slave 5 with a pack-voltage frame in
    between, after [setup]. *)
Lemma X3_witness :
  inv st_fresh /\ canPresent st_fresh = true /\
  cursor (drainCanMessages [frame_burst; frame_pack; frame_burst] st_fresh) 5
  = (cursor st_fresh 5
     + fold_right (fun f a => advance 5 f + a) 0
                  [frame_burst; frame_pack; frame_burst])
    mod activeCellCount st_fresh.
Proof.
  assert (canPresent st_fresh = true) as Hc by (vm_compute; reflexivity).
  split; [exact st_fresh_inv|]. split; [exact Hc|].
  exact (proj1 (X3_cursor_after_drain
                  [frame_burst; frame_pack; frame_burst] st_fresh 5
                  st_fresh_inv Hc)).
Defined.

(** X4 at a frame of slave 5 followed by a frame of slave 6, after
    [setup]. *)
Lemma X4_witness :
  inv st_fresh /\
  buf_at frame_burst 0 <> buf_at frame_burst6 0 /\
  cursor st_fresh (buf_at frame_burst 0)
  = cursor st_fresh (buf_at frame_burst6 0) /\
  cells (decodeFrame frame_burst6 (decodeFrame frame_burst st_fresh))
  = cells (decodeFrame frame_burst6 st_fresh).
Proof.
  assert (buf_at frame_burst 0 <> buf_at frame_burst6 0) as Hne
      by (vm_compute; discriminate).
  assert (cursor st_fresh (buf_at frame_burst 0)
          = cursor st_fresh (buf_at frame_burst6 0)) as Hcur
      by (vm_compute; reflexivity).
  assert (2 <= len frame_burst) as Hl1 by (vm_compute; discriminate).
  assert (2 <= len frame_burst6) as Hl2 by (vm_compute; discriminate).
  assert (complete_readings frame_burst <= complete_readings frame_burst6)
    as Hk by (vm_compute; discriminate).
  split; [exact st_fresh_inv|]. split; [exact Hne|]. split; [exact Hcur|].
  exact (proj1 (X4_shared_cells_overwritten frame_burst frame_burst6 st_fresh
                  st_fresh_inv Hl1 eq_refl Hl2 eq_refl Hne Hcur Hk)).
Defined.

(** X7 at the state after [setup]. *)
Lemma X7_witness :
  shape_ok st_fresh /\ activeCellCount st_fresh <= 32 /\
  j_cells (handleData st_fresh)
  = take (Z.to_nat (activeCellCount st_fresh)) (cells st_fresh).
Proof.
  pose proof st_fresh_inv as (Hs & (Hn & _) & _).
  split; [exact Hs|]. split; [exact (proj2 Hn)|].
  exact (proj1 (X7_snapshot_cells st_fresh Hs (proj2 Hn))).
Defined.

(** X8 at the state after [setup]. *)
Lemma X8_witness :
  numeric st_fresh /\
  F32.leb (j_min (handleData st_fresh)) c100 = true /\
  F32.leb F32.zero (j_max (handleData st_fresh)) = true.
Proof.
  pose proof st_fresh_inv as (_ & _ & _ & Hnum).
  destruct (X8_snapshot_min_max st_fresh Hnum) as (_ & H1 & H2 & _).
  split; [exact Hnum|]. split; [exact H1|exact H2].
Defined.

(** X9 at a request for 4 cells, after [setup]. *)
Lemma X9_witness :
  shape_ok st_fresh /\
  fst (handleSetCells (Some 4) (fst (handleSetCells (Some 4) st_fresh)))
  = fst (handleSetCells (Some 4) st_fresh).
Proof.
  pose proof st_fresh_inv as (Hs & _).
  destruct (X9_set_cells_request 4 st_fresh Hs) as (_ & _ & H & _).
  split; [exact Hs|exact H].
Defined.

(** X10 at a request for 42.5 A, after [setup]. *)
Lemma X10_witness :
  shape_ok st_fresh /\
  F32.isnan (currentSettingA (fst (handleSetCurrent (Some c42_5) st_fresh)))
  = false /\
  cells (fst (handleSetCurrent (Some c42_5) st_fresh)) = cells st_fresh.
Proof.
  pose proof st_fresh_inv as (Hs & _).
  destruct (X10_set_current_request c42_5 st_fresh Hs)
    as (_ & _ & _ & H1 & _ & _ & H2 & _).
  split; [exact Hs|]. split; [exact H1|exact H2].
Defined.

(** X11 at the requests for 12 cells and 42.5 A, after [setup]. *)
Lemma X11_witness :
  shape_ok st_fresh /\
  fst (handleSetCurrent (Some c42_5) (fst (handleSetCells (Some 12) st_fresh)))
  = fst (handleSetCells (Some 12) (fst (handleSetCurrent (Some c42_5) st_fresh))).
Proof.
  pose proof st_fresh_inv as (Hs & _).
  split; [exact Hs|exact (X11_requests_commute 12 c42_5 st_fresh Hs)].
Defined.

(** X12 at preferences that hold the magic byte. *)
Lemma X12_witness :
  EEPROM_read (EEPROM st_inf) 0 = EEPROM_MAGIC /\
  EEPROM (loadPrefs st_inf) = EEPROM st_inf /\
  loadPrefs (loadPrefs st_inf) = loadPrefs st_inf.
Proof.
  assert (EEPROM_read (EEPROM st_inf) 0 = EEPROM_MAGIC) as Hm
      by (vm_compute; reflexivity).
  pose proof (X12_load_reads_only st_inf Hm) as H. cbv zeta in H.
  split; [exact Hm|]. split; [exact (proj1 H)|].
  exact (proj2 (proj2 (proj2 (proj2 (proj2 (proj2 (proj2 (proj2 (proj2
           (proj2 H)))))))))).
Defined.

(** X13 at an erased flash, with a transceiver. *)
Lemma X13_witness :
  length flash_erased = 64%nat /\
  canPresent (setup flash_erased true) = true /\
  nextCellIndexPerSlave (setup flash_erased true) = replicate 256 0.
Proof.
  assert (length flash_erased = 64%nat) as Hl by reflexivity.
  destruct (X13_after_setup flash_erased true Hl) as (H1 & _ & _ & H4 & _).
  split; [exact Hl|]. split; [exact H1|exact H4].
Defined.

Lemma st_sample_reachable : reachable st_sample.
Proof.
  unfold st_sample.
  apply (reach_step (fst (handleSetCells (Some 40) st_fresh)));
    [|apply step_decode].
  apply (reach_step st_fresh); [|apply step_set_cells].
  apply reach_setup. reflexivity.
Defined.

(** X14 at a state reached by a request for 40 cells and one frame. *)
Lemma X14_witness :
  reachable st_sample /\
  activeCellCount (setup (ee_flash (EEPROM st_sample)) false)
  = activeCellCount st_sample.
Proof.
  split; [exact st_sample_reachable|].
  exact (proj2 (X14_power_cycle_keeps_count st_sample false
                  st_sample_reachable)).
Defined.

(** X15 at the same state. *)
Lemma X15_witness :
  reachable st_sample /\
  Forall (fun tx : can_tx => fst tx = 1) (canSent st_sample).
Proof.
  split; [exact st_sample_reachable|].
  exact (proj1 (proj2 (X15_transmissions st_sample st_sample_reachable))).
Defined.

(** X18 at a poll timer restarted 100 ms before the millisecond counter
    wraps around and a pass 150 ms after it has. *)
Lemma X18_witness :
  canIrqFlag sched_before_wrap = false /\
  lastPoll sched_before_wrap = 4294967196 mod 4294967296 /\
  0 <= 4294967446 - 4294967196 < 4294967296 /\
  fst (loop None (4294967446 mod 4294967296) [] [frame_burst]
            (fun _ => 0) 0 sched_before_wrap)
  = mkSched (poll [frame_burst] (fun _ => 0) 0
                  (fst (handleClient None (core sched_before_wrap))))
            false (4294967446 mod 4294967296).
Proof.
  assert (0 <= 4294967446 - 4294967196 < 4294967296) as Ht by lia.
  pose proof (X18_loop_poll_timer None 4294967196 4294967446 [] [frame_burst]
                (fun _ => 0) 0 sched_before_wrap eq_refl eq_refl Ht) as H.
  cbv zeta in H.
  split; [reflexivity|]. split; [reflexivity|]. split; [exact Ht|].
  apply (proj2 H). lia.
Defined.

(** X19 at a data request in the first pass after [setup]. *)
Lemma X19_witness :
  inv (core (mkSched st_fresh false 0)) /\ draws_ok (fun _ => 3) (-2) /\
  inv (core (fst (loop (Some GET_data) 300 [] [frame_burst]
                       (fun _ => 3) (-2) (mkSched st_fresh false 0)))).
Proof.
  assert (draws_ok (fun _ => 3) (-2)) as Hd
    by (split; [intros _; split; discriminate|split; discriminate]).
  split; [exact st_fresh_inv|]. split; [exact Hd|].
  exact (proj1 (X19_loop_pass (Some GET_data) 300 [] [frame_burst]
                  (fun _ => 3) (-2) (mkSched st_fresh false 0)
                  st_fresh_inv Hd)).
Defined.

(** X20 at the same state. *)
Lemma X20_witness :
  reachable st_sample /\ no_nan st_sample.
Proof.
  split; [exact st_sample_reachable|].
  exact (proj1 (X20_reachable_no_nan st_sample st_sample_reachable)).
Defined.
